(** * OllamaLearn-Hub: the line-delimited JSON consumers and request wrappers

    A shallow embedding of the request code of the repository:

    - [streaming_request]  (src/2_streaming_response.py)
    - [chat], [build_prompt] of [OllamaChatbot]  (src/3_conversation.py)
    - [simple_request]  (src/1_basic_request.py)
    - [query_ollama]  (app.py)

    and, around them,

    - [format_response], [print_box]  (src/1_basic_request.py)
    - [streaming_with_parameters]  (src/2_streaming_response.py)
    - [set_system_prompt], [clear_history], [show_history] of
      [OllamaChatbot], [interactive_chat], [demo_conversation]
      (src/3_conversation.py)
    - [get_available_models], [api_generate], [api_models], [api_status]
      (app.py)

    Python objects that come out of JSON are values of type [value]; a
    Python [dict] is a [gmap string value].  Printing is a trace of output
    pieces, exceptions are results, and the two are threaded by the small
    monad [io].  The network and the JSON library are not part of the
    repository: [requests.post], [Response.json] and [json.loads] are
    variables of the sections that hold the program, so that every
    statement is about any server and any decoder.  So are [requests.get],
    [str.lower] and [float] on a [str]; what is typed at the keyboard is a
    list given to [interactive_chat].

    The file has the program first (one module per source file), then the
    vocabulary of the statements ([Lines], [Replies]), then the proofs. *)

From Stdlib Require Import ZArith Floats Ascii String.
From stdpp Require Import base strings gmap list pretty.

Set Warnings "-register-all,-inexact-float".
#[local] Open Scope Z_scope.

(** ** Python objects *)

Module Py.

(** Python [str] and [bytes] are both byte strings here; a [str] holds the
    UTF-8 encoding of its text. *)
Abbreviation str := string (only parsing).
Abbreviation bytes := string (only parsing).

Definition LF : string := String (Ascii.ascii_of_nat 10) EmptyString.

(** What [json.loads] can build, which is also what the functions below
    put into the dictionaries they return. *)
Inductive value : Type :=
| VNone
| VBool (b : bool)
| VInt (z : Z)
| VFloat (f : float)
| VStr (s : str)
| VList (l : list value)
| VDict (d : gmap string value).

(** The exception classes the code can meet.  [ConnectTimeout] derives from
    both [ConnectionError] and [Timeout]; [RequestsJSONDecodeError] is
    [requests.exceptions.JSONDecodeError], which derives from
    [RequestException] and from [json.JSONDecodeError]. *)
Inductive exn_class : Type :=
| ConnectionError | ConnectTimeout | ReadTimeout | HTTPError
| ChunkedEncodingError | RequestsJSONDecodeError | OtherRequestException
| JSONDecodeError | UnicodeDecodeError
| AttributeError | TypeError | OverflowError | ZeroDivisionError
| OtherException.

Record exn : Type := Exn { exn_cls : exn_class; exn_str : str }.

(** [isinstance(e, requests.exceptions.ConnectionError)] and the like. *)
Definition is_ConnectionError (e : exn) : bool :=
  match exn_cls e with ConnectionError | ConnectTimeout => true | _ => false end.

Definition is_Timeout (e : exn) : bool :=
  match exn_cls e with ConnectTimeout | ReadTimeout => true | _ => false end.

Definition is_RequestException (e : exn) : bool :=
  match exn_cls e with
  | ConnectionError | ConnectTimeout | ReadTimeout | HTTPError
  | ChunkedEncodingError | RequestsJSONDecodeError | OtherRequestException => true
  | _ => false
  end.

Definition is_JSONDecodeError (e : exn) : bool :=
  match exn_cls e with JSONDecodeError | RequestsJSONDecodeError => true | _ => false end.

Definition is_Exception (e : exn) : bool := true.

(** How a computation ends. *)
Inductive outcome (A : Type) : Type :=
| Returns (a : A)
| Raises (e : exn).
Arguments Returns {A} a.
Arguments Raises {A} e.

(** ** Standard output

    One piece per thing written: a literal text, the [str()] of an object
    (what [print(x)] and an f-string field [{x}] write), or an object
    under a format specification (a field [{x:.2f}]). *)
Inductive out : Type :=
| Text (s : str)
| Show (v : value)
| Format (v : value) (spec : str).

(** ** Effects: what was printed, then how the computation ended *)

Definition io (A : Type) : Type := (list out * outcome A)%type.

#[export] Instance io_ret : MRet io := λ A a, ([], Returns a).

#[export] Instance io_bind : MBind io := λ A B k m,
  match m with
  | (o, Returns a) => let '(o', r) := k a in (o ++ o', r)
  | (o, Raises e) => (o, Raises e)
  end.

Definition raise {A} (e : exn) : io A := ([], Raises e).

Definition lift {A} (r : outcome A) : io A := ([], r).

(** [print(...)], which ends the line, and [print(..., end=...)] with an
    empty end. *)
Definition print (parts : list out) : io unit := (parts ++ [Text LF], Returns tt).
Definition print_noend (parts : list out) : io unit := (parts, Returns tt).

(** [try: body  except C1: h1  except C2 as e: h2 ...]: the first clause
    whose class test accepts the exception handles it; with none, the
    exception goes on to the caller. *)
Definition except_clause (A : Type) : Type := ((exn → bool) * (exn → io A))%type.

Fixpoint find_clause {A} (cs : list (except_clause A)) (e : exn) : option (io A) :=
  match cs with
  | [] => None
  | (test, handler) :: cs' => if test e then Some (handler e) else find_clause cs' e
  end.

Definition try_except {A} (body : io A) (cs : list (except_clause A)) : io A :=
  match body with
  | (o, Returns a) => (o, Returns a)
  | (o, Raises e) =>
      match find_clause cs e with
      | Some (o', r) => (o ++ o', r)
      | None => (o, Raises e)
      end
  end.

(** [for x in xs: s = body(x, s)] over the items an iterator yields, with
    the exception, if any, that the iterator raises after its last item. *)
Fixpoint for_each {A S} (xs : list A) (failure : option exn)
    (body : A → S → io S) (s : S) : io S :=
  match xs with
  | [] => match failure with Some e => raise e | None => mret s end
  | x :: xs' => s' ← body x s; for_each xs' failure body s'
  end.

(** ** Operations on objects *)

(** Truth value of an object, as [if x:] takes it. *)
Definition truthy (v : value) : bool :=
  match v with
  | VNone => false
  | VBool b => b
  | VInt z => negb (z =? 0)
  | VFloat f => negb (f =? 0)%float
  | VStr s => negb (String.eqb s EmptyString)
  | VList l => match l with [] => false | _ :: _ => true end
  | VDict d => negb (Nat.eqb (size d) 0)
  end.

(** [type(obj).__name__]. *)
Definition type_name (v : value) : str :=
  match v with
  | VNone => "NoneType"
  | VBool _ => "bool"
  | VInt _ => "int"
  | VFloat _ => "float"
  | VStr _ => "str"
  | VList _ => "list"
  | VDict _ => "dict"
  end.

(** The exception of [obj.name] where [obj] has no such attribute. *)
Definition no_attribute (obj : value) (name : str) : exn :=
  Exn AttributeError
      ("'" +:+ type_name obj +:+ "' object has no attribute '" +:+ name +:+ "'").

(** [obj.get(key, dflt)]: only a [dict] has the method. *)
Definition get (obj : value) (key : str) (dflt : value) : outcome value :=
  match obj with
  | VDict d => Returns (default dflt (d !! key))
  | _ => Raises (no_attribute obj "get")
  end.

(** *** [str.strip]

    The characters [str.isspace] accepts, in their UTF-8 encoding. *)
Definition code (c : ascii) : N := N_of_ascii c.

Definition ascii_space (c : ascii) : bool :=
  let n := code c in
  ((9 <=? n) && (n <=? 13) || (28 <=? n) && (n <=? 32))%N.

(** U+0085, U+00A0, U+1680, U+2000..U+200A, U+2028, U+2029, U+202F,
    U+205F, U+3000. *)
Definition wide_space2 (a b : ascii) : bool :=
  ((code a =? 194) && ((code b =? 133) || (code b =? 160)))%N.

Definition wide_space3 (a b c : ascii) : bool :=
  ((code a =? 225) && (code b =? 154) && (code c =? 128)
   || (code a =? 226) && (code b =? 128)
      && ((128 <=? code c) && (code c <=? 138)
          || (code c =? 168) || (code c =? 169) || (code c =? 175))
   || (code a =? 226) && (code b =? 129) && (code c =? 159)
   || (code a =? 227) && (code b =? 128) && (code c =? 128))%N.

(** The rest of [s] after one leading whitespace character, if it has one. *)
Definition drop_space (s : str) : option str :=
  match s with
  | String a s1 =>
      if ascii_space a then Some s1 else
      match s1 with
      | String b s2 =>
          if wide_space2 a b then Some s2 else
          match s2 with
          | String c s3 => if wide_space3 a b c then Some s3 else None
          | EmptyString => None
          end
      | EmptyString => None
      end
  | EmptyString => None
  end.

(** The same from the end, on the reversed string. *)
Definition drop_space_rev (s : str) : option str :=
  match s with
  | String c s1 =>
      if ascii_space c then Some s1 else
      match s1 with
      | String b s2 =>
          if wide_space2 b c then Some s2 else
          match s2 with
          | String a s3 => if wide_space3 a b c then Some s3 else None
          | EmptyString => None
          end
      | EmptyString => None
      end
  | EmptyString => None
  end.

Fixpoint drop_while (drop : str → option str) (fuel : nat) (s : str) : str :=
  match fuel with
  | O => s
  | S fuel' =>
      match drop s with
      | Some s' => drop_while drop fuel' s'
      | None => s
      end
  end.

Definition lstrip (s : str) : str := drop_while drop_space (String.length s) s.

Definition rstrip (s : str) : str :=
  String.rev (drop_while drop_space_rev (String.length s) (String.rev s)).

Definition strip (s : str) : str := rstrip (lstrip s).

(** [obj.strip()]: only a [str] (among JSON objects) has the method. *)
Definition strip_method (obj : value) : outcome str :=
  match obj with
  | VStr s => Returns (strip s)
  | _ => Raises (no_attribute obj "strip")
  end.

(** *** True division

    [float(n)] rounds to nearest-even and raises [OverflowError] where the
    result would not be finite. *)
Definition finite_or_overflow (f : spec_float) (msg : str) : outcome float :=
  match f with
  | S754_infinity _ | S754_nan => Raises (Exn OverflowError msg)
  | _ => Returns (SF2Prim f)
  end.

Definition float_of_int (n : Z) : outcome float :=
  finite_or_overflow (binary_normalize prec emax n 0 false)
                     "int too large to convert to float".

(** [a / b] on two [int]: the quotient rounded once.  The quotient is
    computed to at least 55 bits and the last bit records an inexact
    remainder, so that the rounding of [binary_normalize] is that of the
    exact quotient. *)
Definition int_truediv (a b : Z) : outcome float :=
  if b =? 0 then Raises (Exn ZeroDivisionError "division by zero") else
  let negative := xorb (a <? 0) (b <? 0) in
  let n := Z.abs a in
  let d := Z.abs b in
  let k := Z.max 0 (Z.log2 d + 56 - Z.log2 n) in
  let q := (n * 2 ^ k) / d in
  let r := (n * 2 ^ k) mod d in
  let m := 2 * q + (if r =? 0 then 0 else 1) in
  finite_or_overflow
    (binary_normalize prec emax (if negative then - m else m) (- (k + 1)) negative)
    "integer division result too large for a float".

Definition float_truediv (f g : float) : outcome float :=
  if (g =? 0)%float then Raises (Exn ZeroDivisionError "float division by zero")
  else Returns (f / g)%float.

(** A [bool] is an [int] in arithmetic. *)
Inductive number : Type := NInt (z : Z) | NFloat (f : float).

Definition as_number (v : value) : option number :=
  match v with
  | VInt z => Some (NInt z)
  | VBool b => Some (NInt (if b then 1 else 0))
  | VFloat f => Some (NFloat f)
  | _ => None
  end.

Definition bind_outcome {A B} (r : outcome A) (k : A → outcome B) : outcome B :=
  match r with Returns a => k a | Raises e => Raises e end.

Definition truediv (a b : value) : outcome value :=
  match as_number a, as_number b with
  | Some (NInt x), Some (NInt y) =>
      bind_outcome (int_truediv x y) (λ q, Returns (VFloat q))
  | Some (NInt x), Some (NFloat g) =>
      bind_outcome (float_of_int x) (λ f,
      bind_outcome (float_truediv f g) (λ q, Returns (VFloat q)))
  | Some (NFloat f), Some (NInt y) =>
      bind_outcome (float_of_int y) (λ g,
      bind_outcome (float_truediv f g) (λ q, Returns (VFloat q)))
  | Some (NFloat f), Some (NFloat g) =>
      bind_outcome (float_truediv f g) (λ q, Returns (VFloat q))
  | _, _ =>
      Raises (Exn TypeError ("unsupported operand type(s) for /: '" +:+ type_name a
                             +:+ "' and '" +:+ type_name b +:+ "'"))
  end.

(** [a > 0] for the numbers the code compares with zero. *)
Definition gt_zero (v : value) : outcome bool :=
  match as_number v with
  | Some (NInt z) => Returns (0 <? z)
  | Some (NFloat f) => Returns (0 <? f)%float
  | None =>
      Raises (Exn TypeError ("'>' not supported between instances of '"
                             +:+ type_name v +:+ "' and 'int'"))
  end.

(** [s * n] on a [str]. *)
Fixpoint repeat_str (s : str) (n : nat) : str :=
  match n with O => EmptyString | S n' => s +:+ repeat_str s n' end.

End Py.
Import Py.

(** ** The [requests] library, as far as the code uses it *)

Module Requests.

(** A response whose headers have arrived.  [lines] is what [iter_lines()]
    yields and [stream_failure] the exception it raises after the last of
    them, if the transport breaks; [content] is the body read at once. *)
Record response : Type := Response {
  status_code : Z;
  reason : str;
  url : str;
  lines : list bytes;
  stream_failure : option exn;
  content : bytes
}.

(** The arguments of [requests.post(url, json=..., stream=..., timeout=...)]. *)
Record request : Type := Request {
  req_url : str;
  req_json : value;
  req_stream : bool;
  req_timeout : option Z
}.

(** [response.raise_for_status()]: [HTTPError] on 4xx and 5xx. *)
Definition raise_for_status (r : response) : io unit :=
  if (400 <=? status_code r) && (status_code r <? 500) then
    raise (Exn HTTPError (pretty (status_code r) +:+ " Client Error: "
                          +:+ reason r +:+ " for url: " +:+ url r))
  else if (500 <=? status_code r) && (status_code r <? 600) then
    raise (Exn HTTPError (pretty (status_code r) +:+ " Server Error: "
                          +:+ reason r +:+ " for url: " +:+ url r))
  else mret tt.

(** The status codes on which [raise_for_status] returns. *)
Definition ok_status (r : response) : bool :=
  negb ((400 <=? status_code r) && (status_code r <? 600)).

(** The same response with other lines on its stream. *)
Definition with_lines (r : response) (ls : list bytes) : response :=
  Response (status_code r) (reason r) (url r) ls (stream_failure r) (content r).

(** [if line:] on the [bytes] that [iter_lines()] yields. *)
Definition nonempty (line : bytes) : bool := negb (String.eqb line EmptyString).

End Requests.
Import Requests.

(** ** src/2_streaming_response.py *)

Module Streaming.

Definition OLLAMA_API : str := "http://localhost:11434/api/generate".
Definition MODEL : str := "neural-chat".

Section Streaming.

Variable json_loads : bytes → outcome value.
Variable requests_post : request → outcome response.

(** The body of [for line in response.iter_lines():]. *)
Definition streaming_line (line : bytes) (_ : unit) : io unit :=
  if nonempty line then
    try_except
      (json_response ← lift (json_loads line);
       token ← lift (get json_response "response" (VStr EmptyString));
       print_noend [Show token];;
       done ← lift (get json_response "done" (VBool false));
       if truthy done then
         print [Text (LF +:+ repeat_str "-" 60)];;
         print [Text "✅ Complete!"];;
         eval_count ← lift (get json_response "eval_count" (VStr "N/A"));
         print [Text "   Tokens: "; Show eval_count];;
         total_duration ← lift (get json_response "total_duration" (VStr "N/A"));
         print [Text "   Duration: "; Show total_duration; Text " ns"]
       else mret tt)
      [(is_JSONDecodeError, λ _, mret tt)]
  else mret tt.

(** [payload], and the call [requests.post(OLLAMA_API, json=payload, stream=True)]. *)
Definition payload (prompt model : str) : gmap string value :=
  {[ "model" := VStr model; "prompt" := VStr prompt; "stream" := VBool true ]}.

Definition post_args (prompt model : str) : request :=
  Request OLLAMA_API (VDict (payload prompt model)) true None.

Definition streaming_request (prompt : str) (model : str) : io unit :=
  print [Text "🤔 Thinking..."];;
  print [Text (repeat_str "-" 60)];;
  try_except
    (response ← lift (requests_post (post_args prompt model));
     raise_for_status response;;
     for_each (lines response) (stream_failure response) streaming_line tt)
    [(is_ConnectionError, λ _,
        print [Text "❌ Error: Cannot connect to Ollama API"];;
        print [Text "   Make sure to run: ollama serve"]);
     (is_RequestException, λ e, print [Text "❌ Error: "; Text (exn_str e)])].

End Streaming.
End Streaming.

(** ** src/3_conversation.py *)

Module Conversation.

Record exchange : Type := Exchange { user : str; assistant : str }.

Record OllamaChatbot : Type := Chatbot {
  model : str;
  api_url : str;
  conversation_history : list exchange;
  system_prompt : str
}.

Definition init (model api_url : str) : OllamaChatbot :=
  {| model := model;
     api_url := api_url;
     conversation_history := [];
     system_prompt := "You are a helpful assistant. Provide clear and concise answers." |}.

Definition build_prompt (self : OllamaChatbot) (user_message : str) : str :=
  let full_prompt := "System: " +:+ system_prompt self +:+ LF +:+ LF in
  let full_prompt :=
    fold_left (λ full_prompt exchange,
                 full_prompt +:+ "User: " +:+ user exchange +:+ LF
                 +:+ "Assistant: " +:+ assistant exchange +:+ LF +:+ LF)
              (conversation_history self) full_prompt in
  full_prompt +:+ "User: " +:+ user_message +:+ LF +:+ "Assistant:".

(** [self.conversation_history.append(...)]. *)
Definition append_exchange (self : OllamaChatbot) (x : exchange) : OllamaChatbot :=
  {| model := model self;
     api_url := api_url self;
     conversation_history := conversation_history self ++ [x];
     system_prompt := system_prompt self |}.

(** [full_response += token] where [full_response] is a [str]. *)
Definition str_add (full_response : str) (token : value) : outcome str :=
  match token with
  | VStr s => Returns (full_response +:+ s)
  | _ =>
      let quote := String (ascii_of_nat 34) EmptyString in
      Raises (Exn TypeError ("can only concatenate str (not " +:+ quote
                             +:+ type_name token +:+ quote +:+ ") to str"))
  end.

Section Conversation.

Variable json_loads : bytes → outcome value.
Variable Response_json : response → outcome value.
Variable requests_post : request → outcome response.

(** The body of [for line in response.iter_lines():], on the running
    [full_response]. *)
Definition chat_line (line : bytes) (full_response : str) : io str :=
  if nonempty line then
    try_except
      (json_resp ← lift (json_loads line);
       token ← lift (get json_resp "response" (VStr EmptyString));
       print_noend [Show token];;
       lift (str_add full_response token))
      [(is_JSONDecodeError, λ _, mret full_response)]
  else mret full_response.

(** [payload], and the call
    [requests.post(self.api_url, json=payload, stream=stream)]. *)
Definition payload (self : OllamaChatbot) (user_message : str) (stream : bool)
    : gmap string value :=
  let full_prompt := build_prompt self user_message in
  {[ "model" := VStr (model self); "prompt" := VStr full_prompt;
     "stream" := VBool stream; "temperature" := VFloat 0.7 ]}.

Definition post_args (self : OllamaChatbot) (user_message : str) (stream : bool)
    : request :=
  Request (api_url self) (VDict (payload self user_message stream)) stream None.

(** The [try] block of [chat]: the response, and the chatbot with the
    exchange appended. *)
Definition chat_body (self : OllamaChatbot) (user_message : str) (stream : bool)
    : io (value * OllamaChatbot) :=
  response ← lift (requests_post (post_args self user_message stream));
  raise_for_status response;;
  full_response ←
    (if stream then
       print_noend [Text "💬 "];;
       full_response ← for_each (lines response) (stream_failure response)
                                chat_line EmptyString;
       print [];;
       mret (VStr full_response)
     else
       result ← lift (Response_json response);
       full_response ← lift (get result "response" (VStr EmptyString));
       print [Text "💬 "; Show full_response];;
       mret full_response);
  stripped ← lift (strip_method full_response);
  let self := append_exchange self (Exchange user_message stripped) in
  mret (full_response, self).

(** [chat] returns the response, or [None] ([VNone]), together with the
    chatbot as the call leaves it. *)
Definition chat (self : OllamaChatbot) (user_message : str) (stream : bool)
    : io (value * OllamaChatbot) :=
  try_except
    (chat_body self user_message stream)
    [(is_ConnectionError, λ _,
        print [Text "❌ Error: Cannot connect to Ollama API"];;
        print [Text "   Make sure to run: ollama serve"];;
        mret (VNone, self));
     (is_Exception, λ e,
        print [Text "❌ Error: "; Text (exn_str e)];;
        mret (VNone, self))].

End Conversation.
End Conversation.

(** ** src/1_basic_request.py *)

Module Basic.
Section Basic.

Variable Response_json : response → outcome value.
Variable requests_post : request → outcome response.

Definition OLLAMA_API : str := "http://localhost:11434/api/generate".
Definition MODEL : str := "neural-chat".

(** The statistics of a parsed body: [tokens] and [duration_s]. *)
Definition request_stats (result : value) : io (value * value) :=
  tokens ← lift (get result "eval_count" (VInt 0));
  duration_ns ← lift (get result "total_duration" (VInt 0));
  duration_s ← (if truthy duration_ns
                then lift (truediv duration_ns (VInt 1000000000))
                else mret (VInt 0));
  mret (tokens, duration_s).

(** [payload], and the call [requests.post(OLLAMA_API, json=payload)]. *)
Definition payload (prompt : str) : gmap string value :=
  {[ "model" := VStr MODEL; "prompt" := VStr prompt; "stream" := VBool false ]}.

Definition post_args (prompt : str) : request :=
  Request OLLAMA_API (VDict (payload prompt)) false None.

Definition simple_request (prompt : str) : io value :=
  print [Text (LF +:+ "  🤔 Processing with "); Text MODEL; Text "..."];;
  print [Text ("  ⏳ Please wait..." +:+ LF)];;
  try_except
    (response ← lift (requests_post (post_args prompt));
     raise_for_status response;;
     result ← lift (Response_json response);
     text ← lift (get result "response" (VStr EmptyString));
     generated_text ← lift (strip_method text);
     '(tokens, duration_s) ← request_stats result;
     print [Text "  ✅ Response Generated Successfully!"];;
     print [Text "  📊 Tokens: "; Show tokens];;
     print [Text "  ⚡ Speed: "; Format duration_s ".2f"; Text "s"];;
     positive ← lift (gt_zero duration_s);
     (if positive : bool then
        rate ← lift (truediv tokens duration_s);
        print [Text "  🚀 Speed: "; Format rate ".1f"; Text " tokens/sec"]
      else mret tt);;
     print [];;
     mret (VStr generated_text))
    [(is_ConnectionError, λ _,
        print [Text "  ❌ Connection Error!"];;
        print [Text "  ⚠️  Cannot connect to Ollama API"];;
        print [Text "  💡 Make sure to run: ollama serve"];;
        mret VNone);
     (is_RequestException, λ e,
        print [Text "  ❌ Error: "; Text (exn_str e)];;
        mret VNone)].

End Basic.
End Basic.

(** ** app.py *)

Module App.

(** [query_ollama] returns a dictionary, or the response object itself
    when [stream] is set. *)
Inductive query_result : Type :=
| Dict (d : gmap string value)
| Resp (r : response).

Section App.

Variable Response_json : response → outcome value.
Variable requests_post : request → outcome response.

Definition OLLAMA_API : str := "http://localhost:11434/api/generate".
Definition DEFAULT_MODEL : str := "neural-chat".

(** [payload], and the call [requests.post(OLLAMA_API, json=payload, timeout=60)]. *)
Definition payload (prompt model : str) (temperature : float) (stream : bool)
    : gmap string value :=
  {[ "model" := VStr model; "prompt" := VStr prompt;
     "stream" := VBool stream; "temperature" := VFloat temperature ]}.

Definition post_args (prompt model : str) (temperature : float) (stream : bool)
    : request :=
  Request OLLAMA_API (VDict (payload prompt model temperature stream)) false (Some 60).

Definition query_ollama (prompt model : str) (temperature : float) (stream : bool)
    : io query_result :=
  try_except
    (response ← lift (requests_post (post_args prompt model temperature stream));
     raise_for_status response;;
     if stream then mret (Resp response)
     else
       result ← lift (Response_json response);
       text ← lift (get result "response" (VStr EmptyString));
       tokens ← lift (get result "eval_count" (VInt 0));
       duration_ns ← lift (get result "total_duration" (VInt 0));
       duration ← lift (truediv duration_ns (VFloat 1e9));
       mret (Dict {[ "response" := text; "tokens" := tokens;
                     "duration" := duration; "status" := VStr "success" ]}))
    [(is_ConnectionError, λ _,
        mret (Dict {[ "response" := VStr "❌ Error: Cannot connect to Ollama API. Make sure to run 'ollama serve'";
                      "status" := VStr "error" ]}));
     (is_Timeout, λ _,
        mret (Dict {[ "response" := VStr "❌ Error: Request timed out. Try a simpler prompt.";
                      "status" := VStr "error" ]}));
     (is_Exception, λ e,
        mret (Dict {[ "response" := VStr ("❌ Error: " +:+ exn_str e);
                      "status" := VStr "error" ]}))].

End App.
End App.

(** ** JSON text for the examples

    A decoder for the part of JSON the examples below are written in:
    objects, arrays, strings with the one-letter escapes, integers and the
    three literals, with blanks between tokens; and, as [json.loads] does
    on [bytes], it first decodes the line as UTF-8 and raises
    [UnicodeDecodeError] where that fails.  The theorems hold for any
    [json.loads]; this one only supplies concrete lines.  Numbers with a
    fraction or an exponent, the escapes of four hexadecimal digits and
    lines in UTF-16 or UTF-32 (a byte-order mark or a NUL among the first
    bytes) are outside it. *)

Module JsonText.

Definition dquote : ascii := ascii_of_nat 34.

(** Writes a line with ['] where the wire has a double quote. *)
Fixpoint wire (s : string) : bytes :=
  match s with
  | EmptyString => EmptyString
  | String c s' => String (if (code c =? 39)%N then dquote else c) (wire s')
  end.

Definition is_ws (c : ascii) : bool :=
  ((code c =? 32) || (code c =? 9) || (code c =? 10) || (code c =? 13))%N.

Definition is_digit (c : ascii) : bool := ((48 <=? code c) && (code c <=? 57))%N.

Fixpoint skip_ws (s : string) : string :=
  match s with
  | String c s' => if is_ws c then skip_ws s' else s
  | EmptyString => s
  end.

Fixpoint take_digits (s : string) (acc : Z) : Z * string :=
  match s with
  | String c s' =>
      if is_digit c then take_digits s' (10 * acc + Z.of_N (code c) - 48) else (acc, s)
  | EmptyString => (acc, s)
  end.

(** The integer part of a number: a single zero, or digits that do not
    begin with one. *)
Definition take_int (s : string) : Z * string :=
  match s with
  | String c rest => if (code c =? 48)%N then (0, rest) else take_digits s 0
  | EmptyString => (0, s)
  end.

Definition unescape (c : ascii) : option ascii :=
  let n := code c in
  if (n =? 34)%N || (n =? 92)%N || (n =? 47)%N then Some c
  else if (n =? 110)%N then Some (ascii_of_nat 10)
  else if (n =? 116)%N then Some (ascii_of_nat 9)
  else if (n =? 114)%N then Some (ascii_of_nat 13)
  else if (n =? 98)%N then Some (ascii_of_nat 8)
  else if (n =? 102)%N then Some (ascii_of_nat 12)
  else None.

(** The characters up to the closing quote, and what follows it. *)
Fixpoint take_string (s : string) : option (string * string) :=
  match s with
  | EmptyString => None
  | String c s' =>
      if (code c =? 34)%N then Some (EmptyString, s')
      else if (code c =? 92)%N then
        match s' with
        | String e s'' =>
            match unescape e, take_string s'' with
            | Some c', Some (body, rest) => Some (String c' body, rest)
            | _, _ => None
            end
        | EmptyString => None
        end
      else if (code c <? 32)%N then None
      else
        match take_string s' with
        | Some (body, rest) => Some (String c body, rest)
        | None => None
        end
  end.

Fixpoint parse_value (fuel : nat) (s : string) : option (value * string) :=
  match fuel with
  | O => None
  | S fuel' =>
      match skip_ws s with
      | EmptyString => None
      | String c rest =>
          if (code c =? 123)%N then
            match skip_ws rest with
            | String c' rest' =>
                if (code c' =? 125)%N then Some (VDict ∅, rest')
                else parse_members fuel' rest ∅
            | EmptyString => None
            end
          else if (code c =? 91)%N then
            match skip_ws rest with
            | String c' rest' =>
                if (code c' =? 93)%N then Some (VList [], rest')
                else parse_elements fuel' rest []
            | EmptyString => None
            end
          else if (code c =? 34)%N then
            match take_string rest with
            | Some (body, rest') => Some (VStr body, rest')
            | None => None
            end
          else if (code c =? 45)%N then
            match rest with
            | String d _ =>
                if is_digit d then
                  let '(n, rest') := take_int rest in Some (VInt (- n), rest')
                else None
            | EmptyString => None
            end
          else if is_digit c then
            let '(n, rest') := take_int (String c rest) in Some (VInt n, rest')
          else if String.prefix "true" (String c rest) then
            Some (VBool true, String.substring 4 (String.length rest) (String c rest))
          else if String.prefix "false" (String c rest) then
            Some (VBool false, String.substring 5 (String.length rest) (String c rest))
          else if String.prefix "null" (String c rest) then
            Some (VNone, String.substring 4 (String.length rest) (String c rest))
          else None
      end
  end
with parse_members (fuel : nat) (s : string) (acc : gmap string value)
    : option (value * string) :=
  match fuel with
  | O => None
  | S fuel' =>
      match skip_ws s with
      | EmptyString => None
      | String c rest =>
          if (code c =? 34)%N then
            match take_string rest with
            | Some (key, rest1) =>
                match skip_ws rest1 with
                | String colon rest2 =>
                    if (code colon =? 58)%N then
                      match parse_value fuel' rest2 with
                      | Some (v, rest3) =>
                          match skip_ws rest3 with
                          | String sep rest4 =>
                              if (code sep =? 44)%N then
                                parse_members fuel' rest4 (<[key := v]> acc)
                              else if (code sep =? 125)%N then
                                Some (VDict (<[key := v]> acc), rest4)
                              else None
                          | EmptyString => None
                          end
                      | None => None
                      end
                    else None
                | EmptyString => None
                end
            | None => None
            end
          else None
      end
  end
with parse_elements (fuel : nat) (s : string) (acc : list value)
    : option (value * string) :=
  match fuel with
  | O => None
  | S fuel' =>
      match parse_value fuel' s with
      | Some (v, rest1) =>
          match skip_ws rest1 with
          | String sep rest2 =>
              if (code sep =? 44)%N then parse_elements fuel' rest2 (acc ++ [v])
              else if (code sep =? 93)%N then Some (VList (acc ++ [v]), rest2)
              else None
          | EmptyString => None
          end
      | None => None
      end
  end.

(** The message is the one of [json.loads] where the text is empty or its
    first character cannot begin a value; elsewhere it only says that the
    text is not JSON. *)
Definition begins_value (c : ascii) : bool :=
  is_ws c || is_digit c
  || ((code c =? 123) || (code c =? 91) || (code c =? 34) || (code c =? 45)
      || (code c =? 116) || (code c =? 102) || (code c =? 110))%N.

Definition decode_error (line : bytes) : exn :=
  match line with
  | String c _ =>
      if begins_value c then Exn JSONDecodeError "Invalid JSON text"
      else Exn JSONDecodeError "Expecting value: line 1 column 1 (char 0)"
  | EmptyString => Exn JSONDecodeError "Expecting value: line 1 column 1 (char 0)"
  end.

(** Where the text after a value begins: the line, the column and the
    index of the character after the first [n] bytes of the text. *)
Fixpoint position (doc : string) (n : nat) (line column char : N) : N * N * N :=
  match n, doc with
  | S n', String c doc' =>
      if (code c =? 10)%N then position doc' n' (line + 1) 1 (char + 1)
      else if (128 <=? code c)%N && (code c <? 192)%N
      then position doc' n' line column char
      else position doc' n' line (column + 1) (char + 1)
  | _, _ => (line, column, char)
  end.

Definition extra_data (doc rest : string) : exn :=
  let '(line, column, char) :=
    position doc (String.length doc - String.length rest) 1 1 0 in
  Exn JSONDecodeError ("Extra data: line " +:+ pretty line +:+ " column "
                       +:+ pretty column +:+ " (char " +:+ pretty char +:+ ")").

(** [json.loads] on a [str]. *)
Definition loads_text (doc : string) : outcome value :=
  match parse_value (2 * String.length doc + 2) doc with
  | Some (v, rest) =>
      match skip_ws rest with
      | EmptyString => Returns v
      | String c rest' => Raises (extra_data doc (String c rest'))
      end
  | None => Raises (decode_error doc)
  end.

(** *** Bytes that are not UTF-8

    [line.decode('utf-8', 'surrogatepass')], as [json.loads] calls it:
    the first sequence the decoder rejects, with the exception it raises.
    The three bytes of a surrogate are let through. *)
Definition hex_digit (n : N) : ascii :=
  ascii_of_N (if (n <? 10)%N then 48 + n else 87 + n).

Definition hex2 (c : ascii) : str :=
  String (hex_digit (code c / 16)) (String (hex_digit (code c mod 16)) EmptyString).

Definition cannot_decode (first : ascii) (start len : nat) (reason : str) : exn :=
  Exn UnicodeDecodeError
    (if Nat.eqb len 1
     then "'utf-8' codec can't decode byte 0x" +:+ hex2 first +:+ " in position "
          +:+ pretty start +:+ ": " +:+ reason
     else "'utf-8' codec can't decode bytes in position " +:+ pretty start +:+ "-"
          +:+ pretty (start + len - 1)%nat +:+ ": " +:+ reason).

Definition continuation (c : ascii) : bool := ((128 <=? code c) && (code c <? 192))%N.

Fixpoint undecodable (s : bytes) (pos : nat) : option exn :=
  match s with
  | EmptyString => None
  | String a s1 =>
      if (code a <? 128)%N then undecodable s1 (S pos)
      else if (code a <? 194)%N then Some (cannot_decode a pos 1 "invalid start byte")
      else if (code a <? 224)%N then
        match s1 with
        | EmptyString => Some (cannot_decode a pos 1 "unexpected end of data")
        | String b s2 =>
            if continuation b then undecodable s2 (pos + 2)
            else Some (cannot_decode a pos 1 "invalid continuation byte")
        end
      else if (code a <? 240)%N then
        match s1 with
        | EmptyString => Some (cannot_decode a pos 1 "unexpected end of data")
        | String b s2 =>
            if negb (continuation b)
               || (if (code b <? 160)%N then (code a =? 224)%N else (code a =? 237)%N)
            then
              match s2 with
              | String c s3 =>
                  if (code a =? 237)%N && continuation b && (160 <=? code b)%N
                     && continuation c
                  then undecodable s3 (pos + 3)
                  else Some (cannot_decode a pos 1 "invalid continuation byte")
              | EmptyString => Some (cannot_decode a pos 1 "invalid continuation byte")
              end
            else
              match s2 with
              | EmptyString => Some (cannot_decode a pos 2 "unexpected end of data")
              | String c s3 =>
                  if continuation c then undecodable s3 (pos + 3)
                  else Some (cannot_decode a pos 2 "invalid continuation byte")
              end
        end
      else if (code a <? 245)%N then
        match s1 with
        | EmptyString => Some (cannot_decode a pos 1 "unexpected end of data")
        | String b s2 =>
            if negb (continuation b)
               || (if (code b <? 144)%N then (code a =? 240)%N else (code a =? 244)%N)
            then Some (cannot_decode a pos 1 "invalid continuation byte")
            else
              match s2 with
              | EmptyString => Some (cannot_decode a pos 2 "unexpected end of data")
              | String c s3 =>
                  if negb (continuation c)
                  then Some (cannot_decode a pos 2 "invalid continuation byte")
                  else
                    match s3 with
                    | EmptyString => Some (cannot_decode a pos 3 "unexpected end of data")
                    | String d s4 =>
                        if continuation d then undecodable s4 (pos + 4)
                        else Some (cannot_decode a pos 3 "invalid continuation byte")
                    end
              end
        end
      else Some (cannot_decode a pos 1 "invalid start byte")
  end.

(** [json.loads] on the [bytes] of a line. *)
Definition loads (line : bytes) : outcome value :=
  match undecodable line 0 with
  | Some e => Raises e
  | None => loads_text line
  end.

(** [Response.json()]: it reads the body as text, so that it raises no
    [UnicodeDecodeError], and raises the exception of [requests] where the
    text is not JSON. *)
Definition response_json (r : response) : outcome value :=
  match loads_text (content r) with
  | Returns v => Returns v
  | Raises e => Raises (Exn RequestsJSONDecodeError (exn_str e))
  end.

(** A server that answers every request with status 200 and the given
    lines, and one that cannot be reached. *)
Definition serve (body : list bytes) (failure : option exn) (whole : bytes)
    (_ : request) : outcome response :=
  Returns (Response 200 "OK" "http://localhost:11434/api/generate" body failure whole).

Definition unreachable (_ : request) : outcome response :=
  Raises (Exn ConnectionError "Connection refused").

End JsonText.

(** ** How the consumers read a line

    The vocabulary of the statements below, over any [json.loads]. *)

Module Lines.

(** What a line of the stream is to the loop bodies. *)
Inductive reading : Type :=
| Blank                              (* empty: [if line:] skips it *)
| Malformed                          (* [json.loads] raises [JSONDecodeError] *)
| Object (d : gmap string value)     (* a JSON object *)
| Fatal (e : exn).                   (* anything else: the loop is left by [e] *)

(** [json_resp.get("response", "")] when it is a [str]: the text piece. *)
Definition text_piece (d : gmap string value) : option str :=
  match default (VStr EmptyString) (d !! "response") with
  | VStr s => Some s
  | _ => None
  end.

(** The truth value of [json_response.get("done", False)]. *)
Definition is_final (d : gmap string value) : bool :=
  truthy (default (VBool false) (d !! "done")).

(** What [streaming_request] prints when a fragment says it is the last. *)
Definition trailer (d : gmap string value) : list out :=
  [Text (LF +:+ repeat_str "-" 60); Text LF;
   Text "✅ Complete!"; Text LF;
   Text "   Tokens: "; Show (default (VStr "N/A") (d !! "eval_count")); Text LF;
   Text "   Duration: "; Show (default (VStr "N/A") (d !! "total_duration"));
   Text " ns"; Text LF].

Definition banner : list out :=
  [Text "🤔 Thinking..."; Text LF; Text (repeat_str "-" 60); Text LF].

(** An output that carries a token count or a duration. *)
Definition reports_statistics (o : list out) : Prop :=
  In (Text "   Tokens: ") o ∨ In (Text "   Duration: ") o.

(** What the [except] clauses of the two consumers print. *)
Definition connection_report : list out :=
  [Text "❌ Error: Cannot connect to Ollama API"; Text LF;
   Text "   Make sure to run: ollama serve"; Text LF].

Definition error_report (e : exn) : list out :=
  if is_ConnectionError e then connection_report
  else [Text "❌ Error: "; Text (exn_str e); Text LF].

Section Lines.

Variable json_loads : bytes → outcome value.

Definition read (line : bytes) : reading :=
  if nonempty line then
    match json_loads line with
    | Returns (VDict d) => Object d
    | Returns v => Fatal (no_attribute v "get")
    | Raises e => if is_JSONDecodeError e then Malformed else Fatal e
    end
  else Blank.

(** A fragment is well formed when its text field is absent or a [str]. *)
Definition well_formed (line : bytes) : bool :=
  match read line with
  | Object d => bool_decide (is_Some (text_piece d))
  | _ => false
  end.

(** Lines that [chat] gets past: blank, malformed, or a well-formed fragment. *)
Definition tolerated (line : bytes) : bool :=
  match read line with
  | Blank | Malformed => true
  | Object d => bool_decide (is_Some (text_piece d))
  | Fatal _ => false
  end.

(** Lines that [streaming_request] gets past: it only prints the text field. *)
Definition readable (line : bytes) : bool :=
  match read line with
  | Fatal _ => false
  | _ => true
  end.

Definition final (line : bytes) : bool :=
  match read line with
  | Object d => is_final d
  | _ => false
  end.

(** The text piece of a line, empty where the line carries none. *)
Definition line_text (line : bytes) : str :=
  match read line with
  | Object d => default EmptyString (text_piece d)
  | _ => EmptyString
  end.

(** The concatenation, in arrival order, of the text pieces of the lines. *)
Definition stream_text (ls : list bytes) : str :=
  foldr (λ line rest, line_text line +:+ rest) EmptyString ls.

(** The tokens the lines put on standard output, one per fragment. *)
Definition line_tokens (line : bytes) : list out :=
  match read line with
  | Object d => [Show (default (VStr EmptyString) (d !! "response"))]
  | _ => []
  end.

Definition stream_tokens (ls : list bytes) : list out := flat_map line_tokens ls.

(** All that [streaming_request] prints for the lines. *)
Definition line_trace (line : bytes) : list out :=
  match read line with
  | Object d =>
      Show (default (VStr EmptyString) (d !! "response"))
      :: (if is_final d then trailer d else [])
  | _ => []
  end.

Definition stream_trace (ls : list bytes) : list out := flat_map line_trace ls.

(** What a completed [try] block of [chat] has accumulated as the response:
    the text the loop built from the stream, or the text field of the
    body. *)
Definition accumulated (Response_json : response → outcome value)
    (requests_post : request → outcome response)
    (self : Conversation.OllamaChatbot) (msg : str) (stream : bool) (text : str) : Prop :=
  ∃ r, requests_post (Conversation.post_args self msg stream) = Returns r ∧
    if stream then
      ∃ o, for_each (lines r) (stream_failure r)
                    (Conversation.chat_line json_loads) EmptyString
           = (o, Returns text)
    else
      ∃ d, Response_json r = Returns (VDict d)
           ∧ default (VStr EmptyString) (d !! "response") = VStr text.

End Lines.
End Lines.
Import Lines.

(** ** The dictionaries [query_ollama] returns, and the banner of
    [simple_request] *)

Module Replies.

Definition success_dict (body : gmap string value) (duration : value)
    : gmap string value :=
  {[ "response" := default (VStr EmptyString) (body !! "response");
     "tokens" := default (VInt 0) (body !! "eval_count");
     "duration" := duration;
     "status" := VStr "success" ]}.

(** The dictionary of the [except] clause that takes [e]. *)
Definition error_dict (e : exn) : gmap string value :=
  if is_ConnectionError e then
    {[ "response" := VStr "❌ Error: Cannot connect to Ollama API. Make sure to run 'ollama serve'";
       "status" := VStr "error" ]}
  else if is_Timeout e then
    {[ "response" := VStr "❌ Error: Request timed out. Try a simpler prompt.";
       "status" := VStr "error" ]}
  else
    {[ "response" := VStr ("❌ Error: " +:+ exn_str e);
       "status" := VStr "error" ]}.

Definition basic_banner : list out :=
  [Text (LF +:+ "  🤔 Processing with "); Text Basic.MODEL; Text "..."; Text LF;
   Text ("  ⏳ Please wait..." +:+ LF); Text LF].

End Replies.
Import Replies.

(** ** A chatbot and some lines for the examples *)

Module Examples.
Import JsonText.

Definition bot : Conversation.OllamaChatbot :=
  Conversation.init "llama2" "http://localhost:11434/api/generate".

Definition hel : bytes := wire "{'response':'Hel','done':false}".
Definition lo : bytes := wire "{'response':'lo'}".
Definition lo_final : bytes :=
  wire "{'response':'lo','done':true,'eval_count':42,'total_duration':2000000000}".
Definition bare_final : bytes := wire "{'response':'lo','done':true}".
Definition late : bytes := wire "{'response':'!'}".
Definition garbage : bytes := "{bad".
(** The single byte [0xFF], which is not UTF-8. *)
Definition not_utf8 : bytes := String (ascii_of_nat 255) EmptyString.
Definition no_fields : bytes := "{}".

Definition lo_final_object : gmap string value :=
  {[ "response" := VStr "lo"; "done" := VBool true;
     "eval_count" := VInt 42; "total_duration" := VInt 2000000000 ]}.

Definition whole_body : bytes :=
  wire "{'response':'hi','eval_count':42,'total_duration':2000000000}".

Definition whole_body_object : gmap string value :=
  {[ "response" := VStr "hi"; "eval_count" := VInt 42;
     "total_duration" := VInt 2000000000 ]}.

(** The response of a server that answers with the given stream or body. *)
Definition answer (body : list bytes) (failure : option exn) (whole : bytes) : response :=
  Response 200 "OK" "http://localhost:11434/api/generate" body failure whole.

Definition read_timeout : exn := Exn ConnectionError "Read timed out.".

End Examples.

(** ** More of [str]: [len], [split], slices *)

Module Text.

(** A byte that continues a character of more than one byte. *)
Definition continues (c : ascii) : bool := ((128 <=? code c) && (code c <? 192))%N.

(** [len(s)]: the number of characters. *)
Fixpoint len (s : str) : Z :=
  match s with
  | EmptyString => 0
  | String c s' => (if continues c then 0 else 1) + len s'
  end.

(** [sum(len(w) for w in ws)]. *)
Definition sum_len (ws : list str) : Z := foldr (λ w n, len w + n) 0 ws.

(** [s.split()]: the maximal runs of characters that are not whitespace.
    [word] holds the characters of the run being read. *)
Definition flush (word : str) : list str :=
  match word with
  | EmptyString => []
  | String _ _ => [word]
  end.

Fixpoint split_from (word : str) (s : str) : list str :=
  match s with
  | EmptyString => flush word
  | String a s1 =>
      if ascii_space a then flush word ++ split_from EmptyString s1 else
      match s1 with
      | String b s2 =>
          if wide_space2 a b then flush word ++ split_from EmptyString s2 else
          match s2 with
          | String c s3 =>
              if wide_space3 a b c then flush word ++ split_from EmptyString s3
              else split_from (word +:+ String a EmptyString) s1
          | EmptyString => split_from (word +:+ String a EmptyString) s1
          end
      | EmptyString => split_from (word +:+ String a EmptyString) s1
      end
  end.

Definition split (s : str) : list str := split_from EmptyString s.

(** [s[:n]] for [n >= 0]: the first [n] characters. *)
Fixpoint slice_to (n : nat) (s : str) : str :=
  match s with
  | EmptyString => EmptyString
  | String c s' =>
      if continues c then String c (slice_to n s') else
      match n with
      | O => EmptyString
      | S n' => String c (slice_to n' s')
      end
  end.

End Text.

(** ** src/1_basic_request.py: the layout of an answer *)

Module Layout.
Import Text.

(** The body of [for word in words:], on [lines] and [current_line]. *)
Definition place (max_width : Z) (state : list str * list str) (word : str)
    : list str * list str :=
  let '(lines, current_line) := state in
  if sum_len current_line + Z.of_nat (length current_line) + len word <=? max_width
  then (lines, current_line ++ [word])
  else
    (match current_line with
     | [] => lines
     | _ :: _ => lines ++ [String.concat " " current_line]
     end,
     [word]).

Definition format_response (text : str) (max_width : Z) : list str :=
  let words := split text in
  let '(lines, current_line) := fold_left (place max_width) words ([], []) in
  match current_line with
  | [] => lines
  | _ :: _ => lines ++ [String.concat " " current_line]
  end.

(** The three kinds of rows [print_box] prints. *)
Definition print_box (lines : list str) (box_char : str) (max_width : Z) : io unit :=
  print [Text ("╔" +:+ repeat_str "═" (Z.to_nat (max_width + 2)) +:+ "╗")];;
  for_each lines None
    (λ line _,
       let padding := max_width - len line in
       print [Text (box_char +:+ " " +:+ line +:+ repeat_str " " (Z.to_nat padding)
                    +:+ " " +:+ box_char)])
    tt;;
  print [Text ("╚" +:+ repeat_str "═" (Z.to_nat (max_width + 2)) +:+ "╝")].

End Layout.

(** The words of each line, before they are joined: the loop of
    [format_response] on lists of words. *)
Module Grouping.
Import Text.

Definition place_group (max_width : Z) (state : list (list str) * list str) (word : str)
    : list (list str) * list str :=
  let '(groups, current_line) := state in
  if sum_len current_line + Z.of_nat (length current_line) + len word <=? max_width
  then (groups, current_line ++ [word])
  else
    (match current_line with
     | [] => groups
     | _ :: _ => groups ++ [current_line]
     end,
     [word]).

Definition close (state : list (list str) * list str) : list (list str) :=
  match state.2 with
  | [] => state.1
  | _ :: _ => state.1 ++ [state.2]
  end.

Definition groups (words : list str) (max_width : Z) : list (list str) :=
  close (fold_left (place_group max_width) words ([], [])).

(** A group that fits the width, or holds one word only. *)
Definition fitted (max_width : Z) (g : list str) : Prop :=
  (∃ w, g = [w]) ∨ sum_len g + Z.of_nat (length g) - 1 ≤ max_width.

(** No group could have taken the first word of the next one. *)
Fixpoint greedy (max_width : Z) (gs : list (list str)) : Prop :=
  match gs with
  | g1 :: rest =>
      match rest with
      | g2 :: _ =>
          (∀ word, head g2 = Some word →
                   max_width < sum_len g1 + Z.of_nat (length g1) + len word)
          ∧ greedy max_width rest
      | [] => True
      end
  | [] => True
  end.

End Grouping.

(** ** src/3_conversation.py: the other methods, and the two sessions *)

Module Session.
Import Conversation Text.

Definition set_system_prompt (self : OllamaChatbot) (prompt : str) : OllamaChatbot :=
  {| model := model self;
     api_url := api_url self;
     conversation_history := conversation_history self;
     system_prompt := prompt |}.

Definition clear_history (self : OllamaChatbot) : io OllamaChatbot :=
  let self := {| model := model self;
                 api_url := api_url self;
                 conversation_history := [];
                 system_prompt := system_prompt self |} in
  print [Text "🗑️  Conversation history cleared"];;
  mret self.

(** [enumerate(l, start)]. *)
Fixpoint enumerate {A} (l : list A) (start : Z) : list (Z * A) :=
  match l with
  | [] => []
  | x :: l' => (start, x) :: enumerate l' (start + 1)
  end.

(** The body of [for i, exchange in enumerate(...)]. *)
Definition show_exchange (item : Z * exchange) (_ : unit) : io unit :=
  let '(i, exchange) := item in
  print [Text (LF +:+ "[Exchange "); Show (VInt i); Text "]"];;
  print [Text "👤 User: "; Text (user exchange)];;
  print [Text "🤖 Assistant: "; Text (slice_to 100 (assistant exchange)); Text "..."].

Definition show_history (self : OllamaChatbot) : io unit :=
  print [Text (LF +:+ "📋 Conversation History:")];;
  print [Text (repeat_str "-" 60)];;
  match conversation_history self with
  | [] => print [Text "(No conversation history yet)"]
  | _ :: _ =>
      for_each (enumerate (conversation_history self) 1) None show_exchange tt;;
      print [Text (LF +:+ repeat_str "-" 60)]
  end.

(** What [input()] gives: a typed line, or [KeyboardInterrupt] at the
    prompt (an interrupt while a request runs is outside this model); when
    nothing is left to read it raises [EOFError]. *)
Inductive keyboard : Type :=
| Typed (line : str)
| Interrupt.

Definition end_of_input : exn := Exn OtherException "EOF when reading a line".

Definition questions : list str :=
  ["What is a list in Python?";
   "How do I add elements to a list?";
   "What's the difference between a list and a tuple?";
   "Can you give me an example of using a list?"].

Section Session.

Variable json_loads : bytes → outcome value.
Variable Response_json : response → outcome value.
Variable requests_post : request → outcome response.
(** [str.lower]. *)
Variable lower : str → str.

(** The [while True:] loop of [interactive_chat], on what is typed; the
    result is the local [bot] as the loop leaves it. *)
Fixpoint session (inputs : list keyboard) (bot : OllamaChatbot) : io OllamaChatbot :=
  print_noend [Text "You: "];;
  match inputs with
  | [] => raise end_of_input
  | Interrupt :: _ =>
      print [Text (LF +:+ LF +:+ "👋 Goodbye!")];;
      mret bot
  | Typed line :: rest =>
      let user_input := strip line in
      if negb (truthy (VStr user_input)) then session rest bot
      else if String.eqb (lower user_input) "quit" then
        print [Text "👋 Goodbye!"];;
        mret bot
      else if String.eqb (lower user_input) "history" then
        show_history bot;;
        session rest bot
      else if String.eqb (lower user_input) "clear" then
        bot ← clear_history bot;
        session rest bot
      else
        '(_, bot) ← chat json_loads Response_json requests_post bot user_input true;
        print [];;
        session rest bot
  end.

(** An input on which the loop is left: [KeyboardInterrupt], or a line
    that says quit. *)
Definition leaves (k : keyboard) : bool :=
  match k with
  | Interrupt => true
  | Typed line =>
      truthy (VStr (strip line)) && String.eqb (lower (strip line)) "quit"
  end.

Definition interactive_chat (inputs : list keyboard) : io OllamaChatbot :=
  print [Text (repeat_str "=" 60)];;
  print [Text "OLLAMA - INTERACTIVE CHATBOT"];;
  print [Text (repeat_str "=" 60)];;
  print [];;
  let bot := init "llama2" "http://localhost:11434/api/generate" in
  print [Text "🤖 Chatbot initialized with model: "; Text (model bot)];;
  print [Text "💬 Type 'quit' to exit"];;
  print [Text "📋 Type 'history' to see conversation history"];;
  print [Text "🗑️  Type 'clear' to clear history"];;
  print [Text (repeat_str "-" 60)];;
  print [];;
  session inputs bot.

(** The body of [for question in questions:]. *)
Definition ask (question : str) (bot : OllamaChatbot) : io OllamaChatbot :=
  print [Text "👤 User: "; Text question];;
  '(_, bot) ← chat json_loads Response_json requests_post bot question true;
  print [];;
  mret bot.

Definition demo_conversation : io OllamaChatbot :=
  print [Text (repeat_str "=" 60)];;
  print [Text "OLLAMA - CONVERSATION DEMO"];;
  print [Text (repeat_str "=" 60)];;
  print [];;
  let bot := init "llama2" "http://localhost:11434/api/generate" in
  let bot := set_system_prompt bot
    "You are a friendly Python programming tutor. Explain concepts clearly." in
  print [Text "🤖 Model: "; Text (model bot)];;
  print [Text "📚 System Prompt: "; Text (system_prompt bot)];;
  print [Text (repeat_str "-" 60)];;
  print [];;
  bot ← for_each questions None ask bot;
  show_history bot;;
  mret bot.

End Session.
End Session.

(** What [show_history] prints for the exchange numbered [i]. *)
Definition shown_exchange (i : Z) (x : Conversation.exchange) : list out :=
  [Text (LF +:+ "[Exchange "); Show (VInt i); Text "]"; Text LF;
   Text "👤 User: "; Text (Conversation.user x); Text LF;
   Text "🤖 Assistant: "; Text (Text.slice_to 100 (Conversation.assistant x));
   Text "..."; Text LF].

(** What a session never changes: the model, the address, the system
    prompt. *)
Definition same_settings (a b : Conversation.OllamaChatbot) : Prop :=
  Conversation.model a = Conversation.model b
  ∧ Conversation.api_url a = Conversation.api_url b
  ∧ Conversation.system_prompt a = Conversation.system_prompt b.

(** The exchanges a run of questions leaves in the history: one for each
    question to which [chat] returns a text, made of the question and of
    that text stripped; each question is put to the chatbot as the answers
    before it left it. *)
Fixpoint answered (json_loads : bytes → outcome value)
    (Response_json : response → outcome value)
    (requests_post : request → outcome response)
    (bot : Conversation.OllamaChatbot) (questions : list str)
    : list Conversation.exchange :=
  match questions with
  | [] => []
  | question :: rest =>
      match (Conversation.chat json_loads Response_json requests_post
               bot question true).2 with
      | Returns (VStr text, _) =>
          let exchange := Conversation.Exchange question (strip text) in
          exchange :: answered json_loads Response_json requests_post
                        (Conversation.append_exchange bot exchange) rest
      | _ => answered json_loads Response_json requests_post bot rest
      end
  end.

(** ** src/2_streaming_response.py: [streaming_with_parameters] *)

Module Parameters.
Import Streaming.

Section Parameters.

Variable json_loads : bytes → outcome value.
Variable requests_post : request → outcome response.

(** The body of [for line in response.iter_lines():]. *)
Definition parameters_line (line : bytes) (_ : unit) : io unit :=
  if nonempty line then
    try_except
      (json_response ← lift (json_loads line);
       token ← lift (get json_response "response" (VStr EmptyString));
       print_noend [Show token];;
       done ← lift (get json_response "done" (VBool false));
       if truthy done then print [Text (LF +:+ repeat_str "-" 60)]
       else mret tt)
      [(is_JSONDecodeError, λ _, mret tt)]
  else mret tt.

Definition payload (prompt model : str) (temperature top_p : float)
    : gmap string value :=
  {[ "model" := VStr model; "prompt" := VStr prompt; "stream" := VBool true;
     "temperature" := VFloat temperature; "top_p" := VFloat top_p ]}.

Definition post_args (prompt model : str) (temperature top_p : float) : request :=
  Request OLLAMA_API (VDict (payload prompt model temperature top_p)) true None.

Definition streaming_with_parameters (prompt model : str) (temperature top_p : float)
    : io unit :=
  print [Text "🤖 Model: "; Text model; Text " | 🌡️ Temperature: ";
         Show (VFloat temperature); Text " | 📊 Top-p: "; Show (VFloat top_p)];;
  print [Text (repeat_str "-" 60)];;
  try_except
    (response ← lift (requests_post (post_args prompt model temperature top_p));
     raise_for_status response;;
     for_each (lines response) (stream_failure response) parameters_line tt)
    [(is_ConnectionError, λ _,
        print [Text "❌ Cannot connect to Ollama. Run: ollama serve"]);
     (is_Exception, λ e, print [Text "❌ Error: "; Text (exn_str e)])].

End Parameters.

(** What [streaming_with_parameters] prints first, what it prints for a
    line, and what its [except] clauses print. *)
Definition heading (model : str) (temperature top_p : float) : list out :=
  [Text "🤖 Model: "; Text model; Text " | 🌡️ Temperature: ";
   Show (VFloat temperature); Text " | 📊 Top-p: "; Show (VFloat top_p); Text LF;
   Text (repeat_str "-" 60); Text LF].

Definition line_echo (json_loads : bytes → outcome value) (line : bytes) : list out :=
  match read json_loads line with
  | Object d =>
      Show (default (VStr EmptyString) (d !! "response"))
      :: (if is_final d then [Text (LF +:+ repeat_str "-" 60); Text LF] else [])
  | _ => []
  end.

Definition stream_echo (json_loads : bytes → outcome value) (ls : list bytes)
    : list out :=
  flat_map (line_echo json_loads) ls.

Definition failure_report (e : exn) : list out :=
  if is_ConnectionError e
  then [Text "❌ Cannot connect to Ollama. Run: ollama serve"; Text LF]
  else [Text "❌ Error: "; Text (exn_str e); Text LF].

End Parameters.

(** ** app.py: the routes that answer with JSON *)

Module Routes.
Import App.

Definition MODELS_API : str := "http://localhost:11434/api/tags".

(** [obj[key]] with a [str] key: only a [dict] can hold one ([KeyError]
    has no class of its own here: no handler of this code tells it from
    another exception). *)
Definition getitem (obj : value) (key : str) : outcome value :=
  match obj with
  | VDict d =>
      match d !! key with
      | Some v => Returns v
      | None => Raises (Exn OtherException ("'" +:+ key +:+ "'"))
      end
  | VStr _ =>
      (* the wording of CPython 3.11 and later *)
      Raises (Exn TypeError "string indices must be integers, not 'str'")
  | VList _ => Raises (Exn TypeError "list indices must be integers or slices, not str")
  | _ => Raises (Exn TypeError ("'" +:+ type_name obj +:+ "' object is not subscriptable"))
  end.

(** The characters of a [str], each as a [str]. *)
Fixpoint characters (s : str) : list str :=
  match s with
  | EmptyString => []
  | String c s' =>
      match characters s' with
      | String c' tail :: rest =>
          if Text.continues c' then String c (String c' tail) :: rest
          else String c EmptyString :: String c' tail :: rest
      | _ => [String c EmptyString]
      end
  end.

(** What [for m in models] goes through.  The keys of a [dict] come in
    the order of insertion, which the map does not keep; the loops below
    raise the same exception on whichever [str] comes first, so that only
    the presence of a key matters to them. *)
Definition iterate (models : value) : outcome (list value) :=
  match models with
  | VList l => Returns l
  | VStr s => Returns (VStr <$> characters s)
  | VDict d => Returns (VStr <$> (map_to_list d).*1)
  | _ => Raises (Exn TypeError ("'" +:+ type_name models +:+ "' object is not iterable"))
  end.

(** [[f(m) for m in items]]: from left to right, up to the first item on
    which [f] raises. *)
Fixpoint collect (f : value → outcome value) (l : list value) : outcome (list value) :=
  match l with
  | [] => Returns []
  | m :: l' =>
      bind_outcome (f m) (λ v,
      bind_outcome (collect f l') (λ vs, Returns (v :: vs)))
  end.

Definition comprehension (f : value → outcome value) (models : value)
    : outcome (list value) :=
  bind_outcome (iterate models) (collect f).

Section Routes.

Variable Response_json : response → outcome value.
Variable requests_post : request → outcome response.
(** [requests.get(url)]. *)
Variable requests_get : str → outcome response.
(** [float(s)] on a [str]. *)
Variable float_of_str : str → outcome float.

Definition get_available_models : io (list value) :=
  try_except
    (response ← lift (requests_get MODELS_API);
     body ← lift (Response_json response);
     models ← lift (get body "models" (VList []));
     lift (comprehension (λ model, getitem model "name") models))
    [(is_Exception, λ _, mret [VStr DEFAULT_MODEL])].

(** [float(x)]. *)
Definition to_float (x : value) : outcome float :=
  match x with
  | VFloat f => Returns f
  | VInt n => float_of_int n
  | VBool b => Returns (if b then 1 else 0)%float
  | VStr s => float_of_str s
  | _ =>
      Raises (Exn TypeError ("float() argument must be a string or a real number, not '"
                             +:+ type_name x +:+ "'"))
  end.

(** [query_ollama] as [api_generate] calls it: the prompt and the model
    are whatever the body of the request holds. *)
Definition query_ollama (prompt model : value) (temperature : float) (stream : bool)
    : io query_result :=
  try_except
    (response ← lift (requests_post
       (Request OLLAMA_API
          (VDict {[ "model" := model; "prompt" := prompt;
                    "stream" := VBool stream; "temperature" := VFloat temperature ]})
          false (Some 60)));
     raise_for_status response;;
     if stream then mret (Resp response)
     else
       result ← lift (Response_json response);
       text ← lift (get result "response" (VStr EmptyString));
       tokens ← lift (get result "eval_count" (VInt 0));
       duration_ns ← lift (get result "total_duration" (VInt 0));
       duration ← lift (truediv duration_ns (VFloat 1e9));
       mret (Dict {[ "response" := text; "tokens" := tokens;
                     "duration" := duration; "status" := VStr "success" ]}))
    [(is_ConnectionError, λ _,
        mret (Dict {[ "response" := VStr "❌ Error: Cannot connect to Ollama API. Make sure to run 'ollama serve'";
                      "status" := VStr "error" ]}));
     (is_Timeout, λ _,
        mret (Dict {[ "response" := VStr "❌ Error: Request timed out. Try a simpler prompt.";
                      "status" := VStr "error" ]}));
     (is_Exception, λ e,
        mret (Dict {[ "response" := VStr ("❌ Error: " +:+ exn_str e);
                      "status" := VStr "error" ]}))].

(** A view returns the JSON it answers with and the status code; an
    exception that leaves the view is Flask's to answer. *)
Definition api_generate (data : value) : io (value * Z) :=
  prompt ← lift (get data "prompt" (VStr EmptyString));
  model ← lift (get data "model" (VStr DEFAULT_MODEL));
  temperature ← lift (bind_outcome (get data "temperature" (VFloat 0.7)) to_float);
  if negb (truthy prompt) then
    mret (VDict {[ "error" := VStr "No prompt provided" ]}, 400)
  else
    result ← query_ollama prompt model temperature false;
    match result with
    | Dict d => mret (VDict d, 200)
    | Resp _ =>
        (* [jsonify] of a response object *)
        raise (Exn TypeError "Object of type Response is not JSON serializable")
    end.

(** The entry of a model in the answer of [api_models]. *)
Definition model_entry (m : value) : outcome value :=
  bind_outcome (getitem m "name") (λ name,
  bind_outcome (get m "size" (VInt 0)) (λ size,
  bind_outcome (truediv size (VInt (1024 ^ 3))) (λ gb,
  Returns (VDict {[ "name" := name; "size" := gb ]})))).

Definition api_models : io (value * Z) :=
  try_except
    (response ← lift (requests_get MODELS_API);
     body ← lift (Response_json response);
     models ← lift (get body "models" (VList []));
     entries ← lift (comprehension model_entry models);
     mret (VDict {[ "models" := VList entries; "status" := VStr "success" ]}, 200))
    [(is_Exception, λ e,
        mret (VDict {[ "error" := VStr (exn_str e); "status" := VStr "error" ]}, 500))].

Definition api_status : io (value * Z) :=
  try_except
    (response ← lift (requests_get MODELS_API);
     raise_for_status response;;
     mret (VDict {[ "status" := VStr "online";
                    "server" := VStr "Ollama is running";
                    "version" := VStr "1.0" ]}, 200))
    [(is_Exception, λ _,
        mret (VDict {[ "status" := VStr "offline";
                       "error" := VStr "Cannot connect to Ollama server";
                       "help" := VStr "Run 'ollama serve' in another terminal" ]}, 503))].

End Routes.
End Routes.

(** An entry of the answer of [api_models] and the name it carries. *)
Definition named (entry name : value) : Prop :=
  ∃ d, entry = VDict d ∧ d !! "name" = Some name.

(** ** A keyboard, a model server and other pieces for the examples *)

Module Scenarios.
Import JsonText.

(** [str.lower] on ASCII text. *)
Fixpoint ascii_lower (s : str) : str :=
  match s with
  | EmptyString => EmptyString
  | String c s' =>
      String (if ((65 <=? code c) && (code c <=? 90))%N
              then ascii_of_N (code c + 32) else c)
             (ascii_lower s')
  end.

(** [float(s)] on the strings of digits; the examples convert no other. *)
Definition float_of_digits (s : str) : outcome float :=
  match s, take_digits s 0 with
  | String _ _, (n, EmptyString) => float_of_int n
  | _, _ => Raises (Exn OtherException ("could not convert string to float: '" +:+ s +:+ "'"))
  end.

(** A server that answers [requests.get] with the given status and body. *)
Definition tags (status : Z) (reason : str) (body : bytes) (url : str)
    : outcome response :=
  Returns (Response status reason url [] None body).

Definition two_models : bytes :=
  wire "{'models':[{'name':'llama2','size':1073741824},{'name':'mistral'}]}".

Definition not_an_object : bytes := "[1]".

Definition told (answer : str) : Conversation.OllamaChatbot :=
  Conversation.append_exchange Examples.bot (Conversation.Exchange "hi" answer).

End Scenarios.

(** * Proofs *)

Example strip_spaces : strip ("  hi there " +:+ LF) = "hi there".
Proof. reflexivity. Qed.

Example truediv_two_seconds :
  truediv (VInt 2000000000) (VInt 1000000000) = Returns (VFloat 2).
Proof. vm_compute. reflexivity. Qed.

Example truediv_rounds_once :
  int_truediv 1 3 = Returns 0.33333333333333331%float
  ∧ int_truediv (10 ^ 400) (10 ^ 399) = Returns 10%float
  ∧ int_truediv 0 (-5) = Returns (-0)%float.
Proof. vm_compute. repeat split; reflexivity. Qed.

Example loads_fragment :
  JsonText.loads (JsonText.wire "{'response': 'Hel', 'done': false}")
  = Returns (VDict {[ "response" := VStr "Hel"; "done" := VBool false ]}).
Proof. vm_compute. reflexivity. Qed.

Example loads_final :
  JsonText.loads (JsonText.wire "{'response':'lo','done':true,'eval_count':42,'total_duration':2000000000}")
  = Returns (VDict {[ "response" := VStr "lo"; "done" := VBool true;
                      "eval_count" := VInt 42; "total_duration" := VInt 2000000000 ]}).
Proof. vm_compute. reflexivity. Qed.

Example loads_malformed :
  JsonText.loads "{bad" = Raises (Exn JSONDecodeError "Invalid JSON text").
Proof. vm_compute. reflexivity. Qed.

Example loads_array : JsonText.loads "[1, 2]" = Returns (VList [VInt 1; VInt 2]).
Proof. vm_compute. reflexivity. Qed.

Example loads_leading_zero :
  JsonText.loads "01"
  = Raises (Exn JSONDecodeError "Extra data: line 1 column 2 (char 1)").
Proof. vm_compute. reflexivity. Qed.

Example loads_not_utf8 :
  JsonText.loads Examples.not_utf8
  = Raises (Exn UnicodeDecodeError
      "'utf-8' codec can't decode byte 0xff in position 0: invalid start byte").
Proof. vm_compute. reflexivity. Qed.

(** The two bytes that begin the euro sign, and a surrogate in three
    bytes, which the decoder lets through to the JSON scanner. *)
Example loads_truncated :
  JsonText.loads (String (ascii_of_nat 226) (String (ascii_of_nat 130) EmptyString))
  = Raises (Exn UnicodeDecodeError
      "'utf-8' codec can't decode bytes in position 0-1: unexpected end of data").
Proof. vm_compute. reflexivity. Qed.

Example loads_surrogate :
  JsonText.loads (String (ascii_of_nat 237) (String (ascii_of_nat 160)
                    (String (ascii_of_nat 128) EmptyString)))
  = Raises (Exn JSONDecodeError "Expecting value: line 1 column 1 (char 0)").
Proof. vm_compute. reflexivity. Qed.

(** ** Strings, status codes *)

Lemma append_nil_r (s : string) : s +:+ EmptyString = s.
Proof.
  induction s as [|c s IH]; [done |].
  change (String c (s +:+ EmptyString) = String c s). by rewrite IH.
Qed.

Lemma append_assoc (a b c : string) : (a +:+ b) +:+ c = a +:+ (b +:+ c).
Proof.
  induction a as [|x a IH]; [done |].
  change (String x ((a +:+ b) +:+ c) = String x (a +:+ (b +:+ c))). by rewrite IH.
Qed.

Lemma ok_raise_for_status r :
  ok_status r = true → raise_for_status r = ([], Returns tt).
Proof.
  unfold ok_status, raise_for_status. intros H.
  apply negb_true_iff, andb_false_iff in H.
  rewrite Z.leb_gt, Z.ltb_ge in H.
  destruct ((400 <=? status_code r) && (status_code r <? 500)) eqn:E4.
  { apply andb_true_iff in E4. rewrite Z.leb_le, Z.ltb_lt in E4. lia. }
  destruct ((500 <=? status_code r) && (status_code r <? 600)) eqn:E5.
  { apply andb_true_iff in E5. rewrite Z.leb_le, Z.ltb_lt in E5. lia. }
  done.
Qed.

Lemma JSONDecodeError_handled e :
  is_JSONDecodeError e = true →
  is_ConnectionError e = false ∧ is_Timeout e = false.
Proof.
  unfold is_JSONDecodeError, is_ConnectionError, is_Timeout.
  by destruct (exn_cls e).
Qed.

(** ** The loop bodies, case by case *)

Section Loops.

Variable json_loads : bytes → outcome value.

Lemma chat_line_read line acc :
  Conversation.chat_line json_loads line acc
  = match read json_loads line with
    | Blank | Malformed => ([], Returns acc)
    | Object d =>
        let token := default (VStr EmptyString) (d !! "response") in
        ([Show token], Conversation.str_add acc token)
    | Fatal e => ([], Raises e)
    end.
Proof.
  unfold Conversation.chat_line, read.
  destruct (nonempty line); [|done].
  destruct (json_loads line) as [v|e]; simpl.
  - destruct v; try done. simpl.
    by destruct (default (VStr EmptyString) (d !! "response")).
  - by destruct (is_JSONDecodeError e).
Qed.

Lemma streaming_line_read line :
  Streaming.streaming_line json_loads line tt
  = match read json_loads line with
    | Fatal e => ([], Raises e)
    | _ => (line_trace json_loads line, Returns tt)
    end.
Proof.
  unfold Streaming.streaming_line, line_trace, read.
  destruct (nonempty line); [|done].
  destruct (json_loads line) as [v|e]; simpl.
  - destruct v; try done. simpl. unfold is_final.
    by destruct (truthy _).
  - by destruct (is_JSONDecodeError e).
Qed.

Lemma chat_line_tolerated line acc :
  tolerated json_loads line = true →
  Conversation.chat_line json_loads line acc
  = (line_tokens json_loads line, Returns (acc +:+ line_text json_loads line)).
Proof.
  rewrite chat_line_read. unfold tolerated, line_tokens, line_text, text_piece.
  destruct (read json_loads line) as [| |d|e]; try done;
    try (by rewrite append_nil_r).
  by destruct (default (VStr EmptyString) (d !! "response")).
Qed.

Lemma chat_loop ls failure acc :
  forallb (tolerated json_loads) ls = true →
  for_each ls failure (Conversation.chat_line json_loads) acc
  = (stream_tokens json_loads ls,
     match failure with
     | None => Returns (acc +:+ stream_text json_loads ls)
     | Some e => Raises e
     end).
Proof.
  revert acc. induction ls as [|line ls IH]; intros acc H.
  - simpl. destruct failure; [done |]. by rewrite append_nil_r.
  - simpl in H. apply andb_true_iff in H as [Hl Hls].
    simpl. rewrite chat_line_tolerated by done. simpl. rewrite IH by done.
    unfold stream_tokens. simpl.
    destruct failure; [done |]. by rewrite append_assoc.
Qed.

Lemma streaming_loop ls failure :
  forallb (readable json_loads) ls = true →
  for_each ls failure (Streaming.streaming_line json_loads) tt
  = (stream_trace json_loads ls,
     match failure with None => Returns tt | Some e => Raises e end).
Proof.
  induction ls as [|line ls IH]; intros H.
  - simpl. by destruct failure.
  - simpl in H. apply andb_true_iff in H as [Hl Hls].
    simpl. rewrite streaming_line_read.
    unfold readable in Hl.
    destruct (read json_loads line) eqn:E; try done;
      simpl; rewrite IH by done; unfold stream_trace; simpl;
      by destruct failure.
Qed.

(** A line that [json.loads] rejects leaves either loop as it found it. *)
Lemma read_rejected line e :
  json_loads line = Raises e → is_JSONDecodeError e = true →
  read json_loads line = Blank ∨ read json_loads line = Malformed.
Proof.
  intros He Hd. unfold read. destruct (nonempty line); [|by left].
  rewrite He, Hd. by right.
Qed.

(** A non-empty line that it rejects with another exception ends either
    loop, whatever lines follow. *)
Lemma read_refused line e :
  json_loads line = Raises e → is_JSONDecodeError e = false →
  nonempty line = true → read json_loads line = Fatal e.
Proof. intros He Hd Hn. unfold read. by rewrite Hn, He, Hd. Qed.

Lemma loops_left line e rest failure :
  json_loads line = Raises e → is_JSONDecodeError e = false →
  nonempty line = true →
  (∀ acc, for_each (line :: rest) failure (Conversation.chat_line json_loads) acc
          = ([], Raises e))
  ∧ for_each (line :: rest) failure (Streaming.streaming_line json_loads) tt
    = ([], Raises e).
Proof.
  intros He Hd Hn. pose proof (read_refused line e He Hd Hn) as Hread.
  split; [intros acc |]; simpl.
  - by rewrite chat_line_read, Hread.
  - by rewrite streaming_line_read, Hread.
Qed.

(** After a fragment with the completion flag either loop goes on. *)
Lemma loops_go_on line d piece rest failure :
  read json_loads line = Object d → is_final d = true →
  text_piece d = Some piece →
  (∀ acc,
     for_each (line :: rest) failure (Conversation.chat_line json_loads) acc
     = ([Show (VStr piece)], Returns (acc +:+ piece))
       ≫= for_each rest failure (Conversation.chat_line json_loads))
  ∧ for_each (line :: rest) failure (Streaming.streaming_line json_loads) tt
    = (Show (VStr piece) :: trailer d, Returns tt)
      ≫= for_each rest failure (Streaming.streaming_line json_loads).
Proof.
  intros Hread Hfinal Hpiece.
  assert (Htoken : default (VStr EmptyString) (d !! "response") = VStr piece).
  { unfold text_piece in Hpiece.
    destruct (default (VStr EmptyString) (d !! "response")); try done.
    by inversion Hpiece. }
  split; [intros acc |]; cbn [for_each].
  - by rewrite chat_line_read, Hread, Htoken.
  - rewrite streaming_line_read, Hread. unfold line_trace.
    by rewrite Hread, Htoken, Hfinal.
Qed.

Lemma for_each_skip {S} (body : bytes → S → io S) before line after failure s :
  (∀ s', body line s' = ([], Returns s')) →
  for_each (before ++ line :: after) failure body s
  = for_each (before ++ after) failure body s.
Proof.
  intros Hskip. revert s. induction before as [|x before IH]; intros s; simpl.
  - rewrite Hskip. simpl. by destruct (for_each after failure body s).
  - destruct (body x s) as [o [s'|e]]; simpl; [|done]. by rewrite IH.
Qed.

Lemma tolerated_readable ls :
  forallb (tolerated json_loads) ls = true → forallb (readable json_loads) ls = true.
Proof.
  induction ls as [|line ls IH]; [done |]. simpl.
  intros H. apply andb_true_iff in H as [Hl Hls].
  rewrite IH by done. unfold tolerated in Hl. unfold readable.
  by destruct (read json_loads line).
Qed.

Lemma well_formed_tolerated ls :
  forallb (λ line, implb (nonempty line) (well_formed json_loads line)) ls = true →
  forallb (tolerated json_loads) ls = true.
Proof.
  induction ls as [|line ls IH]; [done |]. simpl.
  intros H. apply andb_true_iff in H as [Hl Hls].
  rewrite IH by done. rewrite andb_true_r.
  unfold well_formed, tolerated, read in *.
  destruct (nonempty line); simpl in *; [|done].
  destruct (json_loads line) as [[]|e]; try done.
  by destruct (is_JSONDecodeError e).
Qed.

Lemma trace_without_final ls :
  existsb (final json_loads) ls = false →
  stream_trace json_loads ls = stream_tokens json_loads ls.
Proof.
  induction ls as [|line ls IH]; [done |]. simpl.
  intros H. apply orb_false_iff in H as [Hl Hls].
  unfold stream_trace, stream_tokens in *. simpl. rewrite IH by done. f_equal.
  unfold final in Hl. unfold line_trace, line_tokens.
  destruct (read json_loads line); try done. by rewrite Hl.
Qed.

Lemma stream_tokens_shown ls o :
  In o (stream_tokens json_loads ls) → ∃ v, o = Show v.
Proof.
  unfold stream_tokens. intros H. apply in_flat_map in H as (line & _ & H).
  unfold line_tokens in H. destruct (read json_loads line); simpl in H; try done.
  destruct H as [<- | []]. by eexists.
Qed.

Lemma tokens_without_statistics before ls after :
  ¬ reports_statistics before → ¬ reports_statistics after →
  ¬ reports_statistics (before ++ stream_tokens json_loads ls ++ after).
Proof.
  unfold reports_statistics. intros Hb Ha H.
  rewrite !in_app_iff in H.
  destruct H as [[H | [H | H]] | [H | [H | H]]]; try tauto;
    by apply stream_tokens_shown in H as [v Hv].
Qed.

(** What [streaming_request] prints for the lines carries statistics
    exactly when one of them has the completion flag. *)
Lemma trace_reports_iff_final ls :
  reports_statistics (stream_trace json_loads ls)
  ↔ existsb (final json_loads) ls = true.
Proof.
  unfold reports_statistics, stream_trace.
  induction ls as [|line ls IH]; simpl; [intuition discriminate |].
  rewrite !in_app_iff, orb_true_iff, <- IH.
  assert (Hline : (In (Text "   Tokens: ") (line_trace json_loads line)
                   ∨ In (Text "   Duration: ") (line_trace json_loads line))
                  ↔ final json_loads line = true).
  { unfold line_trace, final. destruct (read json_loads line) as [| |d|e];
      simpl; try (intuition discriminate).
    destruct (is_final d); simpl; intuition discriminate. }
  tauto.
Qed.

Lemma stream_text_app ls1 ls2 :
  stream_text json_loads (ls1 ++ ls2)
  = stream_text json_loads ls1 +:+ stream_text json_loads ls2.
Proof.
  induction ls1 as [|line ls1 IH]; [done |].
  unfold stream_text in *. simpl. by rewrite IH, append_assoc.
Qed.

End Loops.

(** ** The two consumers on a stream they get through *)

Section Consumers.

Variable json_loads : bytes → outcome value.
Variable Response_json : response → outcome value.
Variable requests_post : request → outcome response.

Lemma chat_stream self msg r :
  requests_post (Conversation.post_args self msg true) = Returns r →
  ok_status r = true →
  forallb (tolerated json_loads) (lines r) = true →
  Conversation.chat json_loads Response_json requests_post self msg true
  = match stream_failure r with
    | None =>
        ([Text "💬 "] ++ stream_tokens json_loads (lines r) ++ [Text LF],
         Returns (VStr (stream_text json_loads (lines r)),
                  Conversation.append_exchange self
                    (Conversation.Exchange msg (strip (stream_text json_loads (lines r))))))
    | Some e =>
        ([Text "💬 "] ++ stream_tokens json_loads (lines r) ++ error_report e,
         Returns (VNone, self))
    end.
Proof.
  intros Hpost Hok Hls.
  unfold Conversation.chat, Conversation.chat_body.
  rewrite Hpost. simpl. rewrite ok_raise_for_status by done. simpl.
  rewrite chat_loop by done.
  destruct (stream_failure r) as [e|]; simpl.
  - unfold error_report. by destruct (is_ConnectionError e).
  - by rewrite app_nil_r.
Qed.

Lemma streaming_stream prompt model r :
  requests_post (Streaming.post_args prompt model) = Returns r →
  ok_status r = true →
  forallb (readable json_loads) (lines r) = true →
  Streaming.streaming_request json_loads requests_post prompt model
  = match stream_failure r with
    | None => (banner ++ stream_trace json_loads (lines r), Returns tt)
    | Some e =>
        if is_RequestException e then
          (banner ++ stream_trace json_loads (lines r) ++ error_report e, Returns tt)
        else (banner ++ stream_trace json_loads (lines r), Raises e)
    end.
Proof.
  intros Hpost Hok Hls. unfold Streaming.streaming_request.
  rewrite Hpost. simpl. rewrite ok_raise_for_status by done. simpl.
  rewrite streaming_loop by done.
  destruct (stream_failure r) as [e|]; simpl; [|done].
  unfold error_report, is_ConnectionError, is_RequestException.
  by destruct (exn_cls e).
Qed.

End Consumers.

(** ** Streams: concatenation, completion, malformed lines, failures *)

Section Streams.

Variable json_loads : bytes → outcome value.
Variable Response_json : response → outcome value.

(** C1.  On a stream whose non-empty lines are well-formed fragments and
    whose last line is its one fragment with the completion flag, the text
    [chat] accumulates and returns is the concatenation, in arrival order,
    of the text pieces of all fragments, the last one's included; and
    [streaming_request] prints these pieces in that order, then the
    completion trailer. *)
Theorem stream_text_concatenates_pieces
    requests_post self msg prompt model r ls last d piece :
  requests_post (Conversation.post_args self msg true) = Returns r →
  requests_post (Streaming.post_args prompt model) = Returns r →
  ok_status r = true →
  stream_failure r = None →
  lines r = ls ++ [last] →
  forallb (λ line, implb (nonempty line) (well_formed json_loads line)) ls = true →
  existsb (final json_loads) ls = false →
  read json_loads last = Object d →
  text_piece d = Some piece →
  is_final d = true →
  Conversation.chat json_loads Response_json requests_post self msg true
  = ([Text "💬 "] ++ stream_tokens json_loads ls ++ [Show (VStr piece); Text LF],
     Returns (VStr (stream_text json_loads ls +:+ piece),
              Conversation.append_exchange self
                (Conversation.Exchange msg (strip (stream_text json_loads ls +:+ piece)))))
  ∧ Streaming.streaming_request json_loads requests_post prompt model
    = (banner ++ stream_tokens json_loads ls ++ Show (VStr piece) :: trailer d,
       Returns tt).
Proof.
  intros Hchat Hstreaming Hok Hend Hlines Hwf Hnf Hlast Hpiece Hfinal.
  assert (Htext : line_text json_loads last = piece).
  { unfold line_text. by rewrite Hlast, Hpiece. }
  assert (Htoken : default (VStr EmptyString) (d !! "response") = VStr piece).
  { unfold text_piece in Hpiece.
    destruct (default (VStr EmptyString) (d !! "response")); try done.
    by inversion Hpiece. }
  assert (Htol : forallb (tolerated json_loads) (lines r) = true).
  { rewrite Hlines, forallb_app. rewrite well_formed_tolerated by done. simpl.
    unfold tolerated. rewrite Hlast, Hpiece. done. }
  split.
  - rewrite (chat_stream _ _ _ _ _ r) by done. rewrite Hend, Hlines.
    rewrite stream_text_app. unfold stream_tokens. rewrite flat_map_app. simpl.
    unfold line_tokens at 2. rewrite Hlast, Htoken.
    unfold stream_text at 2 4. simpl. rewrite Htext, append_nil_r.
    by rewrite <- !app_assoc.
  - rewrite (streaming_stream _ _ _ _ r) by (by try apply tolerated_readable).
    rewrite Hend, Hlines. unfold stream_trace. rewrite flat_map_app. simpl.
    fold (stream_trace json_loads ls). rewrite trace_without_final by done.
    unfold line_trace. rewrite Hlast, Htoken, Hfinal. by rewrite app_nil_r.
Qed.

(** C2 (as amended).  A fragment with the completion flag does not end
    consumption.  On every stream that the consumers get through (no 4xx
    or 5xx status, every line blank, rejected with [JSONDecodeError] or a
    fragment whose text is absent or a string, and a clean end of the
    transport) every line is read, and the lines that follow a flagged
    fragment count like any other: the text [chat] returns and records is
    the text up to and including the flagged fragment followed by the text
    of the lines after it, and [streaming_request] prints those later
    lines as well, after the statistics of the flagged fragment.  And on
    any stream at all, after a flagged fragment whose text is absent or a
    string the loop of either consumer goes on with the lines that follow,
    whatever they are. *)
Theorem lines_after_final_are_consumed
    requests_post self msg prompt model r before fin after :
  requests_post (Conversation.post_args self msg true) = Returns r →
  requests_post (Streaming.post_args prompt model) = Returns r →
  ok_status r = true →
  stream_failure r = None →
  lines r = before ++ fin :: after →
  forallb (tolerated json_loads) (before ++ fin :: after) = true →
  final json_loads fin = true →
  Conversation.chat json_loads Response_json requests_post self msg true
  = ([Text "💬 "] ++ stream_tokens json_loads (before ++ [fin])
       ++ stream_tokens json_loads after ++ [Text LF],
     Returns (VStr (stream_text json_loads (before ++ [fin])
                    +:+ stream_text json_loads after),
              Conversation.append_exchange self
                (Conversation.Exchange msg
                   (strip (stream_text json_loads (before ++ [fin])
                           +:+ stream_text json_loads after)))))
  ∧ Streaming.streaming_request json_loads requests_post prompt model
    = (banner ++ stream_trace json_loads (before ++ [fin])
         ++ stream_trace json_loads after,
       Returns tt)
  ∧ ∀ line d piece rest failure,
      read json_loads line = Object d → is_final d = true →
      text_piece d = Some piece →
      (∀ acc,
         for_each (line :: rest) failure (Conversation.chat_line json_loads) acc
         = ([Show (VStr piece)], Returns (acc +:+ piece))
           ≫= for_each rest failure (Conversation.chat_line json_loads))
      ∧ for_each (line :: rest) failure (Streaming.streaming_line json_loads) tt
        = (Show (VStr piece) :: trailer d, Returns tt)
          ≫= for_each rest failure (Streaming.streaming_line json_loads).
Proof.
  intros Hchat Hstreaming Hok Hend Hlines Htol _.
  assert (Hsplit : before ++ fin :: after = (before ++ [fin]) ++ after)
    by (by rewrite <- app_assoc).
  split; [|split; [|by apply loops_go_on]].
  - rewrite (chat_stream _ _ _ _ _ r) by (by try rewrite Hlines).
    rewrite Hend, Hlines, Hsplit. rewrite stream_text_app.
    unfold stream_tokens. rewrite flat_map_app. by rewrite <- !app_assoc.
  - rewrite (streaming_stream _ _ _ _ r)
      by (by try (rewrite Hlines; apply tolerated_readable)).
    rewrite Hend, Hlines, Hsplit. unfold stream_trace. by rewrite flat_map_app.
Qed.

(** C3 (as amended).  A line on which [json.loads] raises
    [JSONDecodeError] changes nothing: with it injected at any position of
    any stream, [chat] returns and prints what it does without it, and so
    does [streaming_request]; in particular the lines after it are still
    consumed.  A non-empty line on which [json.loads] raises any other
    exception is not skipped: that exception leaves the loop of either
    consumer, whatever lines follow and whatever was accumulated. *)
Theorem malformed_line_is_transparent
    post post' self msg prompt model r before m after e :
  json_loads m = Raises e →
  is_JSONDecodeError e = true →
  post (Conversation.post_args self msg true) = Returns (with_lines r (before ++ after)) →
  post' (Conversation.post_args self msg true)
    = Returns (with_lines r (before ++ m :: after)) →
  post (Streaming.post_args prompt model) = Returns (with_lines r (before ++ after)) →
  post' (Streaming.post_args prompt model)
    = Returns (with_lines r (before ++ m :: after)) →
  Conversation.chat json_loads Response_json post' self msg true
  = Conversation.chat json_loads Response_json post self msg true
  ∧ Streaming.streaming_request json_loads post' prompt model
    = Streaming.streaming_request json_loads post prompt model
  ∧ ∀ line e' rest failure,
      json_loads line = Raises e' → is_JSONDecodeError e' = false →
      nonempty line = true →
      (∀ acc, for_each (line :: rest) failure (Conversation.chat_line json_loads) acc
              = ([], Raises e'))
      ∧ for_each (line :: rest) failure (Streaming.streaming_line json_loads) tt
        = ([], Raises e').
Proof.
  intros He Hd Hc Hc' Hs Hs'.
  assert (Hread := read_rejected json_loads m e He Hd).
  split; [|split; [|by apply loops_left]].
  - unfold Conversation.chat, Conversation.chat_body. rewrite Hc, Hc'.
    unfold with_lines, raise_for_status. simpl.
    rewrite for_each_skip; [done |].
    intros acc. rewrite chat_line_read. by destruct Hread as [-> | ->].
  - unfold Streaming.streaming_request. rewrite Hs, Hs'.
    unfold with_lines, raise_for_status. simpl.
    rewrite for_each_skip; [done |].
    intros []. rewrite streaming_line_read. unfold line_trace.
    by destruct Hread as [-> | ->].
Qed.

(** C5 (as amended).  When the transport fails with a connection error
    after some fragments were consumed, the text pieces of those fragments
    have been written to standard output in order and stay there, followed
    by the connection message; the accumulated text is not returned:
    [chat] returns [None] and leaves the chatbot as it was. *)
Theorem connection_failure_keeps_display_only
    requests_post self msg prompt model r e :
  requests_post (Conversation.post_args self msg true) = Returns r →
  requests_post (Streaming.post_args prompt model) = Returns r →
  ok_status r = true →
  forallb (tolerated json_loads) (lines r) = true →
  stream_failure r = Some e →
  is_ConnectionError e = true →
  Conversation.chat json_loads Response_json requests_post self msg true
  = ([Text "💬 "] ++ stream_tokens json_loads (lines r) ++ connection_report,
     Returns (VNone, self))
  ∧ Streaming.streaming_request json_loads requests_post prompt model
    = (banner ++ stream_trace json_loads (lines r) ++ connection_report, Returns tt).
Proof.
  intros Hchat Hstreaming Hok Htol Hfail Hconn. split.
  - rewrite (chat_stream _ _ _ _ _ r) by done. rewrite Hfail.
    unfold error_report. by rewrite Hconn.
  - rewrite (streaming_stream _ _ _ _ r) by (by try apply tolerated_readable).
    rewrite Hfail. unfold error_report. rewrite Hconn.
    assert (is_RequestException e = true) as ->; [|done].
    revert Hconn. unfold is_ConnectionError, is_RequestException.
    by destruct (exn_cls e).
Qed.

(** C6 (as amended).  When the stream ends cleanly and no fragment
    carried the completion flag (no 4xx or 5xx status, every line blank,
    rejected with [JSONDecodeError] or a fragment whose text is absent or a
    string), the call succeeds: [chat] returns the concatenation of the
    text pieces it consumed and records the exchange, and
    [streaming_request] prints the pieces and returns.  No token count and
    no duration comes with it, neither zero nor another value: [chat]
    returns the text alone, and neither output carries statistics.  On the
    stream of zero lines the text is empty.  Statistics are printed by
    [streaming_request] alone, and on the lines it gets through exactly
    when one of them carries the flag. *)
Theorem clean_end_without_final_is_success
    requests_post self msg prompt model r :
  requests_post (Conversation.post_args self msg true) = Returns r →
  requests_post (Streaming.post_args prompt model) = Returns r →
  ok_status r = true →
  stream_failure r = None →
  forallb (tolerated json_loads) (lines r) = true →
  existsb (final json_loads) (lines r) = false →
  (Conversation.chat json_loads Response_json requests_post self msg true
   = ([Text "💬 "] ++ stream_tokens json_loads (lines r) ++ [Text LF],
      Returns (VStr (stream_text json_loads (lines r)),
               Conversation.append_exchange self
                 (Conversation.Exchange msg (strip (stream_text json_loads (lines r))))))
   ∧ Streaming.streaming_request json_loads requests_post prompt model
     = (banner ++ stream_tokens json_loads (lines r), Returns tt))
  ∧ (¬ reports_statistics
         (Conversation.chat json_loads Response_json requests_post self msg true).1
     ∧ ¬ reports_statistics
           (Streaming.streaming_request json_loads requests_post prompt model).1)
  ∧ (lines r = [] →
     Conversation.chat json_loads Response_json requests_post self msg true
     = ([Text "💬 "; Text LF],
        Returns (VStr EmptyString,
                 Conversation.append_exchange self
                   (Conversation.Exchange msg EmptyString)))
     ∧ Streaming.streaming_request json_loads requests_post prompt model
       = (banner, Returns tt))
  ∧ (∀ post' prompt' model' r',
       post' (Streaming.post_args prompt' model') = Returns r' →
       ok_status r' = true →
       stream_failure r' = None →
       forallb (readable json_loads) (lines r') = true →
       reports_statistics
         (Streaming.streaming_request json_loads post' prompt' model').1
       ↔ existsb (final json_loads) (lines r') = true).
Proof.
  intros Hchat Hstreaming Hok Hend Htol Hnf.
  assert (Hc := chat_stream json_loads Response_json _ _ _ r Hchat Hok Htol).
  assert (Hs := streaming_stream json_loads _ _ _ r Hstreaming Hok
                  (tolerated_readable _ _ Htol)).
  rewrite Hend in Hc, Hs. rewrite trace_without_final in Hs by done.
  split; [done |]. split; [|split]; [| |
    intros post' prompt' model' r' Hpost' Hok' Hend' Hread';
    rewrite (streaming_stream json_loads post' prompt' model' r') by done;
    rewrite Hend'; cbn [fst];
    rewrite <- trace_reports_iff_final;
    unfold reports_statistics, banner; rewrite !in_app_iff; simpl;
    intuition discriminate ].
  - rewrite Hc, Hs. simpl fst. split.
    + apply (tokens_without_statistics json_loads [Text "💬 "] (lines r) [Text LF]);
        unfold reports_statistics; simpl; intuition discriminate.
    + rewrite <- (app_nil_r (stream_tokens json_loads (lines r))).
      apply (tokens_without_statistics json_loads banner (lines r) []);
        unfold reports_statistics, banner; simpl; intuition discriminate.
  - intros Hnil. rewrite Hc, Hs, Hnil. by rewrite app_nil_r.
Qed.

End Streams.

Section Fields.

Variable json_loads : bytes → outcome value.
Variable Response_json : response → outcome value.

(** C8.  A parsed JSON object is processed without failure whatever
    fields it lacks: an absent text field gives the empty string, an absent
    completion flag gives false (no trailer is printed, and there the
    absent statistics are not even looked up), and the loop bodies return;
    an empty line is skipped with nothing printed and nothing accumulated. *)
Theorem missing_fields_take_defaults line d :
  nonempty line = true →
  json_loads line = Returns (VDict d) →
  Streaming.streaming_line json_loads line tt = (line_trace json_loads line, Returns tt)
  ∧ (d !! "response" = None →
     get (VDict d) "response" (VStr EmptyString) = Returns (VStr EmptyString)
     ∧ text_piece d = Some EmptyString
     ∧ ∀ acc, Conversation.chat_line json_loads line acc
              = ([Show (VStr EmptyString)], Returns acc))
  ∧ (d !! "done" = None →
     get (VDict d) "done" (VBool false) = Returns (VBool false)
     ∧ is_final d = false
     ∧ Streaming.streaming_line json_loads line tt
       = ([Show (default (VStr EmptyString) (d !! "response"))], Returns tt))
  ∧ Streaming.streaming_line json_loads EmptyString tt = ([], Returns tt)
  ∧ ∀ acc, Conversation.chat_line json_loads EmptyString acc = ([], Returns acc).
Proof.
  intros Hn Hl.
  assert (Hread : read json_loads line = Object d).
  { unfold read. by rewrite Hn, Hl. }
  split; [|split; [|split; [|split]]].
  - rewrite streaming_line_read. by rewrite Hread.
  - intros Habsent. split; [|split].
    + simpl. by rewrite Habsent.
    + unfold text_piece. by rewrite Habsent.
    + intros acc. rewrite chat_line_read, Hread. simpl. rewrite Habsent. simpl.
      by rewrite append_nil_r.
  - intros Habsent. split; [|split].
    + simpl. by rewrite Habsent.
    + unfold is_final. by rewrite Habsent.
    + rewrite streaming_line_read, Hread. unfold line_trace. rewrite Hread.
      unfold is_final. by rewrite Habsent.
  - done.
  - done.
Qed.

End Fields.

(** ** Inversion of the monad *)

Lemma bind_returns {A B} (m : io A) (k : A → io B) o b :
  m ≫= k = (o, Returns b) →
  ∃ o1 a o2, m = (o1, Returns a) ∧ k a = (o2, Returns b) ∧ o = o1 ++ o2.
Proof.
  unfold mbind, io_bind. destruct m as [o1 [a|e]]; [|done].
  destruct (k a) as [o2 r] eqn:Hk. intros [= <- ->]. by exists o1, a, o2.
Qed.

Lemma lift_returns {A} (r : outcome A) o a :
  lift r = (o, Returns a) → r = Returns a ∧ o = [].
Proof. unfold lift. by intros [= <- ->]. Qed.

Lemma strip_method_returns v s :
  strip_method v = Returns s → ∃ text, v = VStr text ∧ s = strip text.
Proof. destruct v; try done. intros [= <-]. by eexists. Qed.

Section History.

Variable json_loads : bytes → outcome value.
Variable Response_json : response → outcome value.

(** C9.  [chat] always returns, and it changes the history all or nothing:
    either its [try] block raised an exception (a connection error or any
    other), and then it returns [None] with the chatbot, history included,
    exactly as before the call; or the block completed, and then it
    returns the accumulated response and the history is the old one
    followed by the single exchange of the message and the stripped
    response. *)
Theorem chat_history_is_atomic requests_post self msg stream :
  ∃ o v self',
    Conversation.chat json_loads Response_json requests_post self msg stream
    = (o, Returns (v, self'))
    ∧ ((∃ o' e,
          Conversation.chat_body json_loads Response_json requests_post self msg stream
          = (o', Raises e)
          ∧ o = o' ++ error_report e ∧ v = VNone ∧ self' = self)
       ∨ (∃ text,
            Conversation.chat_body json_loads Response_json requests_post self msg stream
            = (o, Returns (VStr text, self'))
            ∧ accumulated json_loads Response_json requests_post self msg stream text
            ∧ v = VStr text
            ∧ self' = Conversation.append_exchange self
                        (Conversation.Exchange msg (strip text))
            ∧ Conversation.conversation_history self'
              = Conversation.conversation_history self
                ++ [Conversation.Exchange msg (strip text)])).
Proof.
  unfold Conversation.chat.
  destruct (Conversation.chat_body json_loads Response_json requests_post self msg stream)
    as [o [[v self']|e]] eqn:Hbody.
  - exists o, v, self'. split; [done |]. right.
    unfold Conversation.chat_body in Hbody.
    apply bind_returns in Hbody as (o1 & r & o2 & Hpost & Hbody & ->).
    apply lift_returns in Hpost as [Hpost ->].
    apply bind_returns in Hbody as (o3 & [] & o4 & _ & Hbody & ->).
    apply bind_returns in Hbody as (o5 & full & o6 & Hfull & Hbody & ->).
    apply bind_returns in Hbody as (o7 & stripped & o8 & Hstrip & Hbody & ->).
    apply lift_returns in Hstrip as [Hstrip ->].
    apply strip_method_returns in Hstrip as (text & -> & ->).
    injection Hbody as <- <- <-.
    exists text. repeat split; try done.
    exists r. split; [done |]. destruct stream.
    + apply bind_returns in Hfull as (o9 & [] & o10 & _ & Hfull & ->).
      apply bind_returns in Hfull as (o11 & acc & o12 & Hloop & Hfull & ->).
      apply bind_returns in Hfull as (o13 & [] & o14 & _ & Hfull & ->).
      injection Hfull as <- <-. by exists o11.
    + apply bind_returns in Hfull as (o9 & result & o10 & Hjson & Hfull & ->).
      apply lift_returns in Hjson as [Hjson ->].
      apply bind_returns in Hfull as (o11 & field & o12 & Hget & Hfull & ->).
      apply lift_returns in Hget as [Hget ->].
      apply bind_returns in Hfull as (o13 & [] & o14 & _ & Hfull & ->).
      injection Hfull as <- <-.
      destruct result; try done. injection Hget as <-. by eexists.
  - exists (o ++ error_report e), VNone, self. split.
    + simpl. unfold error_report, connection_report.
      by destruct (is_ConnectionError e).
    + left. by exists o, e.
Qed.

End History.

(** ** [query_ollama] and [simple_request], case by case *)

Section NonStreaming.

Variable Response_json : response → outcome value.
Variable requests_post : request → outcome response.

Lemma raise_for_status_output r : (raise_for_status r).1 = [].
Proof.
  unfold raise_for_status.
  by repeat match goal with |- context [if ?b then _ else _] => destruct b end.
Qed.

Lemma query_ollama_run prompt model temperature :
  App.query_ollama Response_json requests_post prompt model temperature false
  = ([], Returns (App.Dict
      match requests_post (App.post_args prompt model temperature false) with
      | Raises e => error_dict e
      | Returns r =>
          match (raise_for_status r).2 with
          | Raises e => error_dict e
          | Returns _ =>
              match Response_json r with
              | Raises e => error_dict e
              | Returns (VDict body) =>
                  match truediv (default (VInt 0) (body !! "total_duration"))
                                (VFloat 1e9) with
                  | Returns q => success_dict body q
                  | Raises e => error_dict e
                  end
              | Returns v => error_dict (no_attribute v "get")
              end
          end
      end)).
Proof.
  unfold App.query_ollama, error_dict.
  destruct (requests_post _) as [r|e]; simpl.
  2: { by destruct (is_ConnectionError e), (is_Timeout e). }
  pose proof (raise_for_status_output r) as Hout.
  destruct (raise_for_status r) as [o [[]|e]]; simpl in *; subst o; simpl.
  2: { by destruct (is_ConnectionError e), (is_Timeout e). }
  destruct (Response_json r) as [v|e]; simpl.
  2: { by destruct (is_ConnectionError e), (is_Timeout e). }
  destruct v; try done. simpl.
  destruct (truediv _ _) as [q|e]; simpl; [done |].
  by destruct (is_ConnectionError e), (is_Timeout e).
Qed.

Lemma error_dict_status e : error_dict e !! "status" = Some (VStr "error").
Proof. unfold error_dict. by destruct (is_ConnectionError e), (is_Timeout e). Qed.

Lemma error_dict_response e : ∃ s, error_dict e !! "response" = Some (VStr s).
Proof.
  unfold error_dict. destruct (is_ConnectionError e), (is_Timeout e); by eexists.
Qed.

Lemma raise_for_status_result r :
  (raise_for_status r).2 = Returns tt ↔ ok_status r = true.
Proof.
  split.
  - unfold raise_for_status, ok_status. intros H.
    destruct ((400 <=? status_code r) && (status_code r <? 500)) eqn:E4; [done |].
    destruct ((500 <=? status_code r) && (status_code r <? 600)) eqn:E5; [done |].
    apply negb_true_iff, andb_false_iff.
    apply andb_false_iff in E4, E5.
    rewrite !Z.leb_gt, !Z.ltb_ge in *. lia.
  - intros H. by rewrite ok_raise_for_status.
Qed.

End NonStreaming.

Section Totality.

Variable json_loads : bytes → outcome value.
Variable Response_json : response → outcome value.

(** C10 (as amended).  [query_ollama] with [stream=False] never raises:
    it returns a dictionary whose status is success or error and which has
    a response entry, a string in every error result.  The status is
    success exactly when the request came back without a 4xx or 5xx
    status, the body parsed as a JSON object, and its [total_duration]
    (0 when absent) could be divided by [1e9]; the dictionary then holds
    the body's response (the empty string when absent), token count and
    duration. *)
Theorem query_ollama_is_total requests_post prompt model temperature :
  ∃ d,
    App.query_ollama Response_json requests_post prompt model temperature false
    = ([], Returns (App.Dict d))
    ∧ (d !! "status" = Some (VStr "success") ∨ d !! "status" = Some (VStr "error"))
    ∧ is_Some (d !! "response")
    ∧ (d !! "status" = Some (VStr "error") → ∃ s, d !! "response" = Some (VStr s))
    ∧ (d !! "status" = Some (VStr "success") ↔
       ∃ r body q,
         requests_post (App.post_args prompt model temperature false) = Returns r
         ∧ ok_status r = true
         ∧ Response_json r = Returns (VDict body)
         ∧ truediv (default (VInt 0) (body !! "total_duration")) (VFloat 1e9)
           = Returns q
         ∧ d = success_dict body q).
Proof.
  eexists. split; [apply query_ollama_run |].
  assert (Herr : ∀ e,
    (error_dict e !! "status" = Some (VStr "success")
     ∨ error_dict e !! "status" = Some (VStr "error"))
    ∧ is_Some (error_dict e !! "response")
    ∧ (error_dict e !! "status" = Some (VStr "error") →
       ∃ s, error_dict e !! "response" = Some (VStr s))
    ∧ error_dict e !! "status" ≠ Some (VStr "success")).
  { intros e. pose proof (error_dict_response e) as [s Hs].
    rewrite error_dict_status, Hs. repeat split; eauto. }
  destruct (requests_post _) as [r|e] eqn:Hpost.
  2: { destruct (Herr e) as (H1 & H2 & H3 & H4). repeat split; try done.
       intros (? & ? & ? & ? & _); done. }
  destruct (raise_for_status r).2 as [[]|e] eqn:Hstatus.
  2: { destruct (Herr e) as (H1 & H2 & H3 & H4). repeat split; try done.
       intros (r' & ? & ? & [= <-] & Hok & _).
       apply raise_for_status_result in Hok. congruence. }
  apply raise_for_status_result in Hstatus.
  destruct (Response_json r) as [v|e] eqn:Hjson.
  2: { destruct (Herr e) as (H1 & H2 & H3 & H4). repeat split; try done.
       intros (r' & ? & ? & [= <-] & _ & ? & _). congruence. }
  destruct v as [| | | | | |body].
  all: try (match goal with
            | |- context [error_dict ?e] =>
                destruct (Herr e) as (H1 & H2 & H3 & H4); repeat split; try done;
                intros (r' & ? & ? & [= <-] & _ & ? & _); congruence
            end).
  destruct (truediv _ _) as [q|e] eqn:Hdiv.
  2: { destruct (Herr e) as (H1 & H2 & H3 & H4). repeat split; try done.
       intros (r' & body' & ? & [= <-] & _ & Hj & Hd & _).
       rewrite Hjson in Hj. injection Hj as <-. congruence. }
  split; [by left |]. split; [by eexists |]. split; [done |]. split.
  - intros _. by exists r, body, q.
  - done.
Qed.

End Totality.

Section Statistics.

Variable json_loads : bytes → outcome value.
Variable Response_json : response → outcome value.

(** C4 (as amended).  In non-streaming mode the token count is the body's
    [eval_count], or zero when absent, and the duration is its
    [total_duration] divided by [1e9]: [query_ollama] returns them under
    "tokens" and "duration" (the float 0.0 when [total_duration] is
    absent), and [simple_request] computes the same count and the same
    quotient (the integer 0 when [total_duration] is absent or zero).  In
    streaming mode no count or duration in seconds is computed: the
    fragment with the completion flag has its [eval_count] and its
    [total_duration] printed as they are, the duration in nanoseconds,
    each replaced by N/A when absent. *)
Theorem statistics_of_a_response
    requests_post prompt model temperature r body total f q line d :
  requests_post (App.post_args prompt model temperature false) = Returns r →
  ok_status r = true →
  Response_json r = Returns (VDict body) →
  body !! "total_duration" = VInt <$> total →
  float_of_int (default 0 total) = Returns f →
  int_truediv (default 0 total) 1000000000 = Returns q →
  read json_loads line = Object d →
  is_final d = true →
  (∃ reply,
     App.query_ollama Response_json requests_post prompt model temperature false
     = ([], Returns (App.Dict reply))
     ∧ reply !! "tokens" = Some (default (VInt 0) (body !! "eval_count"))
     ∧ reply !! "duration" = Some (VFloat (f / 1e9))
     ∧ (total = None → reply !! "duration" = Some (VFloat 0)))
  ∧ Basic.request_stats (VDict body)
    = ([], Returns (default (VInt 0) (body !! "eval_count"),
                    if bool_decide (default 0 total = 0) then VInt 0 else VFloat q))
  ∧ Streaming.streaming_line json_loads line tt
    = ([Show (default (VStr EmptyString) (d !! "response"));
        Text (LF +:+ repeat_str "-" 60); Text LF;
        Text "✅ Complete!"; Text LF;
        Text "   Tokens: "; Show (default (VStr "N/A") (d !! "eval_count")); Text LF;
        Text "   Duration: "; Show (default (VStr "N/A") (d !! "total_duration"));
        Text " ns"; Text LF],
       Returns tt).
Proof.
  intros Hpost Hok Hjson Htotal Hfloat Hdiv Hread Hfinal.
  assert (Hduration :
    truediv (default (VInt 0) (body !! "total_duration")) (VFloat 1e9)
    = Returns (VFloat (f / 1e9))).
  { rewrite Htotal.
    assert (default (VInt 0) (VInt <$> total) = VInt (default 0 total)) as ->
      by by destruct total.
    unfold truediv. change (as_number (VInt (default 0 total)))
      with (Some (NInt (default 0 total))).
    cbv iota beta. by rewrite Hfloat. }
  split; [|split].
  - eexists. split; [apply query_ollama_run |].
    rewrite Hpost, ok_raise_for_status, Hjson, Hduration by done.
    split; [done |]. split; [done |].
    intros ->. simpl in Hfloat. vm_compute in Hfloat. injection Hfloat as <-.
    done.
  - unfold Basic.request_stats. simpl. rewrite Htotal.
    destruct total as [n|]; simpl in *; [|done].
    case_bool_decide as Hz.
    + subst n. done.
    + assert ((n =? 0) = false) as -> by (by apply Z.eqb_neq).
      simpl. unfold truediv. simpl. by rewrite Hdiv.
  - rewrite streaming_line_read, Hread. unfold line_trace.
    by rewrite Hread, Hfinal.
Qed.

(** C7 (as amended).  In non-streaming mode a body that does not parse as
    JSON has no outcome of its own and no empty text: [query_ollama]
    returns the error status with the exception text after the error mark
    as its response, and [simple_request] prints that text and returns
    [None] when the exception is a [RequestException] (otherwise the
    exception leaves the function).  In streaming mode a line on which
    [json.loads] raises [JSONDecodeError] never produces an error: both
    loop bodies return normally with nothing printed and the accumulated
    text unchanged.  A non-empty line on which it raises any other
    exception is not skipped: that exception leaves the loop of either
    consumer, whatever lines follow. *)
Theorem unparsable_body_is_generic_error
    requests_post prompt model temperature r e :
  requests_post (App.post_args prompt model temperature false) = Returns r →
  requests_post (Basic.post_args prompt) = Returns r →
  ok_status r = true →
  Response_json r = Raises e →
  is_JSONDecodeError e = true →
  App.query_ollama Response_json requests_post prompt model temperature false
  = ([], Returns (App.Dict {[ "response" := VStr ("❌ Error: " +:+ exn_str e);
                              "status" := VStr "error" ]}))
  ∧ Basic.simple_request Response_json requests_post prompt
    = (if is_RequestException e
       then (basic_banner ++ [Text "  ❌ Error: "; Text (exn_str e); Text LF],
             Returns VNone)
       else (basic_banner, Raises e))
  ∧ (∀ line e',
        json_loads line = Raises e' → is_JSONDecodeError e' = true →
        Streaming.streaming_line json_loads line tt = ([], Returns tt)
        ∧ ∀ acc, Conversation.chat_line json_loads line acc = ([], Returns acc))
  ∧ ∀ line e' rest failure,
      json_loads line = Raises e' → is_JSONDecodeError e' = false →
      nonempty line = true →
      (∀ acc, for_each (line :: rest) failure (Conversation.chat_line json_loads) acc
              = ([], Raises e'))
      ∧ for_each (line :: rest) failure (Streaming.streaming_line json_loads) tt
        = ([], Raises e').
Proof.
  intros Hquery Hbasic Hok Hjson Hdecode.
  destruct (JSONDecodeError_handled e Hdecode) as [Hconn Htime].
  split; [|split; [|split; [|by apply loops_left]]].
  - rewrite query_ollama_run, Hquery, ok_raise_for_status, Hjson by done.
    unfold error_dict. by rewrite Hconn, Htime.
  - unfold Basic.simple_request. rewrite Hbasic. simpl.
    rewrite ok_raise_for_status by done. simpl. rewrite Hjson. simpl.
    rewrite Hconn. by destruct (is_RequestException e).
  - intros line e' He' Hd'.
    assert (Hread := read_rejected json_loads line e' He' Hd').
    split; [|intros acc].
    + rewrite streaming_line_read. unfold line_trace.
      by destruct Hread as [-> | ->].
    + rewrite chat_line_read. by destruct Hread as [-> | ->].
Qed.

End Statistics.

(** ** The claims on concrete streams *)

Import JsonText Examples.

(** C1 on the stream [Hel], an empty line, [lo] with the completion flag. *)
Lemma stream_text_concatenates_pieces_witness :
  Conversation.chat loads response_json (serve [hel; EmptyString; lo_final] None EmptyString)
                    bot "hi" true
  = ([Text "💬 "; Show (VStr "Hel"); Show (VStr "lo"); Text LF],
     Returns (VStr "Hello",
              Conversation.append_exchange bot (Conversation.Exchange "hi" "Hello")))
  ∧ Streaming.streaming_request loads
      (serve [hel; EmptyString; lo_final] None EmptyString) "hi" "neural-chat"
    = (banner ++ [Show (VStr "Hel"); Show (VStr "lo")] ++ trailer lo_final_object,
       Returns tt).
Proof.
  apply (stream_text_concatenates_pieces loads response_json
           (serve [hel; EmptyString; lo_final] None EmptyString)
           bot "hi" "hi" "neural-chat"
           (answer [hel; EmptyString; lo_final] None EmptyString)
           [hel; EmptyString] lo_final lo_final_object "lo");
    vm_compute; reflexivity.
Defined.

(** C2 as stated fails: the line after the fragment with the completion
    flag is read, and its text is part of what [chat] returns and of what
    [streaming_request] prints. *)
Lemma final_fragment_does_not_stop_reading :
  final loads lo_final = true
  ∧ stream_text loads [hel; lo_final] = "Hello"
  ∧ Conversation.chat loads response_json
      (serve [hel; lo_final; late] None EmptyString) bot "hi" true
    = ([Text "💬 "; Show (VStr "Hel"); Show (VStr "lo"); Show (VStr "!"); Text LF],
       Returns (VStr "Hello!",
                Conversation.append_exchange bot (Conversation.Exchange "hi" "Hello!")))
  ∧ Streaming.streaming_request loads
      (serve [hel; lo_final; late] None EmptyString) "hi" "neural-chat"
    = (banner ++ [Show (VStr "Hel"); Show (VStr "lo")] ++ trailer lo_final_object
         ++ [Show (VStr "!")],
       Returns tt)
  ∧ "Hello!" ≠ stream_text loads [hel; lo_final].
Proof. vm_compute. repeat split; (reflexivity || discriminate). Qed.

Lemma lines_after_final_are_consumed_witness :
  Conversation.chat loads response_json
    (serve [hel; lo_final; late] None EmptyString) bot "hi" true
  = ([Text "💬 "; Show (VStr "Hel"); Show (VStr "lo"); Show (VStr "!"); Text LF],
     Returns (VStr "Hello!",
              Conversation.append_exchange bot (Conversation.Exchange "hi" "Hello!")))
  ∧ Streaming.streaming_request loads
      (serve [hel; lo_final; late] None EmptyString) "hi" "neural-chat"
    = (banner ++ [Show (VStr "Hel"); Show (VStr "lo")] ++ trailer lo_final_object
         ++ [Show (VStr "!")],
       Returns tt)
  ∧ for_each [lo_final; late] None (Conversation.chat_line loads) "Hel"
    = ([Show (VStr "lo")], Returns "Hello")
      ≫= for_each [late] None (Conversation.chat_line loads).
Proof.
  destruct (lines_after_final_are_consumed loads response_json
              (serve [hel; lo_final; late] None EmptyString)
              bot "hi" "hi" "neural-chat"
              (answer [hel; lo_final; late] None EmptyString)
              [hel] lo_final [late])
    as (Hchat & Hstreaming & Hon); try (vm_compute; reflexivity).
  split; [exact Hchat |]. split; [exact Hstreaming |].
  refine (proj1 (Hon lo_final lo_final_object "lo" [late] None _ _ _) "Hel");
    vm_compute; reflexivity.
Defined.

(** C3 as stated fails: the line made of the byte [0xFF] fails JSON
    parsing with [UnicodeDecodeError], which neither loop catches.  With
    it between [Hel] and [lo], [chat] reports the error and returns [None]
    where it returns the text without it, and [streaming_request] is left
    by the exception. *)
Lemma undecodable_line_ends_consumption :
  loads not_utf8
  = Raises (Exn UnicodeDecodeError
      "'utf-8' codec can't decode byte 0xff in position 0: invalid start byte")
  ∧ Conversation.chat loads response_json
      (serve [hel; not_utf8; lo] None EmptyString) bot "hi" true
    = ([Text "💬 "; Show (VStr "Hel"); Text "❌ Error: ";
        Text "'utf-8' codec can't decode byte 0xff in position 0: invalid start byte";
        Text LF],
       Returns (VNone, bot))
  ∧ Conversation.chat loads response_json (serve [hel; lo] None EmptyString) bot "hi" true
    = ([Text "💬 "; Show (VStr "Hel"); Show (VStr "lo"); Text LF],
       Returns (VStr "Hello",
                Conversation.append_exchange bot (Conversation.Exchange "hi" "Hello")))
  ∧ Streaming.streaming_request loads
      (serve [hel; not_utf8; lo] None EmptyString) "hi" "neural-chat"
    = (banner ++ [Show (VStr "Hel")],
       Raises (Exn UnicodeDecodeError
         "'utf-8' codec can't decode byte 0xff in position 0: invalid start byte"))
  ∧ Streaming.streaming_request loads (serve [hel; lo] None EmptyString)
      "hi" "neural-chat"
    = (banner ++ [Show (VStr "Hel"); Show (VStr "lo")], Returns tt)
  ∧ VNone ≠ VStr "Hello".
Proof. vm_compute. repeat split; (reflexivity || discriminate). Qed.

(** C3 with the line [{bad] between [Hel] and [lo], and with the byte
    [0xFF] at the head of what is left of a stream. *)
Lemma malformed_line_is_transparent_witness :
  Conversation.chat loads response_json
    (serve [hel; garbage; lo] None EmptyString) bot "hi" true
  = Conversation.chat loads response_json (serve [hel; lo] None EmptyString) bot "hi" true
  ∧ Streaming.streaming_request loads
      (serve [hel; garbage; lo] None EmptyString) "hi" "neural-chat"
    = Streaming.streaming_request loads (serve [hel; lo] None EmptyString)
        "hi" "neural-chat"
  ∧ for_each [not_utf8; lo] None (Conversation.chat_line loads) "Hel"
    = ([], Raises (Exn UnicodeDecodeError
         "'utf-8' codec can't decode byte 0xff in position 0: invalid start byte")).
Proof.
  destruct (malformed_line_is_transparent loads response_json
              (serve [hel; lo] None EmptyString)
              (serve [hel; garbage; lo] None EmptyString)
              bot "hi" "hi" "neural-chat" (answer [] None EmptyString)
              [hel] garbage [lo] (Exn JSONDecodeError "Invalid JSON text"))
    as (Hchat & Hstreaming & Hleft); try (vm_compute; reflexivity).
  split; [exact Hchat |]. split; [exact Hstreaming |].
  apply (Hleft not_utf8
           (Exn UnicodeDecodeError
              "'utf-8' codec can't decode byte 0xff in position 0: invalid start byte")
           [lo] None);
    vm_compute; reflexivity.
Defined.

(** C4 as stated fails on the streaming side: a last fragment without
    statistics has N/A printed for both, not zero, and one with statistics
    has its duration printed in nanoseconds. *)
Lemma streaming_statistics_are_printed_raw :
  Streaming.streaming_request loads (serve [bare_final] None EmptyString)
    "hi" "neural-chat"
  = (banner ++
     [Show (VStr "lo"); Text (LF +:+ repeat_str "-" 60); Text LF;
      Text "✅ Complete!"; Text LF;
      Text "   Tokens: "; Show (VStr "N/A"); Text LF;
      Text "   Duration: "; Show (VStr "N/A"); Text " ns"; Text LF],
     Returns tt)
  ∧ Streaming.streaming_request loads (serve [lo_final] None EmptyString)
      "hi" "neural-chat"
    = (banner ++
       [Show (VStr "lo"); Text (LF +:+ repeat_str "-" 60); Text LF;
        Text "✅ Complete!"; Text LF;
        Text "   Tokens: "; Show (VInt 42); Text LF;
        Text "   Duration: "; Show (VInt 2000000000); Text " ns"; Text LF],
       Returns tt)
  ∧ VStr "N/A" ≠ VInt 0
  ∧ VInt 2000000000 ≠ VFloat 2.
Proof. vm_compute. repeat split; (reflexivity || discriminate). Qed.

(** C4 on [eval_count=42], [total_duration=2_000_000_000]. *)
Lemma statistics_of_a_response_witness :
  (∃ reply,
     App.query_ollama response_json (serve [] None whole_body) "hi" "neural-chat" 0.7 false
     = ([], Returns (App.Dict reply))
     ∧ reply !! "tokens" = Some (VInt 42)
     ∧ reply !! "duration" = Some (VFloat 2))
  ∧ Basic.request_stats (VDict whole_body_object) = ([], Returns (VInt 42, VFloat 2)).
Proof.
  destruct (statistics_of_a_response loads response_json
              (serve [] None whole_body) "hi" "neural-chat" 0.7
              (answer [] None whole_body) whole_body_object (Some 2000000000)
              2000000000%float 2%float lo_final lo_final_object)
    as [(reply & Hrun & Htokens & Hduration & _) [Hstats _]];
    try (vm_compute; reflexivity).
  split; [by exists reply | exact Hstats].
Defined.

(** C5 as stated fails: after two fragments and a connection error, [chat]
    returns [None], not the text of the two fragments. *)
Lemma chat_discards_partial_text :
  stream_text loads [hel; lo] = "Hello"
  ∧ Conversation.chat loads response_json
      (serve [hel; lo] (Some read_timeout) EmptyString) bot "hi" true
    = ([Text "💬 "; Show (VStr "Hel"); Show (VStr "lo");
        Text "❌ Error: Cannot connect to Ollama API"; Text LF;
        Text "   Make sure to run: ollama serve"; Text LF],
       Returns (VNone, bot))
  ∧ VNone ≠ VStr (stream_text loads [hel; lo]).
Proof. vm_compute. repeat split; (reflexivity || discriminate). Qed.

Lemma connection_failure_keeps_display_only_witness :
  Conversation.chat loads response_json
    (serve [hel; lo] (Some read_timeout) EmptyString) bot "hi" true
  = ([Text "💬 "; Show (VStr "Hel"); Show (VStr "lo")] ++ connection_report,
     Returns (VNone, bot))
  ∧ Streaming.streaming_request loads
      (serve [hel; lo] (Some read_timeout) EmptyString) "hi" "neural-chat"
    = (banner ++ [Show (VStr "Hel"); Show (VStr "lo")] ++ connection_report,
       Returns tt).
Proof.
  apply (connection_failure_keeps_display_only loads response_json
           (serve [hel; lo] (Some read_timeout) EmptyString)
           bot "hi" "hi" "neural-chat"
           (answer [hel; lo] (Some read_timeout) EmptyString) read_timeout);
    vm_compute; reflexivity.
Defined.

(** C6 as stated fails: after a clean end without a flagged fragment
    there is no token count and no duration that could be zero.  [chat]
    returns the text alone, a [str], and what the two consumers print are
    the pieces only: no zero and no statistics. *)
Lemma clean_end_has_no_statistics :
  Conversation.chat loads response_json (serve [hel; lo] None EmptyString) bot "hi" true
  = ([Text "💬 "; Show (VStr "Hel"); Show (VStr "lo"); Text LF],
     Returns (VStr "Hello",
              Conversation.append_exchange bot (Conversation.Exchange "hi" "Hello")))
  ∧ Streaming.streaming_request loads (serve [hel; lo] None EmptyString)
      "hi" "neural-chat"
    = ([Text "🤔 Thinking..."; Text LF; Text (repeat_str "-" 60); Text LF;
        Show (VStr "Hel"); Show (VStr "lo")],
       Returns tt)
  ∧ ¬ reports_statistics
        [Text "💬 "; Show (VStr "Hel"); Show (VStr "lo"); Text LF]
  ∧ ¬ reports_statistics
        [Text "🤔 Thinking..."; Text LF; Text (repeat_str "-" 60); Text LF;
         Show (VStr "Hel"); Show (VStr "lo")]
  ∧ ¬ In (Show (VInt 0))
        [Text "💬 "; Show (VStr "Hel"); Show (VStr "lo"); Text LF;
         Text "🤔 Thinking..."; Text LF; Text (repeat_str "-" 60); Text LF;
         Show (VStr "Hel"); Show (VStr "lo")].
Proof.
  split; [vm_compute; reflexivity |]. split; [vm_compute; reflexivity |].
  unfold reports_statistics. simpl. intuition discriminate.
Qed.

(** C6 on a stream that ends after [Hel] and [lo], neither with the flag. *)
Lemma clean_end_without_final_is_success_witness :
  (Conversation.chat loads response_json (serve [hel; lo] None EmptyString) bot "hi" true
   = ([Text "💬 "; Show (VStr "Hel"); Show (VStr "lo"); Text LF],
      Returns (VStr "Hello",
               Conversation.append_exchange bot (Conversation.Exchange "hi" "Hello")))
   ∧ Streaming.streaming_request loads (serve [hel; lo] None EmptyString)
       "hi" "neural-chat"
     = (banner ++ [Show (VStr "Hel"); Show (VStr "lo")], Returns tt))
  ∧ ¬ reports_statistics
        (Streaming.streaming_request loads (serve [hel; lo] None EmptyString)
           "hi" "neural-chat").1.
Proof.
  destruct (clean_end_without_final_is_success loads response_json
              (serve [hel; lo] None EmptyString) bot "hi" "hi" "neural-chat"
              (answer [hel; lo] None EmptyString))
    as (Hrun & [_ Hquiet] & _); try (vm_compute; reflexivity).
  split; [exact Hrun | exact Hquiet].
Defined.

(** The stream of zero lines. *)
Example empty_stream_succeeds :
  Conversation.chat loads response_json (serve [] None EmptyString) bot "hi" true
  = ([Text "💬 "; Text LF],
     Returns (VStr EmptyString,
              Conversation.append_exchange bot (Conversation.Exchange "hi" EmptyString)))
  ∧ Streaming.streaming_request loads (serve [] None EmptyString) "hi" "neural-chat"
    = (banner, Returns tt).
Proof. vm_compute. split; reflexivity. Qed.

(** C7 as stated fails: on the body [<html>], [query_ollama] answers with
    the error status and a response text that is not empty. *)
Lemma unparsable_body_has_error_text :
  App.query_ollama response_json (serve [] None "<html>") "hi" "neural-chat" 0.7 false
  = ([], Returns (App.Dict
       {[ "response" := VStr "❌ Error: Expecting value: line 1 column 1 (char 0)";
          "status" := VStr "error" ]}))
  ∧ "❌ Error: Expecting value: line 1 column 1 (char 0)" ≠ EmptyString.
Proof. split; [vm_compute; reflexivity | discriminate]. Qed.

Lemma unparsable_body_is_generic_error_witness :
  App.query_ollama response_json (serve [] None "<html>") "hi" "neural-chat" 0.7 false
  = ([], Returns (App.Dict
       {[ "response" := VStr "❌ Error: Expecting value: line 1 column 1 (char 0)";
          "status" := VStr "error" ]}))
  ∧ Basic.simple_request response_json (serve [] None "<html>") "hi"
    = (basic_banner ++
       [Text "  ❌ Error: "; Text "Expecting value: line 1 column 1 (char 0)"; Text LF],
       Returns VNone).
Proof.
  destruct (unparsable_body_is_generic_error loads response_json
              (serve [] None "<html>") "hi" "neural-chat" 0.7
              (answer [] None "<html>")
              (Exn RequestsJSONDecodeError "Expecting value: line 1 column 1 (char 0)"))
    as (Hquery & Hbasic & _ & _); try (vm_compute; reflexivity).
  split; [exact Hquery | exact Hbasic].
Defined.

(** C8 on the object without any field. *)
Lemma missing_fields_take_defaults_witness :
  Streaming.streaming_line loads no_fields tt = ([Show (VStr EmptyString)], Returns tt)
  ∧ Conversation.chat_line loads no_fields "so far"
    = ([Show (VStr EmptyString)], Returns "so far")
  ∧ Streaming.streaming_line loads EmptyString tt = ([], Returns tt)
  ∧ Conversation.chat_line loads EmptyString "so far" = ([], Returns "so far").
Proof.
  destruct (missing_fields_take_defaults loads no_fields ∅)
    as (_ & Hresponse & Hdone & Hempty & Hempty'); try (vm_compute; reflexivity).
  destruct (Hresponse eq_refl) as (_ & _ & Hchat).
  destruct (Hdone eq_refl) as (_ & _ & Hstreaming).
  split; [exact Hstreaming |]. split; [apply Hchat |].
  split; [exact Hempty | apply Hempty'].
Defined.

(** C10 as stated fails: the request completes with status 200 and the
    JSON body [[]], and the status of the result is error. *)
Lemma json_array_body_is_error :
  serve [] None "[]" (App.post_args "hi" "neural-chat" 0.7 false)
  = Returns (answer [] None "[]")
  ∧ ok_status (answer [] None "[]") = true
  ∧ response_json (answer [] None "[]") = Returns (VList [])
  ∧ App.query_ollama response_json (serve [] None "[]") "hi" "neural-chat" 0.7 false
    = ([], Returns (App.Dict
         {[ "response" := VStr "❌ Error: 'list' object has no attribute 'get'";
            "status" := VStr "error" ]}))
  ∧ VStr "error" ≠ VStr "success".
Proof. vm_compute. repeat split; (reflexivity || discriminate). Qed.

(** ** More runs of the non-streaming paths and of the history *)

Example query_ollama_on_a_valid_body :
  App.query_ollama response_json
    (serve [] None (wire "{'response':'hi','eval_count':3,'total_duration':1000000000}"))
    "hi" "neural-chat" 0.7 false
  = ([], Returns (App.Dict {[ "response" := VStr "hi"; "tokens" := VInt 3;
                              "duration" := VFloat 1; "status" := VStr "success" ]})).
Proof. vm_compute. reflexivity. Qed.

Example query_ollama_unreachable :
  App.query_ollama response_json unreachable "hi" "neural-chat" 0.7 false
  = ([], Returns (App.Dict
       {[ "response" := VStr "❌ Error: Cannot connect to Ollama API. Make sure to run 'ollama serve'";
          "status" := VStr "error" ]})).
Proof. vm_compute. reflexivity. Qed.

Example chat_unreachable :
  Conversation.chat loads response_json unreachable bot "hi" true
  = (connection_report, Returns (VNone, bot)).
Proof. vm_compute. reflexivity. Qed.

Example chat_whole_body :
  Conversation.chat loads response_json
    (serve [] None (wire "{'response':' hi there ','done':true}")) bot "hello" false
  = ([Text "💬 "; Show (VStr " hi there "); Text LF],
     Returns (VStr " hi there ",
              Conversation.append_exchange bot (Conversation.Exchange "hello" "hi there"))).
Proof. vm_compute. reflexivity. Qed.

Example chat_body_without_text :
  Conversation.chat loads response_json
    (serve [] None (wire "{'response':5}")) bot "hello" false
  = ([Text "💬 "; Show (VInt 5); Text LF;
      Text "❌ Error: "; Text "'int' object has no attribute 'strip'"; Text LF],
     Returns (VNone, bot)).
Proof. vm_compute. reflexivity. Qed.

Example second_exchange_sees_the_first :
  Conversation.build_prompt
    (Conversation.append_exchange bot (Conversation.Exchange "hi" "Hello")) "and?"
  = "System: You are a helpful assistant. Provide clear and concise answers."
    +:+ LF +:+ LF +:+ "User: hi" +:+ LF +:+ "Assistant: Hello" +:+ LF +:+ LF
    +:+ "User: and?" +:+ LF +:+ "Assistant:".
Proof. vm_compute. reflexivity. Qed.

(** * Proofs for the rest of the program: layout, sessions, failures, routes *)

Import Text Grouping Conversation Session.

(** ** Layout of an answer: [format_response] and [print_box] *)

Lemma len_nonneg s : 0 ≤ len s.
Proof. induction s as [|c s IH]; simpl; [done |]. destruct (continues c); lia. Qed.

Lemma len_app a b : len (a +:+ b) = len a + len b.
Proof.
  induction a as [|c a IH]; [done |].
  change (len (String c (a +:+ b)) = len (String c a) + len b).
  simpl. rewrite IH. lia.
Qed.

Lemma len_repeat s n : len (repeat_str s n) = Z.of_nat n * len s.
Proof.
  induction n as [|n IH]; [done |].
  change (len (s +:+ repeat_str s n) = Z.of_nat (S n) * len s).
  rewrite len_app, IH. lia.
Qed.

Lemma sum_len_app xs ys : sum_len (xs ++ ys) = sum_len xs + sum_len ys.
Proof. induction xs as [|x xs IH]; simpl; [done |]. rewrite IH. lia. Qed.

Lemma join_cons sep w ws :
  ws ≠ [] → String.concat sep (w :: ws) = w +:+ sep +:+ String.concat sep ws.
Proof. by destruct ws. Qed.

Lemma len_join sep ws :
  ws ≠ [] →
  len (String.concat sep ws) = sum_len ws + (Z.of_nat (length ws) - 1) * len sep.
Proof.
  induction ws as [|w ws IH]; [done |]. intros _.
  destruct ws as [|w' ws]; [simpl; lia |].
  rewrite join_cons by done. rewrite !len_app, IH by done.
  simpl sum_len. simpl length. lia.
Qed.

Lemma join_app sep (xs ys : list str) :
  xs ≠ [] → ys ≠ [] →
  String.concat sep (xs ++ ys)
  = String.concat sep xs +:+ sep +:+ String.concat sep ys.
Proof.
  intros Hxs Hys. induction xs as [|x xs IH]; [done |].
  destruct xs as [|x' xs].
  - change ([x] ++ ys) with (x :: ys). by rewrite join_cons.
  - change ((x :: x' :: xs) ++ ys) with (x :: ((x' :: xs) ++ ys)).
    rewrite !join_cons by done. rewrite IH by done.
    by rewrite !append_assoc.
Qed.

(** Joining lines that are themselves joined words joins all the words. *)
Lemma join_join sep (gs : list (list str)) :
  Forall (λ g, g ≠ []) gs →
  String.concat sep (map (String.concat sep) gs) = String.concat sep (concat gs).
Proof.
  induction 1 as [|g gs Hg Hgs IH]; [done |].
  destruct gs as [|g' gs].
  { simpl. by rewrite app_nil_r. }
  rewrite map_cons, join_cons by done. rewrite IH.
  assert (Hrest : concat (g' :: gs) ≠ []).
  { inversion Hgs as [|? ? Hg' _]; subst. simpl. by destruct g'. }
  change (concat (g :: g' :: gs)) with (g ++ concat (g' :: gs)).
  by rewrite join_app.
Qed.

Section Wrapping.

Variable max_width : Z.

(** The loop on lines is the loop on groups, joined. *)
Lemma fold_place_groups words gs cur :
  fold_left (Layout.place max_width) words (map (String.concat " ") gs, cur)
  = let '(gs', cur') := fold_left (place_group max_width) words (gs, cur) in
    (map (String.concat " ") gs', cur').
Proof.
  revert gs cur. induction words as [|w words IH]; intros gs cur; [done |].
  simpl. destruct (_ <=? max_width).
  - apply IH.
  - destruct cur as [|x cur]; [apply IH |].
    rewrite <- IH. by rewrite map_app.
Qed.

Lemma format_response_groups text :
  Layout.format_response text max_width
  = map (String.concat " ") (groups (split text) max_width).
Proof.
  unfold Layout.format_response, groups, close.
  pose proof (fold_place_groups (split text) [] []) as H. simpl in H. rewrite H.
  destruct (fold_left (place_group max_width) _ _) as [gs cur]. simpl.
  destruct cur; [done |]. by rewrite map_app.
Qed.

(** What the loop keeps true of the groups it has closed and of the one it
    is filling, [seen] being the words already placed. *)
Lemma fold_groups_invariant words seen gs cur :
  Forall (λ g, g ≠ []) gs → Forall (fitted max_width) gs →
  (cur = [] → gs = []) → (cur ≠ [] → fitted max_width cur) →
  concat gs ++ cur = seen →
  Forall (λ g, g ≠ []) (close (fold_left (place_group max_width) words (gs, cur)))
  ∧ Forall (fitted max_width) (close (fold_left (place_group max_width) words (gs, cur)))
  ∧ concat (close (fold_left (place_group max_width) words (gs, cur))) = seen ++ words.
Proof.
  revert seen gs cur. induction words as [|w words IH]; intros seen gs cur Hne Hfit Hnil Hcur Hseen.
  - simpl. unfold close. simpl. destruct cur as [|x cur].
    + rewrite (Hnil eq_refl) in *. simpl in Hseen. subst seen. by repeat constructor.
    + split; [|split].
      * apply Forall_app. split; [done |]. by constructor.
      * apply Forall_app. split; [done |]. constructor; [by apply Hcur | done].
      * rewrite concat_app. simpl. by rewrite !app_nil_r.
  - change (fold_left (place_group max_width) (w :: words) (gs, cur))
      with (fold_left (place_group max_width) words
              (place_group max_width (gs, cur) w)).
    assert (Hstep : place_group max_width (gs, cur) w
      = if sum_len cur + Z.of_nat (length cur) + len w <=? max_width
        then (gs, cur ++ [w])
        else (match cur with [] => gs | _ :: _ => gs ++ [cur] end, [w]))
      by done.
    rewrite Hstep. clear Hstep.
    destruct (_ <=? max_width) eqn:Hfits.
    + replace (seen ++ w :: words) with ((seen ++ [w]) ++ words)
        by (by rewrite <- app_assoc).
      apply IH; try done.
      * by destruct cur.
      * intros _. right. apply Z.leb_le in Hfits.
        rewrite sum_len_app, length_app. simpl. lia.
      * rewrite <- Hseen. by rewrite app_assoc.
    + replace (seen ++ w :: words) with ((seen ++ [w]) ++ words)
        by (by rewrite <- app_assoc).
      destruct cur as [|x cur].
      * apply IH; try done.
        -- intros _. left. by eexists.
        -- rewrite <- Hseen. by rewrite app_nil_r.
      * apply IH; try done.
        -- apply Forall_app. split; [done |]. by constructor.
        -- apply Forall_app. split; [done |]. constructor; [by apply Hcur | done].
        -- intros _. left. by eexists.
        -- rewrite <- Hseen. rewrite concat_app. simpl. by rewrite app_nil_r.
Qed.

Lemma groups_spec words :
  Forall (λ g, g ≠ []) (groups words max_width)
  ∧ Forall (fitted max_width) (groups words max_width)
  ∧ concat (groups words max_width) = words.
Proof.
  unfold groups. by apply (fold_groups_invariant words [] [] []).
Qed.

Lemma greedy_last_head gs g g' :
  head g' = head g → greedy max_width (gs ++ [g]) → greedy max_width (gs ++ [g']).
Proof.
  intros Hhead. induction gs as [|x gs IH]; [done |].
  destruct gs as [|y gs].
  - simpl. intros [H _]. split; [|done]. intros word. rewrite Hhead. apply H.
  - change ((x :: y :: gs) ++ [g]) with (x :: y :: (gs ++ [g])).
    change ((x :: y :: gs) ++ [g']) with (x :: y :: (gs ++ [g'])).
    intros [H Hrest]. split; [done |]. by apply IH.
Qed.

Lemma greedy_snoc gs g g' :
  (∀ word, head g' = Some word →
           max_width < sum_len g + Z.of_nat (length g) + len word) →
  greedy max_width (gs ++ [g]) → greedy max_width ((gs ++ [g]) ++ [g']).
Proof.
  intros Hnext. induction gs as [|x gs IH]; [by simpl |].
  destruct gs as [|y gs].
  - simpl. intros [H _]. by repeat split.
  - change (((x :: y :: gs) ++ [g]) ++ [g'])
      with (x :: y :: ((gs ++ [g]) ++ [g'])).
    change ((x :: y :: gs) ++ [g]) with (x :: y :: (gs ++ [g])).
    intros [H Hrest]. split; [done |]. by apply IH.
Qed.

Lemma fold_groups_greedy words gs cur :
  (cur = [] → gs = []) →
  greedy max_width (close (gs, cur)) →
  greedy max_width (close (fold_left (place_group max_width) words (gs, cur))).
Proof.
  revert gs cur. induction words as [|w words IH]; intros gs cur Hnil Hgreedy; [done |].
  change (fold_left (place_group max_width) (w :: words) (gs, cur))
    with (fold_left (place_group max_width) words
            (place_group max_width (gs, cur) w)).
  assert (Hstep : place_group max_width (gs, cur) w
    = if sum_len cur + Z.of_nat (length cur) + len w <=? max_width
      then (gs, cur ++ [w])
      else (match cur with [] => gs | _ :: _ => gs ++ [cur] end, [w]))
    by done.
  rewrite Hstep. clear Hstep.
  destruct (_ <=? max_width) eqn:Hfits.
  - apply IH; [by destruct cur |].
    destruct cur as [|x cur].
    + by rewrite (Hnil eq_refl).
    + unfold close in *. cbn [fst snd] in *.
      by apply (greedy_last_head gs (x :: cur)).
  - apply Z.leb_gt in Hfits. destruct cur as [|x cur].
    + apply IH; [done |]. by rewrite (Hnil eq_refl).
    + apply IH; [done |]. unfold close in *. cbn [fst snd] in *.
      apply greedy_snoc; [|done]. intros word [= <-]. lia.
Qed.

Lemma groups_greedy words : greedy max_width (groups words max_width).
Proof. unfold groups. by apply fold_groups_greedy. Qed.

Lemma greedy_lookup gs i g1 g2 word :
  greedy max_width gs →
  gs !! i = Some g1 → gs !! S i = Some g2 → head g2 = Some word →
  max_width < sum_len g1 + Z.of_nat (length g1) + len word.
Proof.
  revert i. induction gs as [|x gs IH]; intros i Hgreedy H1 H2 Hword; [done |].
  destruct gs as [|y gs]; [done |]. destruct Hgreedy as [Hhere Hrest].
  destruct i as [|i].
  - simpl in H1, H2. injection H1 as <-. injection H2 as <-. by apply Hhere.
  - by apply (IH i).
Qed.

End Wrapping.

Lemma flush_Forall (P : str → Prop) word :
  (word ≠ EmptyString → P word) → Forall P (flush word).
Proof. destruct word; [constructor |]. intros H. repeat constructor. by apply H. Qed.

Lemma split_from_unfold word s :
  split_from word s
  = match s with
    | EmptyString => flush word
    | String a s1 =>
        if ascii_space a then flush word ++ split_from EmptyString s1 else
        match s1 with
        | String b s2 =>
            if wide_space2 a b then flush word ++ split_from EmptyString s2 else
            match s2 with
            | String c s3 =>
                if wide_space3 a b c then flush word ++ split_from EmptyString s3
                else split_from (word +:+ String a EmptyString) s1
            | EmptyString => split_from (word +:+ String a EmptyString) s1
            end
        | EmptyString => split_from (word +:+ String a EmptyString) s1
        end
    end.
Proof. by destruct s. Qed.

(** Every word of [split] is made of at least one character. *)
Lemma split_from_nonempty s word :
  Forall (λ w, w ≠ EmptyString) (split_from word s).
Proof.
  remember (String.length s) as n eqn:Hn. revert s word Hn.
  induction n as [n IH] using lt_wf_ind. intros s word Hn.
  assert (Hflush : Forall (λ w, w ≠ EmptyString) (flush word))
    by (by apply flush_Forall).
  assert (Hrec : ∀ s' word', (String.length s' < n)%nat →
                 Forall (λ w, w ≠ EmptyString) (split_from word' s'))
    by (intros s' word' Hlt; by apply (IH (String.length s'))).
  rewrite split_from_unfold.
  destruct s as [|a s1]; [done |]. simpl in Hn.
  assert (Hs1 : ∀ word', Forall (λ w, w ≠ EmptyString) (split_from word' s1))
    by (intros word'; apply Hrec; lia).
  destruct (ascii_space a); [by apply Forall_app |].
  destruct s1 as [|b s2]; [done |]. simpl in Hn.
  destruct (wide_space2 a b);
    [apply Forall_app; split; [done |]; apply Hrec; lia |].
  destruct s2 as [|c s3]; [done |]. simpl in Hn.
  destruct (wide_space3 a b c); [|done].
  apply Forall_app; split; [done |]. apply Hrec. lia.
Qed.

Lemma join_nonempty sep (g : list str) :
  g ≠ [] → Forall (λ w, w ≠ EmptyString) g → String.concat sep g ≠ EmptyString.
Proof.
  destruct g as [|w g]; [done |]. intros _ Hg.
  inversion Hg as [|? ? Hw _]; subst.
  destruct g as [|w' g]; [done |].
  rewrite join_cons by done. by destruct w.
Qed.

Lemma print_box_output lines box_char max_width :
  Layout.print_box lines box_char max_width
  = (Text ("╔" +:+ repeat_str "═" (Z.to_nat (max_width + 2)) +:+ "╗") :: Text LF
     :: flat_map (λ line,
          [Text (box_char +:+ " " +:+ line
                 +:+ repeat_str " " (Z.to_nat (max_width - len line))
                 +:+ " " +:+ box_char);
           Text LF]) lines
     ++ [Text ("╚" +:+ repeat_str "═" (Z.to_nat (max_width + 2)) +:+ "╝"); Text LF],
     Returns tt).
Proof.
  unfold Layout.print_box.
  match goal with
  | |- context [for_each lines None ?body tt] =>
      assert (Hloop : for_each lines None body tt
        = (flat_map (λ line,
             [Text (box_char +:+ " " +:+ line
                    +:+ repeat_str " " (Z.to_nat (max_width - len line))
                    +:+ " " +:+ box_char);
              Text LF]) lines, Returns tt));
        [|rewrite Hloop]
  end.
  { induction lines as [|line lines IH]; [done |]. simpl. by rewrite IH. }
  done.
Qed.

Lemma border_width l r max_width :
  0 ≤ max_width → len l = 1 → len r = 1 →
  len (l +:+ repeat_str "═" (Z.to_nat (max_width + 2)) +:+ r) = max_width + 4.
Proof.
  intros Hwidth Hl Hr. rewrite !len_app, len_repeat, Hl, Hr.
  change (len "═") with 1. lia.
Qed.

Lemma row_width box_char line max_width :
  len box_char = 1 → len line ≤ max_width →
  len (box_char +:+ " " +:+ line
       +:+ repeat_str " " (Z.to_nat (max_width - len line)) +:+ " " +:+ box_char)
  = max_width + 4.
Proof.
  intros Hchar Hline. rewrite !len_app, len_repeat, Hchar. change (len " ") with 1.
  pose proof (len_nonneg line). lia.
Qed.

(** Lines made for a width fit any bound that the width and the words fit. *)
Lemma format_response_fits width text bound :
  width ≤ bound →
  Forall (λ word, len word ≤ bound) (split text) →
  Forall (λ line, len line ≤ bound) (Layout.format_response text width).
Proof.
  intros Hwidth Hwords. rewrite format_response_groups.
  destruct (groups_spec width (split text)) as (Hne & Hfit & Hsame).
  apply List.Forall_forall. intros line Hline.
  apply in_map_iff in Hline as (g & <- & Hg).
  rewrite List.Forall_forall in Hne, Hfit, Hwords.
  destruct (Hfit g Hg) as [[w ->] | Hlen].
  - simpl. apply Hwords. rewrite <- Hsame. apply in_concat. exists [w].
    split; [done | by left].
  - rewrite len_join by by apply Hne. change (len " ") with 1. lia.
Qed.

Section LayoutProperties.

Variable max_width : Z.

(** X1.  [format_response] neither loses nor reorders nor joins words:
    its lines, joined by single spaces, are the words of the text joined
    by single spaces. *)
Theorem format_response_keeps_words text :
  String.concat " " (Layout.format_response text max_width)
  = String.concat " " (split text).
Proof.
  rewrite format_response_groups.
  destruct (groups_spec max_width (split text)) as (Hne & _ & Hwords).
  rewrite join_join by done. by rewrite Hwords.
Qed.

(** X2.  Every line [format_response] returns is at most [max_width]
    characters wide, except a line made of one single word of the text
    (a word longer than the width is never broken). *)
Theorem format_response_line_width text :
  Forall (λ line, len line ≤ max_width ∨ In line (split text))
         (Layout.format_response text max_width).
Proof.
  rewrite format_response_groups.
  destruct (groups_spec max_width (split text)) as (Hne & Hfit & Hwords).
  apply List.Forall_forall. intros line Hline.
  apply in_map_iff in Hline as (g & <- & Hg).
  rewrite List.Forall_forall in Hne, Hfit.
  destruct (Hfit g Hg) as [[w ->] | Hlen].
  - right. simpl. rewrite <- Hwords. apply in_concat. exists [w].
    split; [done | by left].
  - left. rewrite len_join by by apply Hne. change (len " ") with 1. lia.
Qed.

(** X3.  [format_response] returns no empty line, and no line at all
    exactly when the text has no word (it is empty or all whitespace). *)
Theorem format_response_no_blank_line text :
  Forall (λ line, line ≠ EmptyString) (Layout.format_response text max_width)
  ∧ (Layout.format_response text max_width = [] ↔ split text = []).
Proof.
  rewrite format_response_groups.
  destruct (groups_spec max_width (split text)) as (Hne & _ & Hwords).
  pose proof (split_from_nonempty text EmptyString) as Hsplit.
  fold (split text) in Hsplit. rewrite <- Hwords in Hsplit.
  split.
  - apply List.Forall_forall. intros line Hline.
    apply in_map_iff in Hline as (g & <- & Hg).
    rewrite List.Forall_forall in Hne.
    apply join_nonempty; [by apply Hne |].
    apply List.Forall_forall. intros w Hw. rewrite List.Forall_forall in Hsplit.
    apply Hsplit, in_concat. by exists g.
  - split.
    + intros Hnil. apply map_eq_nil in Hnil. by rewrite <- Hwords, Hnil.
    + intros Hnil. by rewrite Hnil.
Qed.

(** X6.  The lines are filled greedily: they are the words of the text
    grouped in order, and the first word of every line after the first
    would not have fit at the end of the line before it. *)
Theorem format_response_is_greedy text :
  ∃ gs : list (list str),
    Layout.format_response text max_width = map (String.concat " ") gs
    ∧ concat gs = split text
    ∧ ∀ i g1 g2 word,
        gs !! i = Some g1 → gs !! S i = Some g2 → head g2 = Some word →
        max_width < len (String.concat " " g1) + 1 + len word.
Proof.
  exists (groups (split text) max_width).
  destruct (groups_spec max_width (split text)) as (Hne & _ & Hwords).
  split; [apply format_response_groups |]. split; [done |].
  intros i g1 g2 word H1 H2 Hword.
  pose proof (greedy_lookup max_width _ i g1 g2 word
                (groups_greedy max_width (split text)) H1 H2 Hword) as Hlt.
  rewrite len_join; [change (len " ") with 1; lia |].
  rewrite List.Forall_forall in Hne. apply Hne.
  apply list_elem_of_In. by apply list_elem_of_lookup_2 in H1.
Qed.

End LayoutProperties.

(** X4.  [print_box] draws a rectangle around lines that fit: when the box
    character is one character wide and no line is wider than [max_width],
    every row it prints, borders included, is [max_width + 4] characters
    wide. *)
Theorem print_box_is_rectangular lines box_char max_width s :
  0 ≤ max_width →
  len box_char = 1 →
  Forall (λ line, len line ≤ max_width) lines →
  In (Text s) (Layout.print_box lines box_char max_width).1 →
  s = LF ∨ len s = max_width + 4.
Proof.
  intros Hwidth Hchar Hlines. rewrite print_box_output. simpl fst.
  intros [[= <-] | [[= <-] | Hin]].
  - right. by apply border_width.
  - by left.
  - apply in_app_iff in Hin as [Hin | [[= <-] | [[= <-] | []]]].
    + apply in_flat_map in Hin as (line & Hline & [[= <-] | [[= <-] | []]]).
      * right. rewrite List.Forall_forall in Hlines. by apply row_width, Hlines.
      * by left.
    + right. by apply border_width.
    + by left.
Qed.

(** X5.  The layout [main] uses composes: the lines [format_response]
    makes for a width no larger than the box, from a text whose words all
    fit the box, are framed by [print_box] in rows that are all
    [max_width + 4] characters wide. *)
Theorem formatted_answer_fits_its_box text width max_width s :
  0 ≤ max_width →
  width ≤ max_width →
  Forall (λ word, len word ≤ max_width) (split text) →
  In (Text s) (Layout.print_box (Layout.format_response text width) "│" max_width).1 →
  s = LF ∨ len s = max_width + 4.
Proof.
  intros Hbox Hwidth Hwords.
  pose proof (format_response_fits width text max_width Hwidth Hwords) as Hlines.
  rewrite print_box_output. simpl fst.
  intros [[= <-] | [[= <-] | Hin]].
  - right. by apply border_width.
  - by left.
  - apply in_app_iff in Hin as [Hin | [[= <-] | [[= <-] | []]]].
    + apply in_flat_map in Hin as (line & Hline & [[= <-] | [[= <-] | []]]).
      * right. rewrite List.Forall_forall in Hlines. by apply row_width, Hlines.
      * by left.
    + right. by apply border_width.
    + by left.
Qed.

(** ** The conversation across turns *)


Section Turns.

Variable json_loads : bytes → outcome value.
Variable Response_json : response → outcome value.
Variable requests_post : request → outcome response.

(** However the [try] block ends, [chat] returns; the chatbot is the old
    one, or the old one with one exchange more. *)
Lemma chat_outcome self msg stream :
  ∃ o v self',
    chat json_loads Response_json requests_post self msg stream = (o, Returns (v, self'))
    ∧ ((v = VNone ∧ self' = self)
       ∨ ∃ text, v = VStr text
                 ∧ self' = append_exchange self (Exchange msg (strip text))).
Proof.
  unfold chat.
  destruct (chat_body json_loads Response_json requests_post self msg stream)
    as [o [[v self']|e]] eqn:Hbody.
  - exists o, v, self'. split; [done |]. right.
    unfold chat_body in Hbody.
    apply bind_returns in Hbody as (o1 & r & o2 & _ & Hbody & ->).
    apply bind_returns in Hbody as (o3 & [] & o4 & _ & Hbody & ->).
    apply bind_returns in Hbody as (o5 & full & o6 & _ & Hbody & ->).
    apply bind_returns in Hbody as (o7 & stripped & o8 & Hstrip & Hbody & ->).
    apply lift_returns in Hstrip as [Hstrip ->].
    apply strip_method_returns in Hstrip as (text & -> & ->).
    injection Hbody as <- <- <-. by exists text.
  - exists (o ++ error_report e), VNone, self. split; [|by left].
    simpl. unfold error_report, connection_report.
    by destruct (is_ConnectionError e).
Qed.

Lemma build_prompt_append self question answer next :
  build_prompt (append_exchange self (Exchange question answer)) next
  = build_prompt self question +:+ " " +:+ answer +:+ LF +:+ LF
    +:+ "User: " +:+ next +:+ LF +:+ "Assistant:".
Proof.
  unfold build_prompt, append_exchange. cbn [conversation_history system_prompt].
  rewrite fold_left_app. cbn [fold_left user assistant].
  rewrite !append_assoc.
  do 3 f_equal.
Qed.

End Turns.

(** ** Slices, and the history on the screen *)

Lemma slice_to_len n s : len (slice_to n s) ≤ Z.of_nat n.
Proof.
  revert n. induction s as [|c s IH]; intros n; simpl; [lia |].
  destruct (continues c) eqn:Hc; simpl.
  - rewrite Hc. specialize (IH n). lia.
  - destruct n as [|n]; simpl; [lia |]. rewrite Hc. specialize (IH n). lia.
Qed.

Lemma slice_to_all n s : len s ≤ Z.of_nat n → slice_to n s = s.
Proof.
  revert n. induction s as [|c s IH]; intros n; simpl; [done |].
  pose proof (len_nonneg s).
  destruct (continues c) eqn:Hc; intros Hn.
  - by rewrite IH by lia.
  - destruct n as [|n]; [lia |]. by rewrite IH by lia.
Qed.

Lemma slice_to_prefix n s : ∃ rest, s = slice_to n s +:+ rest.
Proof.
  revert n. induction s as [|c s IH]; intros n; simpl; [by exists EmptyString |].
  destruct (continues c).
  - destruct (IH n) as [rest Hrest]. exists rest.
    change (String c s = String c (slice_to n s +:+ rest)). by rewrite <- Hrest.
  - destruct n as [|n]; [by exists (String c s) |].
    destruct (IH n) as [rest Hrest]. exists rest.
    change (String c s = String c (slice_to n s +:+ rest)). by rewrite <- Hrest.
Qed.

Lemma enumerate_lookup {A} (l : list A) start i x :
  l !! i = Some x → enumerate l start !! i = Some (start + Z.of_nat i, x).
Proof.
  revert start i. induction l as [|y l IH]; intros start i; [done |].
  destruct i as [|i]; simpl.
  - intros [= ->]. do 2 f_equal. lia.
  - intros H. rewrite (IH (start + 1) i H). do 2 f_equal. lia.
Qed.

Lemma show_loop (h : list exchange) start :
  for_each (enumerate h start) None show_exchange tt
  = (flat_map (λ item, shown_exchange item.1 item.2) (enumerate h start), Returns tt).
Proof.
  revert start. induction h as [|x h IH]; intros start; [done |].
  simpl. rewrite IH. done.
Qed.

Lemma flat_map_lookup {A B} (f : A → list B) (l : list A) i x :
  l !! i = Some x → ∃ before after, flat_map f l = before ++ f x ++ after.
Proof.
  intros H. apply list_elem_of_split_length in H as (l1 & l2 & -> & _).
  exists (flat_map f l1), (flat_map f l2). by rewrite flat_map_app.
Qed.

(** ** The interactive session *)

Section Sessions.

Variable json_loads : bytes → outcome value.
Variable Response_json : response → outcome value.
Variable requests_post : request → outcome response.
Variable lower : str → str.

Abbreviation session := (Session.session json_loads Response_json requests_post lower).
Abbreviation interactive_chat :=
  (Session.interactive_chat json_loads Response_json requests_post lower).
Lemma chat_same_settings self msg stream o v self' :
  chat json_loads Response_json requests_post self msg stream = (o, Returns (v, self')) →
  same_settings self self'.
Proof.
  destruct (chat_outcome json_loads Response_json requests_post self msg stream)
    as (o1 & v1 & self1 & Hchat & Hcases).
  rewrite Hchat. intros [= <- <- <-].
  destruct Hcases as [[_ ->] | (text & _ & ->)]; done.
Qed.

Lemma show_history_returns bot : ∃ o, show_history bot = (o, Returns tt).
Proof.
  unfold show_history. destruct (conversation_history bot) as [|x h] eqn:Hh.
  - by eexists.
  - rewrite show_loop. by eexists.
Qed.

(** An input that does not leave the loop: what it prints and the chatbot
    it leaves do not depend on what is typed next. *)
Lemma session_continue line bot :
  leaves lower (Typed line) = false →
  ∃ o bot',
    same_settings bot bot'
    ∧ ∀ rest, session (Typed line :: rest) bot
              = let '(o', r) := session rest bot' in (o ++ o', r).
Proof.
  unfold leaves. intros Hgo.
  destruct (truthy (VStr (strip line))) eqn:Hblank; simpl in Hgo.
  - destruct (String.eqb (lower (strip line)) "history") eqn:Hhist.
    { destruct (show_history_returns bot) as [o Ho].
      exists ([Text "You: "] ++ o), bot. split; [done |].
      intros rest'. cbn [Session.session]. rewrite Hblank, Hgo, Hhist. cbn [negb].
      rewrite Ho. simpl. by destruct (session rest' bot). }
    destruct (String.eqb (lower (strip line)) "clear") eqn:Hclear.
    { exists ([Text "You: "] ++ (clear_history bot).1),
             (Chatbot (model bot) (api_url bot) [] (system_prompt bot)).
      split; [done |].
      intros rest'. cbn [Session.session]. rewrite Hblank, Hgo, Hhist, Hclear. cbn [negb].
      unfold clear_history. simpl. by destruct (session rest' _). }
    destruct (chat_outcome json_loads Response_json requests_post bot (strip line) true)
      as (o & v & bot' & Hchat & _).
    exists ([Text "You: "] ++ o ++ [Text LF]), bot'. split.
    { by eapply chat_same_settings. }
    intros rest'. cbn [Session.session]. rewrite Hblank, Hgo, Hhist, Hclear. cbn [negb].
    rewrite Hchat. simpl. destruct (session rest' bot'). by rewrite <- !app_assoc.
  - exists [Text "You: "], bot. split; [done |].
    intros rest'. cbn [Session.session]. rewrite Hblank. cbn [negb]. simpl.
    by destruct (session rest' bot).
Qed.

Lemma session_leaves k rest bot :
  leaves lower k = true →
  ∃ o, session (k :: rest) bot = (o, Returns bot).
Proof.
  destruct k as [line|]; simpl.
  - intros H. apply andb_true_iff in H as [-> ->]. by eexists.
  - by eexists.
Qed.

Lemma session_left k rest bot :
  leaves lower k = true → session (k :: rest) bot = session [k] bot.
Proof.
  destruct k as [line|]; simpl; [|done].
  intros H. apply andb_true_iff in H as [-> ->]. done.
Qed.

Lemma session_result inputs bot :
  if existsb (leaves lower) inputs
  then ∃ bot', (session inputs bot).2 = Returns bot' ∧ same_settings bot bot'
  else (session inputs bot).2 = Raises end_of_input.
Proof.
  revert bot. induction inputs as [|k inputs IH]; intros bot; [done |].
  cbn [existsb]. destruct (leaves lower k) eqn:Hk; cbn [orb].
  - destruct (session_leaves k inputs bot Hk) as [o ->]. by exists bot.
  - destruct k as [line|]; [|done].
    destruct (session_continue line bot Hk) as (o & bot' & Hsame & Hstep).
    rewrite Hstep. specialize (IH bot').
    destruct (session inputs bot') as [o' r]. cbn [snd] in *.
    destruct (existsb (leaves lower) inputs); [|done].
    destruct IH as (bot'' & -> & Hsame'). exists bot''. split; [done |].
    unfold same_settings in *. intuition congruence.
Qed.

Lemma session_stops before k after bot :
  leaves lower k = true →
  session (before ++ k :: after) bot = session (before ++ [k]) bot.
Proof.
  intros Hk. revert bot. induction before as [|x before IH]; intros bot.
  - by apply session_left.
  - destruct (leaves lower x) eqn:Hx.
    + rewrite <- !app_comm_cons.
      rewrite (session_left x (before ++ k :: after)) by done.
      by rewrite (session_left x (before ++ [k])) by done.
    + destruct x as [line|]; [|done].
      destruct (session_continue line bot Hx) as (o & bot' & _ & Hstep).
      rewrite <- !app_comm_cons, !Hstep. by rewrite IH.
Qed.

End Sessions.

Section Questions.

Variable json_loads : bytes → outcome value.
Variable Response_json : response → outcome value.
Variable requests_post : request → outcome response.

Abbreviation ask := (Session.ask json_loads Response_json requests_post).

(** The questions of the demonstration: the history is the old one and
    the exchanges of those that were answered. *)
Lemma ask_all qs bot :
  ∃ o bot',
    for_each qs None ask bot = (o, Returns bot')
    ∧ same_settings bot bot'
    ∧ conversation_history bot'
      = conversation_history bot
        ++ answered json_loads Response_json requests_post bot qs.
Proof.
  revert bot. induction qs as [|q qs IH]; intros bot.
  - exists [], bot. by rewrite app_nil_r.
  - destruct (chat_outcome json_loads Response_json requests_post bot q true)
      as (o1 & v & bot1 & Hchat & Hcases).
    destruct (IH bot1) as (o2 & bot2 & Hrest & Hsame2 & Hhist2).
    exists (([Text "👤 User: "; Text q; Text LF] ++ o1 ++ [Text LF]) ++ o2), bot2.
    split; [|split].
    + assert (Hask : ask q bot
                     = ([Text "👤 User: "; Text q; Text LF] ++ o1 ++ [Text LF],
                        Returns bot1))
        by (unfold Session.ask; by rewrite Hchat).
      cbn [for_each]. rewrite Hask. simpl. by rewrite Hrest.
    + pose proof (chat_same_settings json_loads Response_json requests_post
                    bot q true o1 v bot1 Hchat) as Hsame1.
      destruct Hsame1 as (? & ? & ?), Hsame2 as (? & ? & ?).
      repeat split; congruence.
    + cbn [answered]. rewrite Hchat. cbn [snd].
      destruct Hcases as [[-> ->] | (text & -> & ->)]; [done |].
      rewrite Hhist2. cbn [conversation_history append_exchange].
      by rewrite <- app_assoc.
Qed.

Lemma answered_sublist qs bot :
  sublist (user <$> answered json_loads Response_json requests_post bot qs) qs.
Proof.
  revert bot. induction qs as [|q qs IH]; intros bot; [done |].
  cbn [answered].
  destruct (chat json_loads Response_json requests_post bot q true).2
    as [[[] ?]|]; try (apply sublist_cons, IH).
  cbn [fmap list_fmap user]. apply sublist_skip, IH.
Qed.

End Questions.

(** ** The conversation: prompts across turns, the history, the sessions *)

Section Dialogue.

Variable json_loads : bytes → outcome value.
Variable Response_json : response → outcome value.
Variable requests_post : request → outcome response.
Variable lower : str → str.

(** X7.  The prompt of the next turn continues the prompt of this one.
    [chat] returns; when it returns a text, the prompt built afterwards
    for any next message is the prompt that was sent, followed by a
    space, the stripped text, an empty line and the new question with its
    [Assistant:] cue; when it returns [None], the prompt built afterwards
    is the one that would have been built before the call. *)
Theorem next_prompt_extends_previous self msg stream next :
  ∃ o v self',
    chat json_loads Response_json requests_post self msg stream
    = (o, Returns (v, self'))
    ∧ match v with
      | VStr text =>
          build_prompt self' next
          = build_prompt self msg +:+ " " +:+ strip text +:+ LF +:+ LF
            +:+ "User: " +:+ next +:+ LF +:+ "Assistant:"
      | _ => build_prompt self' next = build_prompt self next
      end.
Proof.
  destruct (chat_outcome json_loads Response_json requests_post self msg stream)
    as (o & v & self' & Hchat & Hcases).
  exists o, v, self'. split; [done |].
  destruct Hcases as [[-> ->] | (text & -> & ->)]; [done |].
  apply build_prompt_append.
Qed.

(** X8.  [show_history] prints every exchange of the history, numbered
    from 1 in the order of the history: the exchange at index [i] appears
    as number [i + 1], with the user's message in full and the first 100
    characters of the answer, always followed by three dots.  What is
    shown of the answer is a prefix of it of at most 100 characters, and
    the whole answer when that has at most 100 characters. *)
Theorem show_history_shows_every_exchange self i x :
  conversation_history self !! i = Some x →
  ∃ before after,
    show_history self
    = (before ++ shown_exchange (1 + Z.of_nat i) x ++ after, Returns tt)
    ∧ len (slice_to 100 (assistant x)) ≤ 100
    ∧ (∃ rest, assistant x = slice_to 100 (assistant x) +:+ rest)
    ∧ (len (assistant x) ≤ 100 → slice_to 100 (assistant x) = assistant x).
Proof.
  intros Hx. unfold show_history.
  destruct (conversation_history self) as [|y h] eqn:Hh; [done |].
  rewrite show_loop.
  pose proof (enumerate_lookup (y :: h) 1 i x Hx) as Hi.
  apply (flat_map_lookup (λ item, shown_exchange item.1 item.2)) in Hi
    as (before & after & Hflat).
  rewrite Hflat.
  exists ([Text (LF +:+ "📋 Conversation History:"); Text LF;
           Text (repeat_str "-" 60); Text LF] ++ before),
         (after ++ [Text (LF +:+ repeat_str "-" 60); Text LF]).
  split.
  - unfold print, mbind, io_bind. f_equal.
    rewrite <- !app_assoc. reflexivity.
  - split; [apply (slice_to_len 100) |].
    split; [apply slice_to_prefix |]. apply (slice_to_all 100).
Qed.

(** X9.  An interactive session ends normally exactly when it is told to:
    if some input is [KeyboardInterrupt] or a line that says quit,
    [interactive_chat] returns, and the chatbot still has the model and the
    system prompt it was created with; otherwise the input runs out and
    [interactive_chat] raises [EOFError]. *)
Theorem interactive_chat_ends_when_told inputs :
  if existsb (leaves lower) inputs
  then ∃ bot', (interactive_chat json_loads Response_json requests_post lower inputs).2
               = Returns bot'
               ∧ model bot' = "llama2"
               ∧ system_prompt bot'
                 = "You are a helpful assistant. Provide clear and concise answers."
  else (interactive_chat json_loads Response_json requests_post lower inputs).2
       = Raises end_of_input.
Proof.
  pose proof (session_result json_loads Response_json requests_post lower inputs
                (init "llama2" "http://localhost:11434/api/generate")) as H.
  unfold interactive_chat. simpl.
  destruct (session _ _ _ _ inputs _) as [o r]. cbn [snd] in *.
  destruct (existsb (leaves lower) inputs); [|done].
  destruct H as (bot' & -> & Hm & _ & Hs). exists bot'. by rewrite <- Hm, <- Hs.
Qed.

(** X10.  Nothing is read after the session is left: whatever follows a
    [KeyboardInterrupt] or a line that says quit, [interactive_chat] prints
    and returns the same as if the input ended there. *)
Theorem nothing_is_read_after_leaving before k after :
  leaves lower k = true →
  interactive_chat json_loads Response_json requests_post lower (before ++ k :: after)
  = interactive_chat json_loads Response_json requests_post lower (before ++ [k]).
Proof.
  intros Hk. unfold interactive_chat.
  by rewrite (session_stops json_loads Response_json requests_post lower before k after).
Qed.

(** X11.  The demonstration never raises, whatever the server does.  Its
    history ends as exactly the exchanges of the questions that were
    answered: for each question to which [chat] returned a text, in the
    order of the questions, the question with that text stripped, and
    nothing for a question to which it returned [None]; so at most one
    exchange per question.  The chatbot keeps the tutor's system prompt. *)
Theorem demo_conversation_history :
  ∃ o bot',
    demo_conversation json_loads Response_json requests_post = (o, Returns bot')
    ∧ conversation_history bot'
      = answered json_loads Response_json requests_post
          (set_system_prompt (init "llama2" "http://localhost:11434/api/generate")
             "You are a friendly Python programming tutor. Explain concepts clearly.")
          questions
    ∧ sublist (user <$> conversation_history bot') questions
    ∧ system_prompt bot'
      = "You are a friendly Python programming tutor. Explain concepts clearly.".
Proof.
  unfold demo_conversation. cbv zeta.
  destruct (ask_all json_loads Response_json requests_post questions
              (set_system_prompt (init "llama2" "http://localhost:11434/api/generate")
                 "You are a friendly Python programming tutor. Explain concepts clearly."))
    as (o & bot' & Hloop & (_ & _ & Hs) & Hhist).
  destruct (show_history_returns bot') as [o' Ho'].
  eexists _, bot'. split; [|split; [|split]].
  - rewrite Hloop. unfold print, mbind, io_bind, mret, io_ret. rewrite Ho'. reflexivity.
  - exact Hhist.
  - rewrite Hhist. apply answered_sublist.
  - by rewrite <- Hs.
Qed.

End Dialogue.

(** ** A line that ends the loop *)

Lemma for_each_app {A S} (xs ys : list A) failure (body : A → S → io S) s :
  for_each (xs ++ ys) failure body s
  = for_each xs None body s ≫= for_each ys failure body.
Proof.
  revert s. induction xs as [|x xs IH]; intros s.
  - simpl. by destruct (for_each ys failure body s).
  - simpl. destruct (body x s) as [o [s'|e]]; simpl; [|done].
    rewrite IH. destruct (for_each xs None body s') as [o1 [s1|e1]]; simpl; [|done].
    destruct (for_each ys failure body s1). by rewrite app_assoc.
Qed.

(** A list that fails a test splits at the first element failing it. *)
Lemma forallb_first_false {A} (p : A → bool) (l : list A) :
  forallb p l = false →
  ∃ before x after, l = before ++ x :: after ∧ forallb p before = true ∧ p x = false.
Proof.
  induction l as [|x l IH]; [done |]. simpl.
  destruct (p x) eqn:Hx; simpl.
  - intros H. destruct (IH H) as (before & y & after & -> & Hb & Hy).
    exists (x :: before), y, after. simpl. by rewrite Hx, Hb.
  - intros _. by exists [], x, l.
Qed.

Section Aborts.

Variable json_loads : bytes → outcome value.
Variable Response_json : response → outcome value.
Variable requests_post : request → outcome response.

Lemma parameters_line_read line :
  Parameters.parameters_line json_loads line tt
  = match read json_loads line with
    | Fatal e => ([], Raises e)
    | _ => (Parameters.line_echo json_loads line, Returns tt)
    end.
Proof.
  unfold Parameters.parameters_line, Parameters.line_echo, read.
  destruct (nonempty line); [|done].
  destruct (json_loads line) as [v|e]; simpl.
  - destruct v; try done. simpl. unfold is_final.
    by destruct (truthy _).
  - by destruct (is_JSONDecodeError e).
Qed.

Lemma parameters_loop ls failure :
  forallb (readable json_loads) ls = true →
  for_each ls failure (Parameters.parameters_line json_loads) tt
  = (Parameters.stream_echo json_loads ls,
     match failure with None => Returns tt | Some e => Raises e end).
Proof.
  induction ls as [|line ls IH]; intros H.
  - simpl. by destruct failure.
  - simpl in H. apply andb_true_iff in H as [Hl Hls].
    simpl. rewrite parameters_line_read.
    unfold readable in Hl.
    destruct (read json_loads line) eqn:E; try done;
      simpl; rewrite IH by done; unfold Parameters.stream_echo; simpl;
      by destruct failure.
Qed.

(** A line that [chat] does not get past raises, whatever was accumulated. *)
Lemma chat_line_rejects line acc :
  tolerated json_loads line = false →
  ∃ o e, Conversation.chat_line json_loads line acc = (o, Raises e).
Proof.
  rewrite chat_line_read. unfold tolerated, text_piece.
  destruct (read json_loads line) as [| |d|e]; try done.
  - destruct (default (VStr EmptyString) (d !! "response")); try done;
      intros _; by eexists _, _.
  - intros _. by eexists _, _.
Qed.

Lemma chat_loop_rejects ls failure acc :
  forallb (tolerated json_loads) ls = false →
  ∃ o e, for_each ls failure (Conversation.chat_line json_loads) acc = (o, Raises e).
Proof.
  intros H. apply forallb_first_false in H as (before & bad & after & -> & Hb & Hbad).
  rewrite for_each_app, chat_loop by done. simpl.
  destruct (chat_line_rejects bad (acc +:+ stream_text json_loads before) Hbad)
    as (o & e & ->).
  by eexists _, _.
Qed.

Lemma chat_body_raises self msg stream o e :
  Conversation.chat_body json_loads Response_json requests_post self msg stream
  = (o, Raises e) →
  Conversation.chat json_loads Response_json requests_post self msg stream
  = (o ++ error_report e, Returns (VNone, self)).
Proof.
  intros H. unfold Conversation.chat. rewrite H. simpl.
  unfold error_report, connection_report. by destruct (is_ConnectionError e).
Qed.

End Aborts.

(** ** Failures in the middle of a stream *)

Section Failures.

Variable json_loads : bytes → outcome value.
Variable Response_json : response → outcome value.
Variable requests_post : request → outcome response.

(** X12.  [streaming_with_parameters] never raises: after its heading,
    whatever the request and the stream do, it returns. *)
Theorem streaming_with_parameters_never_raises prompt model temperature top_p :
  ∃ o,
    Parameters.streaming_with_parameters json_loads requests_post
      prompt model temperature top_p
    = (Parameters.heading model temperature top_p ++ o, Returns tt).
Proof.
  unfold Parameters.streaming_with_parameters.
  match goal with |- context [try_except ?body ?cs] =>
    destruct body as [o [[]|e]] eqn:Hbody end.
  - exists o. by simpl.
  - exists (o ++ Parameters.failure_report e). simpl.
    unfold Parameters.failure_report. by destruct (is_ConnectionError e).
Qed.

(** X13.  A line that is neither blank, malformed nor a JSON object ends
    the stream of [streaming_with_parameters]: the fragments before it
    are shown, the exception is reported, and the lines after it are not
    read. *)
Theorem fatal_line_ends_parameters_stream
    prompt model temperature top_p r before bad after e :
  requests_post (Parameters.post_args prompt model temperature top_p) = Returns r →
  ok_status r = true →
  lines r = before ++ bad :: after →
  forallb (readable json_loads) before = true →
  read json_loads bad = Fatal e →
  Parameters.streaming_with_parameters json_loads requests_post
    prompt model temperature top_p
  = (Parameters.heading model temperature top_p
     ++ Parameters.stream_echo json_loads before ++ Parameters.failure_report e,
     Returns tt).
Proof.
  intros Hpost Hok Hlines Hbefore Hbad.
  unfold Parameters.streaming_with_parameters.
  rewrite Hpost. simpl. rewrite ok_raise_for_status by done. simpl.
  rewrite Hlines, for_each_app, parameters_loop by done. simpl.
  rewrite parameters_line_read, Hbad. simpl.
  unfold Parameters.failure_report.
  destruct (is_ConnectionError e); simpl; by rewrite app_nil_r.
Qed.

(** X14.  The same line in [streaming_request] is not caught: unless the
    exception is one of [requests], it leaves [streaming_request] after
    the fragments before it were shown, and nothing is reported. *)
Theorem fatal_line_escapes_streaming_request prompt model r before bad after e :
  requests_post (Streaming.post_args prompt model) = Returns r →
  ok_status r = true →
  lines r = before ++ bad :: after →
  forallb (readable json_loads) before = true →
  read json_loads bad = Fatal e →
  is_RequestException e = false →
  Streaming.streaming_request json_loads requests_post prompt model
  = (banner ++ stream_trace json_loads before, Raises e).
Proof.
  intros Hpost Hok Hlines Hbefore Hbad He.
  unfold Streaming.streaming_request.
  rewrite Hpost. simpl. rewrite ok_raise_for_status by done. simpl.
  rewrite Hlines, for_each_app, streaming_loop by done. simpl.
  rewrite streaming_line_read, Hbad. simpl.
  assert (is_ConnectionError e = false) as ->.
  { unfold is_ConnectionError, is_RequestException in *. by destruct (exn_cls e). }
  rewrite He. by rewrite app_nil_r.
Qed.

(** X15.  A streamed [chat] returns a text exactly when the request came
    back without a 4xx or 5xx status, every line of the stream was blank,
    malformed or a fragment whose text field is absent or a string, and
    the stream ended without a failure.  In every other case it returns
    [None]: one line that is not tolerated loses the whole answer. *)
Theorem streamed_chat_succeeds_iff self msg :
  ∃ o v self',
    Conversation.chat json_loads Response_json requests_post self msg true
    = (o, Returns (v, self'))
    ∧ (v = VNone ∨ ∃ text, v = VStr text)
    ∧ (v ≠ VNone ↔
       ∃ r, requests_post (Conversation.post_args self msg true) = Returns r
            ∧ ok_status r = true
            ∧ forallb (tolerated json_loads) (lines r) = true
            ∧ stream_failure r = None).
Proof.
  assert (Hnone : ∀ o e,
    Conversation.chat_body json_loads Response_json requests_post self msg true
    = (o, Raises e) →
    (∀ r, requests_post (Conversation.post_args self msg true) = Returns r →
          ok_status r = true → forallb (tolerated json_loads) (lines r) = true →
          stream_failure r = None → False) →
    ∃ o v self',
      Conversation.chat json_loads Response_json requests_post self msg true
      = (o, Returns (v, self'))
      ∧ (v = VNone ∨ ∃ text, v = VStr text)
      ∧ (v ≠ VNone ↔
         ∃ r, requests_post (Conversation.post_args self msg true) = Returns r
              ∧ ok_status r = true
              ∧ forallb (tolerated json_loads) (lines r) = true
              ∧ stream_failure r = None)).
  { intros o e Hbody Hno. exists (o ++ error_report e), VNone, self.
    split; [by apply chat_body_raises |]. split; [by left |].
    split; [done |]. intros (r & ? & ? & ? & ?). exfalso. eauto. }
  destruct (requests_post (Conversation.post_args self msg true)) as [r|e] eqn:Hpost.
  2: { apply (Hnone [] e).
       - unfold Conversation.chat_body. by rewrite Hpost.
       - intros r [=]. }
  destruct (ok_status r) eqn:Hok.
  2: { pose proof (raise_for_status_output r) as Hout.
       destruct (raise_for_status r) as [o1 [[]|e]] eqn:Hraise.
       { pose proof (proj1 (raise_for_status_result r)) as H.
         rewrite Hraise in H. specialize (H eq_refl). congruence. }
       simpl in Hout. subst o1. apply (Hnone [] e).
       - unfold Conversation.chat_body. rewrite Hpost. simpl. by rewrite Hraise.
       - intros r' [= <-]. congruence. }
  destruct (forallb (tolerated json_loads) (lines r)) eqn:Hls.
  - rewrite (chat_stream json_loads Response_json requests_post self msg r) by done.
    destruct (stream_failure r) as [e|] eqn:Hfail.
    + eexists _, VNone, self. split; [done |]. split; [by left |].
      split; [done |]. intros (r' & [= <-] & _ & _ & ?). congruence.
    + eexists _, _, _. split; [done |]. split; [right; by eexists |].
      split; [|done]. intros _. by exists r.
  - destruct (chat_loop_rejects json_loads (lines r) (stream_failure r) EmptyString Hls)
      as (o & e & Hloop).
    apply (Hnone ([Text "💬 "] ++ o) e).
    + unfold Conversation.chat_body. rewrite Hpost. simpl.
      rewrite ok_raise_for_status by done. simpl. by rewrite Hloop.
    + intros r' [= <-]. congruence.
Qed.

End Failures.

(** ** The routes *)

Lemma characters_cons c s : ∃ first rest, Routes.characters (String c s) = first :: rest.
Proof.
  simpl. destruct (Routes.characters s) as [|[|c' tail] rest]; try by eexists _, _.
  destruct (continues c'); by eexists _, _.
Qed.

Section Models.

Variable Response_json : response → outcome value.
Variable requests_get : str → outcome response.

Lemma model_entry_returns m entry :
  Routes.model_entry m = Returns entry →
  ∃ name, Routes.getitem m "name" = Returns name ∧ named entry name.
Proof.
  unfold Routes.model_entry.
  destruct (Routes.getitem m "name") as [name|e]; [|done]. simpl.
  destruct (get m "size" (VInt 0)) as [size|e]; [|done]. simpl.
  destruct (truediv size (VInt (1024 ^ 3))) as [gb|e]; [|done]. simpl.
  intros [= <-]. exists name. split; [done |].
  eexists. split; [done |]. by rewrite lookup_insert.
Qed.

Lemma model_entry_str s : ∃ e, Routes.model_entry (VStr s) = Raises e.
Proof. by eexists. Qed.

Lemma collect_names l entries :
  Routes.collect Routes.model_entry l = Returns entries →
  ∃ names, Routes.collect (λ model, Routes.getitem model "name") l = Returns names
           ∧ Forall2 named entries names.
Proof.
  revert entries. induction l as [|m l IH]; intros entries; simpl.
  - intros [= <-]. by exists [].
  - destruct (Routes.model_entry m) as [entry|e] eqn:Hm; [|done]. simpl.
    destruct (Routes.collect Routes.model_entry l) as [rest|e]; [|done]. simpl.
    intros [= <-].
    apply model_entry_returns in Hm as (name & -> & Hnamed).
    destruct (IH rest eq_refl) as (names & -> & Hall). simpl.
    exists (name :: names). split; [done |]. by constructor.
Qed.

Lemma collect_strings (l : list str) entries :
  Routes.collect Routes.model_entry (VStr <$> l) = Returns entries → l = [].
Proof. by destruct l. Qed.

Lemma comprehension_names models entries :
  Routes.comprehension Routes.model_entry models = Returns entries →
  ∃ names,
    Routes.comprehension (λ model, Routes.getitem model "name") models = Returns names
    ∧ Forall2 named entries names.
Proof.
  unfold Routes.comprehension.
  destruct models as [| | | |s|l|d]; try done; simpl.
  - intros H. pose proof (collect_strings _ _ H) as Hs. rewrite Hs in *.
    simpl in H. injection H as <-. by exists [].
  - apply collect_names.
  - intros H. pose proof (collect_strings _ _ H) as Hs. rewrite Hs in *.
    simpl in H. injection H as <-. by exists [].
Qed.

Lemma collect_named ms names :
  Forall2 named ms names →
  Routes.collect (λ model, Routes.getitem model "name") ms = Returns names.
Proof.
  induction 1 as [|m name ms names (d & -> & Hname) _ IH]; [done |].
  simpl. rewrite Hname. simpl. by rewrite IH.
Qed.

End Models.

Section Generate.

Variable Response_json : response → outcome value.
Variable requests_post : request → outcome response.

Lemma query_ollama_values prompt model temperature stream :
  Routes.query_ollama Response_json requests_post
    (VStr prompt) (VStr model) temperature stream
  = App.query_ollama Response_json requests_post prompt model temperature stream.
Proof. reflexivity. Qed.

Lemma query_ollama_answers prompt model temperature :
  ∃ d,
    Routes.query_ollama Response_json requests_post prompt model temperature false
    = ([], Returns (App.Dict d))
    ∧ (d !! "status" = Some (VStr "success") ∨ d !! "status" = Some (VStr "error")).
Proof.
  assert (Herr : ∀ e (m : io App.query_result),
    m = ([], Returns (App.Dict (error_dict e))) →
    ∃ d, m = ([], Returns (App.Dict d))
         ∧ (d !! "status" = Some (VStr "success") ∨ d !! "status" = Some (VStr "error"))).
  { intros e m ->. eexists. split; [done |]. right. apply error_dict_status. }
  unfold Routes.query_ollama.
  destruct (requests_post _) as [r|e]; simpl.
  2: { apply (Herr e). unfold error_dict.
       by destruct (is_ConnectionError e), (is_Timeout e). }
  pose proof (raise_for_status_output r) as Hout.
  destruct (raise_for_status r) as [o [[]|e]]; simpl in *; subst o; simpl.
  2: { apply (Herr e). unfold error_dict.
       by destruct (is_ConnectionError e), (is_Timeout e). }
  destruct (Response_json r) as [v|e]; simpl.
  2: { apply (Herr e). unfold error_dict.
       by destruct (is_ConnectionError e), (is_Timeout e). }
  destruct v;
    try (match goal with |- context [get ?v "response"] =>
           by apply (Herr (no_attribute v "get")) end).
  simpl. destruct (truediv _ _) as [q|e]; simpl.
  2: { apply (Herr e). unfold error_dict.
       by destruct (is_ConnectionError e), (is_Timeout e). }
  eexists. split; [reflexivity | by left].
Qed.

End Generate.

(** ** The routes of app.py *)

Section Views.

Variable Response_json : response → outcome value.
Variable requests_post : request → outcome response.
Variable requests_get : str → outcome response.
Variable float_of_str : str → outcome float.

(** X16.  [get_available_models] does not look at the status code: when
    the request comes back, with whatever status, and its body is a JSON
    object whose [models] is a list of objects that each have a name, the
    result is the list of these names, in order. *)
Theorem get_available_models_ignores_status r body ms names :
  requests_get Routes.MODELS_API = Returns r →
  Response_json r = Returns (VDict body) →
  body !! "models" = Some (VList ms) →
  Forall2 named ms names →
  Routes.get_available_models Response_json requests_get = ([], Returns names).
Proof.
  intros Hget Hjson Hmodels Hnames. unfold Routes.get_available_models.
  rewrite Hget. simpl. rewrite Hjson. simpl. rewrite Hmodels. simpl.
  unfold Routes.comprehension. simpl. by rewrite (collect_named ms names).
Qed.

(** X17.  The two listings agree: whenever [api_models] answers with
    status 200, its answer is a success with one entry per model, and
    [get_available_models], on the same server, returns the names of
    these entries in the same order. *)
Theorem api_models_agrees_with_get_available_models o v :
  Routes.api_models Response_json requests_get = (o, Returns (v, 200)) →
  ∃ entries names,
    v = VDict {[ "models" := VList entries; "status" := VStr "success" ]}
    ∧ Routes.get_available_models Response_json requests_get = ([], Returns names)
    ∧ Forall2 named entries names.
Proof.
  unfold Routes.api_models, Routes.get_available_models.
  destruct (requests_get Routes.MODELS_API) as [r|e]; simpl; [|done].
  destruct (Response_json r) as [body|e]; simpl; [|done].
  destruct (get body "models" (VList [])) as [models|e]; simpl; [|done].
  destruct (Routes.comprehension Routes.model_entry models) as [entries|e] eqn:Hentries;
    simpl; [|done].
  intros [= <- <-].
  apply comprehension_names in Hentries as (names & Hnames & Hall).
  exists entries, names. rewrite Hnames. done.
Qed.

(** X18.  [api_status] never raises and never reads the body: it answers
    200 and online exactly when the request came back without a 4xx or
    5xx status, and 503 and offline in every other case. *)
Theorem api_status_online_iff :
  ∃ body code,
    Routes.api_status requests_get = ([], Returns (VDict body, code))
    ∧ ((code = 200 ∧ body !! "status" = Some (VStr "online"))
       ∨ (code = 503 ∧ body !! "status" = Some (VStr "offline")))
    ∧ (code = 200 ↔
       ∃ r, requests_get Routes.MODELS_API = Returns r ∧ ok_status r = true).
Proof.
  unfold Routes.api_status.
  destruct (requests_get Routes.MODELS_API) as [r|e]; simpl.
  2: { eexists _, 503. split; [done |]. split; [by right |].
       split; [done |]. by intros (r & ? & _). }
  pose proof (raise_for_status_output r) as Hout.
  pose proof (raise_for_status_result r) as Hres.
  destruct (raise_for_status r) as [o1 [[]|e]]; simpl in *; subst o1; simpl.
  - eexists _, 200. split; [done |]. split; [by left |].
    split; [|done]. intros _. exists r. split; [done |]. by apply Hres.
  - eexists _, 503. split; [done |]. split; [by right |].
    split; [done |]. intros (r' & [= <-] & Hok). apply Hres in Hok. done.
Qed.

(** X19.  [api_generate] converts the temperature before it looks at the
    prompt: when the body is an object whose temperature [float] rejects,
    that exception leaves the view, whether or not there is a prompt, and
    no request is made to Ollama. *)
Theorem api_generate_converts_temperature_first d e :
  Routes.to_float float_of_str (default (VFloat 0.7) (d !! "temperature")) = Raises e →
  Routes.api_generate Response_json requests_post float_of_str (VDict d)
  = ([], Raises e).
Proof.
  intros Hfloat. unfold Routes.api_generate. simpl. by rewrite Hfloat.
Qed.

(** X20.  Once the temperature converts, a body without a prompt, or one
    whose prompt is falsy, is answered with status 400 and the
    missing-prompt error, whatever Ollama would do. *)
Theorem api_generate_without_prompt d t :
  Routes.to_float float_of_str (default (VFloat 0.7) (d !! "temperature")) = Returns t →
  truthy (default (VStr EmptyString) (d !! "prompt")) = false →
  Routes.api_generate Response_json requests_post float_of_str (VDict d)
  = ([], Returns (VDict {[ "error" := VStr "No prompt provided" ]}, 400)).
Proof.
  intros Hfloat Hprompt. unfold Routes.api_generate. simpl.
  rewrite Hfloat. simpl. by rewrite Hprompt.
Qed.

(** X21.  With a prompt and a temperature that converts, [api_generate]
    never raises and always answers with status 200: its answer is the
    dictionary of [query_ollama] for the prompt, the model (the default
    one when absent) and the temperature, whose status is success or
    error, so that a failure of Ollama is answered with status 200. *)
Theorem api_generate_answers_200 d t :
  Routes.to_float float_of_str (default (VFloat 0.7) (d !! "temperature")) = Returns t →
  truthy (default (VStr EmptyString) (d !! "prompt")) = true →
  ∃ result,
    Routes.api_generate Response_json requests_post float_of_str (VDict d)
    = ([], Returns (VDict result, 200))
    ∧ Routes.query_ollama Response_json requests_post
        (default (VStr EmptyString) (d !! "prompt"))
        (default (VStr App.DEFAULT_MODEL) (d !! "model")) t false
      = ([], Returns (App.Dict result))
    ∧ (result !! "status" = Some (VStr "success")
       ∨ result !! "status" = Some (VStr "error")).
Proof.
  intros Hfloat Hprompt. unfold Routes.api_generate. simpl.
  rewrite Hfloat. simpl. rewrite Hprompt.
  destruct (query_ollama_answers Response_json requests_post
              (default (VStr EmptyString) (d !! "prompt"))
              (default (VStr App.DEFAULT_MODEL) (d !! "model")) t)
    as (result & Hquery & Hstatus).
  exists result. cbn [negb]. rewrite Hquery. done.
Qed.

End Views.

(** ** What [strip] leaves, and the words of it *)

Lemma rev_app_append s t : String.rev_app s t = String.rev s +:+ t.
Proof.
  unfold String.rev. revert t. induction s as [|c s IH]; intros t; [done |].
  simpl. rewrite (IH (String c t)), (IH (String c EmptyString)).
  by rewrite append_assoc.
Qed.

Lemma rev_append s t : String.rev (s +:+ t) = String.rev t +:+ String.rev s.
Proof.
  induction s as [|c s IH].
  - by rewrite append_nil_r.
  - change (String.rev (String c (s +:+ t)) = String.rev t +:+ String.rev (String c s)).
    unfold String.rev at 1 3. simpl. rewrite !rev_app_append, IH.
    by rewrite append_assoc.
Qed.

Lemma rev_rev s : String.rev (String.rev s) = s.
Proof.
  induction s as [|c s IH]; [done |].
  unfold String.rev at 2. simpl. rewrite rev_app_append, rev_append, IH. done.
Qed.

Lemma drop_space_shorter s r :
  drop_space s = Some r → (String.length r < String.length s)%nat.
Proof.
  destruct s as [|a [|b [|c s]]]; simpl; try done;
    repeat match goal with
           | |- context [if ?t then _ else _] => destruct t
           end; try done; intros [= <-]; simpl; lia.
Qed.

Lemma drop_space_rev_suffix s r :
  drop_space_rev s = Some r → ∃ x, s = x +:+ r.
Proof.
  destruct s as [|a [|b [|c s]]]; simpl; try done;
    repeat match goal with
           | |- context [if ?t then _ else _] => destruct t
           end; try done; intros [= <-];
    first [ by exists (String a EmptyString)
          | by exists (String a (String b EmptyString))
          | by exists (String a (String b (String c EmptyString))) ].
Qed.

Lemma drop_while_suffix fuel s :
  ∃ x, s = x +:+ drop_while drop_space_rev fuel s.
Proof.
  revert s. induction fuel as [|fuel IH]; intros s; simpl.
  - by exists EmptyString.
  - destruct (drop_space_rev s) as [r|] eqn:Hr; [|by exists EmptyString].
    apply drop_space_rev_suffix in Hr as [x ->].
    destruct (IH r) as [y Hy]. exists (x +:+ y).
    by rewrite append_assoc, <- Hy.
Qed.

Lemma rstrip_prefix s : ∃ x, s = rstrip s +:+ x.
Proof.
  unfold rstrip.
  destruct (drop_while_suffix (String.length s) (String.rev s)) as [x Hx].
  exists (String.rev x).
  rewrite <- rev_append, <- Hx. by rewrite rev_rev.
Qed.

Lemma drop_while_settled fuel s :
  (String.length s ≤ fuel)%nat → drop_space (drop_while drop_space fuel s) = None.
Proof.
  revert s. induction fuel as [|fuel IH]; intros s Hs; simpl.
  - destruct s; [done | simpl in Hs; lia].
  - destruct (drop_space s) as [r|] eqn:Hr; [|done].
    apply IH. apply drop_space_shorter in Hr. lia.
Qed.

(** Whether a string begins with whitespace shows in its first bytes. *)
Lemma drop_space_prefix p x :
  drop_space (p +:+ x) = None → p = EmptyString ∨ drop_space p = None.
Proof.
  destruct p as [|a [|b [|c p]]]; [by left | | |]; intros H; right; revert H;
    repeat match goal with
           | |- context [?s +:+ x] =>
               lazymatch s with
               | String ?a ?s' => change (String a s' +:+ x) with (String a (s' +:+ x))
               | EmptyString => change (EmptyString +:+ x) with x
               end
           end; simpl.
  - destruct (ascii_space a); [done |]. by destruct x.
  - destruct (ascii_space a); [done |]. destruct (wide_space2 a b); [done |].
    by destruct x.
  - destruct (ascii_space a); [done |]. destruct (wide_space2 a b); [done |].
    by destruct (wide_space3 a b c).
Qed.

Lemma strip_settled s : strip s = EmptyString ∨ drop_space (strip s) = None.
Proof.
  unfold strip. destruct (rstrip_prefix (lstrip s)) as [x Hx].
  apply (drop_space_prefix _ x). rewrite <- Hx.
  by apply drop_while_settled.
Qed.

Lemma split_from_word s word :
  word ≠ EmptyString → split_from word s ≠ [].
Proof.
  revert word. induction s as [|a s1 IH]; intros word Hword.
  - by destruct word.
  - assert (Hnext : split_from (word +:+ String a EmptyString) s1 ≠ []).
    { apply IH. by destruct word. }
    assert (Hflush : ∀ rest, flush word ++ rest ≠ []) by (by destruct word).
    rewrite split_from_unfold.
    destruct (ascii_space a); [done |].
    destruct s1 as [|b s2]; [done |].
    destruct (wide_space2 a b); [done |].
    destruct s2 as [|c s3]; [done |].
    by destruct (wide_space3 a b c).
Qed.

Lemma split_settled s :
  s ≠ EmptyString → drop_space s = None → split s ≠ [].
Proof.
  destruct s as [|a s1]; [done |]. intros _ Hs. unfold split.
  assert (Hnext : split_from (EmptyString +:+ String a EmptyString) s1 ≠ [])
    by (by apply split_from_word).
  rewrite split_from_unfold. simpl in Hs.
  destruct (ascii_space a); [done |].
  destruct s1 as [|b s2]; [done |].
  destruct (wide_space2 a b); [done |].
  destruct s2 as [|c s3]; [done |].
  by destruct (wide_space3 a b c).
Qed.

(** A text that [strip] leaves non-empty has a word. *)
Lemma strip_has_word s : strip s ≠ EmptyString → split (strip s) ≠ [].
Proof.
  intros Hs. destruct (strip_settled s) as [H | H]; [done |].
  by apply split_settled.
Qed.

(** ** The answer of [simple_request] in its box *)

Lemma try_except_returns {A} (body : io A) cs o a :
  try_except body cs = (o, Returns a) →
  body = (o, Returns a)
  ∨ ∃ o1 e o2, body = (o1, Raises e) ∧ find_clause cs e = Some (o2, Returns a).
Proof.
  unfold try_except. destruct body as [o1 [a1|e]]; [by left |].
  destruct (find_clause cs e) as [[o2 r]|] eqn:Hc; [|done].
  intros [= <- ->]. right. by exists o1, e, o2.
Qed.

Lemma format_response_nil text max_width :
  Layout.format_response text max_width = [] → split text = [].
Proof.
  rewrite format_response_groups.
  destruct (groups_spec max_width (split text)) as (_ & _ & Hwords).
  intros Hnil. apply map_eq_nil in Hnil. by rewrite <- Hwords, Hnil.
Qed.

Section Answer.

Variable Response_json : response → outcome value.
Variable requests_post : request → outcome response.

(** [simple_request] returns [None] or a text that [strip] made. *)
Lemma simple_request_returns prompt o v :
  Basic.simple_request Response_json requests_post prompt = (o, Returns v) →
  v = VNone ∨ ∃ raw, v = VStr (strip raw).
Proof.
  unfold Basic.simple_request. intros H.
  apply bind_returns in H as (? & [] & ? & _ & H & _).
  apply bind_returns in H as (? & [] & ? & _ & H & _).
  apply try_except_returns in H as [H | (o1 & e & o2 & _ & H)].
  - right.
    apply bind_returns in H as (? & response & ? & _ & H & _).
    apply bind_returns in H as (? & [] & ? & _ & H & _).
    apply bind_returns in H as (? & result & ? & _ & H & _).
    apply bind_returns in H as (? & text & ? & _ & H & _).
    apply bind_returns in H as (? & generated_text & ? & Hstrip & H & _).
    apply lift_returns in Hstrip as [Hstrip _].
    apply strip_method_returns in Hstrip as (raw & _ & ->).
    apply bind_returns in H as (? & [tokens duration_s] & ? & _ & H & _).
    apply bind_returns in H as (? & [] & ? & _ & H & _).
    apply bind_returns in H as (? & [] & ? & _ & H & _).
    apply bind_returns in H as (? & [] & ? & _ & H & _).
    apply bind_returns in H as (? & positive & ? & _ & H & _).
    apply bind_returns in H as (? & [] & ? & _ & H & _).
    apply bind_returns in H as (? & [] & ? & _ & H & _).
    injection H as _ <-. by exists raw.
  - left. simpl in H.
    destruct (is_ConnectionError e); [by injection H as _ <- |].
    destruct (is_RequestException e); [by injection H as _ <- | done].
Qed.

End Answer.

(** ** From the request to the box *)

Section Boxed.

Variable Response_json : response → outcome value.
Variable requests_post : request → outcome response.

(** X22.  [main] never draws an empty box: whenever [simple_request]
    returns something truthy, it is a non-empty text that does not begin
    with whitespace, and [format_response] makes at least one line of it,
    whatever the width. *)
Theorem answered_text_makes_a_line prompt o v max_width :
  Basic.simple_request Response_json requests_post prompt = (o, Returns v) →
  truthy v = true →
  ∃ text,
    v = VStr text
    ∧ text ≠ EmptyString
    ∧ drop_space text = None
    ∧ Layout.format_response text max_width ≠ [].
Proof.
  intros Hrun Htruthy.
  apply simple_request_returns in Hrun as [-> | (raw & ->)]; [done |].
  exists (strip raw). split; [done |].
  assert (Hne : strip raw ≠ EmptyString).
  { intros Hempty. rewrite Hempty in Htruthy. done. }
  destruct (strip_settled raw) as [H | H]; [done |].
  split; [done |]. split; [done |].
  intros Hnil. apply format_response_nil in Hnil. by apply (split_settled (strip raw)).
Qed.

End Boxed.

Section Whole.

Variable json_loads : bytes → outcome value.
Variable Response_json : response → outcome value.
Variable requests_post : request → outcome response.

(** X23.  A [chat] without streaming returns a text exactly when the
    request came back without a 4xx or 5xx status and its body is a JSON
    object whose [response] is absent or a string; the text is then that
    field as it is, and the empty string when absent.  In every other
    case it returns [None]. *)
Theorem whole_chat_succeeds_iff self msg :
  ∃ o v self',
    Conversation.chat json_loads Response_json requests_post self msg false
    = (o, Returns (v, self'))
    ∧ (v = VNone ∨ ∃ text, v = VStr text)
    ∧ ∀ text,
        v = VStr text ↔
        ∃ r body, requests_post (Conversation.post_args self msg false) = Returns r
                  ∧ ok_status r = true
                  ∧ Response_json r = Returns (VDict body)
                  ∧ default (VStr EmptyString) (body !! "response") = VStr text.
Proof.
  assert (Hnone : ∀ o e,
    Conversation.chat_body json_loads Response_json requests_post self msg false
    = (o, Raises e) →
    (∀ r body text,
       requests_post (Conversation.post_args self msg false) = Returns r →
       ok_status r = true → Response_json r = Returns (VDict body) →
       default (VStr EmptyString) (body !! "response") = VStr text → False) →
    ∃ o v self',
      Conversation.chat json_loads Response_json requests_post self msg false
      = (o, Returns (v, self'))
      ∧ (v = VNone ∨ ∃ text, v = VStr text)
      ∧ ∀ text,
          v = VStr text ↔
          ∃ r body, requests_post (Conversation.post_args self msg false) = Returns r
                    ∧ ok_status r = true
                    ∧ Response_json r = Returns (VDict body)
                    ∧ default (VStr EmptyString) (body !! "response") = VStr text).
  { intros o e Hbody Hno. exists (o ++ error_report e), VNone, self.
    split; [by apply chat_body_raises |]. split; [by left |].
    intros text. split; [done |]. intros (r & body & ? & ? & ? & ?). exfalso. eauto. }
  destruct (requests_post (Conversation.post_args self msg false)) as [r|e] eqn:Hpost.
  2: { apply (Hnone [] e).
       - unfold Conversation.chat_body. by rewrite Hpost.
       - intros r body text [=]. }
  destruct (ok_status r) eqn:Hok.
  2: { pose proof (raise_for_status_output r) as Hout.
       destruct (raise_for_status r) as [o1 [[]|e]] eqn:Hraise.
       { pose proof (proj1 (raise_for_status_result r)) as H.
         rewrite Hraise in H. specialize (H eq_refl). congruence. }
       simpl in Hout. subst o1. apply (Hnone [] e).
       - unfold Conversation.chat_body. rewrite Hpost. simpl. by rewrite Hraise.
       - intros r' body text [= <-]. congruence. }
  destruct (Response_json r) as [result|e] eqn:Hjson.
  2: { apply (Hnone [] e).
       - unfold Conversation.chat_body. rewrite Hpost. simpl.
         rewrite ok_raise_for_status by done. simpl. by rewrite Hjson.
       - intros r' body text [= <-]. congruence. }
  destruct result as [| | | | | |body];
    try (match type of Hjson with
         | _ = Returns ?v => apply (Hnone [] (no_attribute v "get"))
         end;
         [ unfold Conversation.chat_body; rewrite Hpost; simpl;
           rewrite ok_raise_for_status by done; simpl; by rewrite Hjson
         | intros r' body' text' [= <-]; congruence ]).
  destruct (default (VStr EmptyString) (body !! "response")) as [| | | |text| |] eqn:Hfield;
    try (match goal with
         | H : default _ _ = ?field |- _ =>
             apply (Hnone [Text "💬 "; Show field; Text LF] (no_attribute field "strip"));
             [ unfold Conversation.chat_body; rewrite Hpost; simpl;
               rewrite ok_raise_for_status by done; simpl; rewrite Hjson; simpl;
               by rewrite H
             | intros r' body' text' [= <-] _ Hj Hf; rewrite Hjson in Hj;
               injection Hj as <-; congruence ]
         end).
  eexists _, (VStr text), _. split.
  - unfold Conversation.chat, Conversation.chat_body. rewrite Hpost. simpl.
    rewrite ok_raise_for_status by done. simpl. rewrite Hjson. simpl.
    rewrite Hfield. simpl. reflexivity.
  - split; [right; by eexists |]. intros text'. split.
    + intros [= <-]. by exists r, body.
    + intros (r' & body' & [= <-] & _ & Hj & Hf). rewrite Hjson in Hj.
      injection Hj as <-. congruence.
Qed.

End Whole.

(** ** The properties on concrete inputs *)

Import Scenarios.

Example format_response_wraps :
  Layout.format_response ("the  quick brown" +:+ LF +:+ "fox") 9
  = ["the quick"; "brown fox"].
Proof. vm_compute. reflexivity. Qed.

Example format_response_long_word :
  Layout.format_response "a incomprehensible b" 5 = ["a"; "incomprehensible"; "b"].
Proof. vm_compute. reflexivity. Qed.

Example len_counts_characters : len "│ é" = 3.
Proof. reflexivity. Qed.

(** X4 on a box of width 4 around one line. *)
Lemma print_box_is_rectangular_witness :
  "│ ab   │" = LF ∨ len "│ ab   │" = 4 + 4.
Proof.
  apply (print_box_is_rectangular ["ab"] "│" 4 "│ ab   │");
    [lia | reflexivity | repeat constructor; vm_compute; discriminate
    | vm_compute; tauto].
Defined.

(** X5 on two words laid out for width 2 in a box of width 4. *)
Lemma formatted_answer_fits_its_box_witness :
  "│ bc   │" = LF ∨ len "│ bc   │" = 4 + 4.
Proof.
  apply (formatted_answer_fits_its_box "a bc" 2 4 "│ bc   │");
    [lia | lia | repeat constructor; vm_compute; discriminate
    | vm_compute; tauto].
Defined.

(** X8 on a history of one exchange. *)
Lemma show_history_shows_every_exchange_witness :
  ∃ before after,
    show_history (told "Hello")
    = (before ++ shown_exchange (1 + Z.of_nat 0) (Exchange "hi" "Hello") ++ after,
       Returns tt)
    ∧ len (slice_to 100 (assistant (Exchange "hi" "Hello"))) ≤ 100
    ∧ (∃ rest, assistant (Exchange "hi" "Hello")
               = slice_to 100 (assistant (Exchange "hi" "Hello")) +:+ rest)
    ∧ (len (assistant (Exchange "hi" "Hello")) ≤ 100 →
       slice_to 100 (assistant (Exchange "hi" "Hello"))
       = assistant (Exchange "hi" "Hello")).
Proof.
  apply (show_history_shows_every_exchange (told "Hello") 0 (Exchange "hi" "Hello")).
  reflexivity.
Defined.

Example show_history_cuts_long_answers :
  slice_to 3 "héllo" = "hél" ∧ slice_to 100 "Hello" = "Hello".
Proof. by vm_compute. Qed.

(** X10 on a session where a question follows the word quit. *)
Lemma nothing_is_read_after_leaving_witness :
  interactive_chat loads response_json unreachable ascii_lower
    ([Typed "hi"] ++ Typed " QUIT " :: [Typed "are you there?"])
  = interactive_chat loads response_json unreachable ascii_lower
      ([Typed "hi"] ++ [Typed " QUIT "]).
Proof.
  apply (nothing_is_read_after_leaving loads response_json unreachable ascii_lower
           [Typed "hi"] (Typed " QUIT ") [Typed "are you there?"]).
  vm_compute. reflexivity.
Defined.

Example session_with_commands :
  (interactive_chat loads response_json
     (serve [Examples.hel; Examples.lo] None EmptyString) ascii_lower
     [Typed "hi"; Typed "  "; Typed "History"; Typed "clear"; Interrupt]).2
  = Returns Examples.bot.
Proof. vm_compute. reflexivity. Qed.

Example session_without_quit :
  (interactive_chat loads response_json unreachable ascii_lower [Typed "hi"]).2
  = Raises end_of_input.
Proof. vm_compute. reflexivity. Qed.

(** X13 and X14 on a stream whose second line is a JSON array. *)
Lemma fatal_line_ends_parameters_stream_witness :
  Parameters.streaming_with_parameters loads
    (serve [Examples.hel; not_an_object; Examples.late] None EmptyString)
    "hi" "neural-chat" 0.9 0.95
  = (Parameters.heading "neural-chat" 0.9 0.95
     ++ Parameters.stream_echo loads [Examples.hel]
     ++ Parameters.failure_report (no_attribute (VList [VInt 1]) "get"),
     Returns tt).
Proof.
  apply (fatal_line_ends_parameters_stream loads
           (serve [Examples.hel; not_an_object; Examples.late] None EmptyString)
           "hi" "neural-chat" 0.9%float 0.95%float
           (Examples.answer [Examples.hel; not_an_object; Examples.late] None EmptyString)
           [Examples.hel] not_an_object [Examples.late]
           (no_attribute (VList [VInt 1]) "get"));
    vm_compute; reflexivity.
Defined.

Lemma fatal_line_escapes_streaming_request_witness :
  Streaming.streaming_request loads
    (serve [Examples.hel; not_an_object; Examples.late] None EmptyString)
    "hi" "neural-chat"
  = (banner ++ stream_trace loads [Examples.hel],
     Raises (no_attribute (VList [VInt 1]) "get")).
Proof.
  apply (fatal_line_escapes_streaming_request loads
           (serve [Examples.hel; not_an_object; Examples.late] None EmptyString)
           "hi" "neural-chat"
           (Examples.answer [Examples.hel; not_an_object; Examples.late] None EmptyString)
           [Examples.hel] not_an_object [Examples.late]
           (no_attribute (VList [VInt 1]) "get"));
    vm_compute; reflexivity.
Defined.

Example chat_loses_the_answer_to_one_line :
  Conversation.chat loads response_json
    (serve [Examples.hel; not_an_object; Examples.late] None EmptyString)
    Examples.bot "hi" true
  = ([Text "💬 "; Show (VStr "Hel");
      Text "❌ Error: "; Text "'list' object has no attribute 'get'"; Text LF],
     Returns (VNone, Examples.bot)).
Proof. vm_compute. reflexivity. Qed.

(** X16 on a server that answers with status 500 and two models. *)
Lemma get_available_models_ignores_status_witness :
  Routes.get_available_models response_json (tags 500 "Internal Server Error" two_models)
  = ([], Returns [VStr "llama2"; VStr "mistral"]).
Proof.
  apply (get_available_models_ignores_status response_json
           (tags 500 "Internal Server Error" two_models)
           (Response 500 "Internal Server Error" Routes.MODELS_API [] None two_models)
           {[ "models" := VList [VDict {[ "name" := VStr "llama2";
                                          "size" := VInt 1073741824 ]};
                                 VDict {[ "name" := VStr "mistral" ]}] ]}
           [VDict {[ "name" := VStr "llama2"; "size" := VInt 1073741824 ]};
            VDict {[ "name" := VStr "mistral" ]}]
           [VStr "llama2"; VStr "mistral"]);
    [reflexivity | vm_compute; reflexivity | vm_compute; reflexivity |].
  repeat constructor; eexists; (split; [reflexivity | vm_compute; reflexivity]).
Defined.

(** X17 on a server that answers with two models, one without a size. *)
Lemma api_models_agrees_with_get_available_models_witness :
  ∃ entries names,
    VDict {[ "models" := VList [VDict {[ "name" := VStr "llama2"; "size" := VFloat 1 ]};
                                VDict {[ "name" := VStr "mistral"; "size" := VFloat 0 ]}];
             "status" := VStr "success" ]}
    = VDict {[ "models" := VList entries; "status" := VStr "success" ]}
    ∧ Routes.get_available_models response_json (tags 200 "OK" two_models)
      = ([], Returns names)
    ∧ Forall2 named entries names.
Proof.
  apply (api_models_agrees_with_get_available_models response_json
           (tags 200 "OK" two_models) []).
  vm_compute. reflexivity.
Defined.

Example api_models_fails_on_a_model_without_name :
  Routes.api_models response_json (tags 200 "OK" (wire "{'models':[{'size':1}]}"))
  = ([], Returns (VDict {[ "error" := VStr "'name'"; "status" := VStr "error" ]}, 500)).
Proof. vm_compute. reflexivity. Qed.

Example get_available_models_falls_back :
  Routes.get_available_models response_json (tags 200 "OK" (wire "{'models':{'a':1}}"))
  = ([], Returns [VStr "neural-chat"]).
Proof. vm_compute. reflexivity. Qed.

(** X19 on a body without prompt whose temperature is null. *)
Lemma api_generate_converts_temperature_first_witness :
  Routes.api_generate response_json unreachable float_of_digits
    (VDict {[ "temperature" := VNone ]})
  = ([], Raises (Exn TypeError
       "float() argument must be a string or a real number, not 'NoneType'")).
Proof.
  apply (api_generate_converts_temperature_first response_json unreachable
           float_of_digits {[ "temperature" := VNone ]}).
  vm_compute. reflexivity.
Defined.

(** X20 on a body whose prompt is empty. *)
Lemma api_generate_without_prompt_witness :
  Routes.api_generate response_json unreachable float_of_digits
    (VDict {[ "prompt" := VStr EmptyString ]})
  = ([], Returns (VDict {[ "error" := VStr "No prompt provided" ]}, 400)).
Proof.
  apply (api_generate_without_prompt response_json unreachable float_of_digits
           {[ "prompt" := VStr EmptyString ]} 0.7%float);
    vm_compute; reflexivity.
Defined.

(** X21 on a prompt sent while Ollama cannot be reached. *)
Lemma api_generate_answers_200_witness :
  ∃ result,
    Routes.api_generate response_json unreachable float_of_digits
      (VDict {[ "prompt" := VStr "hi"; "temperature" := VStr "1" ]})
    = ([], Returns (VDict result, 200))
    ∧ Routes.query_ollama response_json unreachable
        (VStr "hi") (VStr "neural-chat") 1 false
      = ([], Returns (App.Dict result))
    ∧ (result !! "status" = Some (VStr "success")
       ∨ result !! "status" = Some (VStr "error")).
Proof.
  apply (api_generate_answers_200 response_json unreachable float_of_digits
           {[ "prompt" := VStr "hi"; "temperature" := VStr "1" ]} 1%float);
    vm_compute; reflexivity.
Defined.

Example api_generate_reports_failure_with_200 :
  Routes.api_generate response_json unreachable float_of_digits
    (VDict {[ "prompt" := VStr "hi" ]})
  = ([], Returns (VDict
       {[ "response" := VStr "❌ Error: Cannot connect to Ollama API. Make sure to run 'ollama serve'";
          "status" := VStr "error" ]}, 200)).
Proof. vm_compute. reflexivity. Qed.

(** X22 on the body [whole_body], whose text is [hi]. *)
Lemma answered_text_makes_a_line_witness :
  ∃ text,
    VStr "hi" = VStr text
    ∧ text ≠ EmptyString
    ∧ drop_space text = None
    ∧ Layout.format_response text 64 ≠ [].
Proof.
  apply (answered_text_makes_a_line response_json
           (serve [] None Examples.whole_body) "hi"
           (Basic.simple_request response_json
              (serve [] None Examples.whole_body) "hi").1
           (VStr "hi") 64);
    vm_compute; reflexivity.
Defined.

Example blank_answer_is_not_boxed :
  (Basic.simple_request response_json
     (serve [] None (wire "{'response':'  '}")) "hi").2
  = Returns (VStr EmptyString)
  ∧ truthy (VStr EmptyString) = false.
Proof. by vm_compute. Qed.
